(** * AI Feedback System (task2/app.py): a shallow embedding and its properties

    The application is one Streamlit script.  The embedding follows the
    script top to bottom: the Python string operations it uses, the CSV
    store ([load_data], [save_submission], [delete_all_submissions]) with the
    part of pandas it relies on, the enrichment client ([call_llm_text]), the
    fallback producers, the submit handler of the user dashboard, the
    analytics, filter, export and deletion of the admin dashboard, and one
    run of the whole script.

    Conventions.
    - A Python [str] is a [string]; a character is a code point below 256.
    - A Python [int] is a [Z]; binary64 numbers are [spec_float] values.
    - Code that may raise returns a [result]; [Unmodelled] marks an input on
      which the behaviour of a library lies outside the embedded fragment
      (binary64 text conversion in pandas, regular-expression syntax beyond
      the constructs listed at [re_compile]). *)

From Stdlib Require Import ZArith String Ascii List Lia Bool Permutation.
From Stdlib Require Import DecimalString DecimalPos DecimalZ SpecFloat.
Import ListNotations.

Set Warnings "-register-all".  (* [json] nests lists and pairs *)

Local Open Scope string_scope.
Local Open Scope Z_scope.

(** ** Results of code that may raise *)

Inductive exn : Type :=
| EmptyDataError      (* pandas.errors.EmptyDataError *)
| ParserError         (* pandas.errors.ParserError *)
| KeyError            (* a missing column *)
| AttributeError      (* the .str accessor on a column that holds no text *)
| ReError.            (* re.error *)

Inductive result (A : Type) : Type :=
| Ok (a : A)
| Raise (e : exn)
| Unmodelled.

Arguments Ok {A} a.
Arguments Raise {A} e.
Arguments Unmodelled {A}.

Definition bind {A B} (r : result A) (k : A -> result B) : result B :=
  match r with
  | Ok a => k a
  | Raise e => Raise e
  | Unmodelled => Unmodelled
  end.

Notation "x <- r ;; k" := (bind r (fun x => k))
  (at level 61, r at next level, right associativity).

(** ** Characters and Python string operations *)

Definition LF : ascii := "010"%char.
Definition CR : ascii := "013"%char.
Definition TAB : ascii := "009"%char.
Definition SPACE : ascii := " "%char.
Definition COMMA : ascii := ","%char.
Definition DQUOTE : ascii := "034"%char.

Definition code (c : ascii) : nat := nat_of_ascii c.

Definition in_range (lo hi : nat) (c : ascii) : bool :=
  (lo <=? code c)%nat && (code c <=? hi)%nat.

(** [str.isspace] on the code points below 256: the characters removed by
    [str.strip()]. *)
Definition py_isspace (c : ascii) : bool :=
  in_range 9 13 c || in_range 28 32 c
  || (code c =? 133)%nat || (code c =? 160)%nat.

Fixpoint lstrip (s : string) : string :=
  match s with
  | String c s' => if py_isspace c then lstrip s' else s
  | EmptyString => EmptyString
  end.

Fixpoint rstrip (s : string) : string :=
  match s with
  | EmptyString => EmptyString
  | String c s' =>
      match rstrip s' with
      | EmptyString => if py_isspace c then EmptyString else String c EmptyString
      | r => String c r
      end
  end.

(** [s.strip()] *)
Definition strip (s : string) : string := rstrip (lstrip s).

(** [s[:n]] for [n >= 0] *)
Fixpoint slice_to (n : nat) (s : string) : string :=
  match n, s with
  | S n', String c s' => String c (slice_to n' s')
  | _, _ => EmptyString
  end.

(** [len(s)] *)
Definition len (s : string) : Z := Z.of_nat (String.length s).

(** [str(n)] for an [int] *)
Definition str_of_int (n : Z) : string := NilEmpty.string_of_int (Z.to_int n).

Fixpoint all_chars (p : ascii -> bool) (s : string) : bool :=
  match s with
  | EmptyString => true
  | String c s' => p c && all_chars p s'
  end.

Fixpoint mem_char (c : ascii) (s : string) : bool :=
  match s with
  | EmptyString => false
  | String d s' => Ascii.eqb c d || mem_char c s'
  end.

Definition mem_string (s : string) (l : list string) : bool :=
  existsb (String.eqb s) l.

(** ** Fallback producers (lines 71-78) *)

Definition fallback_user_response (rating : Z) (review : string) : string :=
  "Thanks for your review! We appreciate your feedback.".

Definition fallback_summary (review : string) : string :=
  slice_to 160 review ++ (if len review >? 160 then "..." else "").

Definition fallback_actions (review : string) (rating : Z) : string :=
  "- Thank the customer" ++ String LF
  ("- Investigate the issue" ++ String LF
   "- Improve service based on feedback").

(** ** Prompt builders (lines 81-88) *)

Definition quoted (s : string) : string :=
  String DQUOTE (s ++ String DQUOTE EmptyString).

Definition user_reply_prompt (rating : Z) (review : string) : string :=
  "Write a brief friendly response a restaurant would send to a customer who left this review (one short paragraph):"
  ++ String LF (String LF
  ("Rating: " ++ str_of_int rating ++ String LF
  ("Review: " ++ quoted review))).

Definition summary_prompt (review : string) : string :=
  "Summarize the following review in one short sentence:"
  ++ String LF (String LF (quoted review)).

Definition actions_prompt (review : string) (rating : Z) : string :=
  "Suggest 3 concise, actionable recommendations the restaurant owner should do based on this review. Provide bullet points only."
  ++ String LF (String LF
  ("Rating: " ++ str_of_int rating ++ String LF
  ("Review: " ++ quoted review))).

(** ** The enrichment client (lines 34-68) *)

(** A decoded JSON document.  Of a number only its not being text matters
    to the client, so it carries an integer. *)
Inductive json : Type :=
| JNull
| JBool (b : bool)
| JNum (n : Z)
| JStr (s : string)
| JArr (l : list json)
| JObj (m : list (string * json)).

(** [json.loads] keeps the last binding of a repeated key. *)
Fixpoint dict_get (k : string) (m : list (string * json)) : option json :=
  match m with
  | [] => None
  | (k', v) :: m' =>
      match dict_get k m' with
      | Some v' => Some v'
      | None => if String.eqb k k' then Some v else None
      end
  end.

(** [j[k]] for a string key: [None] stands for the exception Python raises
    (KeyError on a dict without the key, TypeError on everything else). *)
Definition getitem_key (k : string) (j : json) : option json :=
  match j with
  | JObj m => dict_get k m
  | _ => None
  end.

(** [j[0]]: the first element of a list, the first character of a string;
    IndexError, KeyError or TypeError otherwise. *)
Definition getitem_0 (j : json) : option json :=
  match j with
  | JArr (x :: _) => Some x
  | JStr (String c _) => Some (JStr (String c EmptyString))
  | _ => None
  end.

(** [j.strip()]: only [str] has the method. *)
Definition json_strip (j : json) : option string :=
  match j with
  | JStr s => Some (strip s)
  | _ => None
  end.

Definition obind {A B} (o : option A) (k : A -> option B) : option B :=
  match o with Some a => k a | None => None end.

(** [j["choices"][0]["message"]["content"].strip()] *)
Definition completion_text (j : json) : option string :=
  obind (getitem_key "choices" j) (fun c =>
  obind (getitem_0 c) (fun c0 =>
  obind (getitem_key "message" c0) (fun m =>
  obind (getitem_key "content" m) json_strip))).

Record request : Type := {
  url : string;
  authorization : string;
  content_type : string;
  model : string;
  message_role : string;
  message_content : string;
  temperature : Z;
  timeout : Z
}.

(** What [requests.post] does: it raises (no connection, timeout after
    [timeout] seconds, ...) or returns a response, the last one when it
    followed redirects.  [body] is what [r.json()] returns, [None] when it
    raises on an undecodable body. *)
Inductive outcome : Type :=
| PostRaises
| Response (status_code : Z) (body : option json).

(** [r.raise_for_status()] raises exactly for the 4xx and 5xx codes. *)
Definition raise_for_status (status_code : Z) : bool :=
  (400 <=? status_code) && (status_code <? 600).

(** The [try] body of lines 52-55 and 62-65: [None] when any statement
    raised. *)
Definition read_completion (o : outcome) : option string :=
  match o with
  | PostRaises => None
  | Response status_code body =>
      if raise_for_status status_code then None
      else obind body completion_text
  end.

Record datetime : Type := {
  year : nat; month : nat; day : nat;
  hour : nat; minute : nat; second : nat; microsecond : nat
}.

(** What the script shows to the person using it. *)
Inductive widget : Type :=
| st_error (msg : string)
| st_info (msg : string)
| st_success (msg : string)
| st_markdown (msg : string)
| st_write (args : list string).

(** Everything outside the script that it reads or changes: the two
    environment variables, the remote providers, the requests issued so far,
    the decoded content of data/submissions.csv ([None] when the file does
    not exist), the clock and the screen.  The answer of the providers is a
    function of the request: the requests of one submission differ in their
    address or in their prompt. *)
Record World : Type := {
  OPENAI_API_KEY : option string;
  OPENROUTER_API_KEY : option string;
  provider : request -> outcome;
  sent : list request;
  DATA_PATH : option string;
  utcnow : datetime;
  screen : list widget
}.

Definition with_sent (w : World) (l : list request) : World :=
  {| OPENAI_API_KEY := OPENAI_API_KEY w;
     OPENROUTER_API_KEY := OPENROUTER_API_KEY w;
     provider := provider w; sent := l; DATA_PATH := DATA_PATH w;
     utcnow := utcnow w; screen := screen w |}.

Definition with_file (w : World) (f : option string) : World :=
  {| OPENAI_API_KEY := OPENAI_API_KEY w;
     OPENROUTER_API_KEY := OPENROUTER_API_KEY w;
     provider := provider w; sent := sent w; DATA_PATH := f;
     utcnow := utcnow w; screen := screen w |}.

Definition show (w : World) (x : widget) : World :=
  {| OPENAI_API_KEY := OPENAI_API_KEY w;
     OPENROUTER_API_KEY := OPENROUTER_API_KEY w;
     provider := provider w; sent := sent w; DATA_PATH := DATA_PATH w;
     utcnow := utcnow w; screen := (screen w ++ [x])%list |}.

(** Truthiness of [os.getenv(...)]: unset and empty both count as false. *)
Definition truthy (v : option string) : bool :=
  match v with
  | Some (String _ _) => true
  | _ => false
  end.

(** [a or b] on two [os.getenv] results. *)
Definition py_or (a b : option string) : option string :=
  if truthy a then a else b.

Definition openai_url : string := "https://api.openai.com/v1/chat/completions".
Definition or_url : string := "https://openrouter.ai/v1/chat/completions".

Definition chat_request (u api_key prompt model : string) (timeout : Z)
  : request :=
  {| url := u;
     authorization := "Bearer " ++ api_key;
     content_type := "application/json";
     model := model;
     message_role := "user";
     message_content := prompt;
     temperature := 0;
     timeout := timeout |}.

(** [requests.post(...)]: the request is issued and the provider answers. *)
Definition post (rq : request) (w : World) : outcome * World :=
  (provider w rq, with_sent w (sent w ++ [rq])%list).

Definition call_llm_text_with (prompt model : string) (timeout : Z) (w : World)
  : option string * World :=
  match py_or (OPENAI_API_KEY w) (OPENROUTER_API_KEY w) with
  | Some (String c k) =>
      let api_key := String c k in
      let (r, w1) := post (chat_request openai_url api_key prompt model timeout) w in
      match read_completion r with
      | Some text => (Some text, w1)
      | None =>
          if truthy (OPENROUTER_API_KEY w1) then
            let (r2, w2) := post (chat_request or_url api_key prompt model timeout) w1 in
            (read_completion r2, w2)
          else (None, w1)
      end
  | _ => (None, w)
  end.

(** [call_llm_text(prompt)] with the default model and timeout. *)
Definition call_llm_text (prompt : string) (w : World) : option string * World :=
  call_llm_text_with prompt "gpt-3.5-turbo" 15 w.

(** ** The CSV text format *)

(** *** Writing: [csv.writer] with the settings of [DataFrame.to_csv]
    (delimiter [,], quote character, QUOTE_MINIMAL, doubled quotes, line
    terminator LF).  A field is quoted when it holds the delimiter, the
    quote character or a character of the line terminator; a row that
    consists of one empty field is written as a pair of quotes. *)

Definition special (c : ascii) : bool :=
  Ascii.eqb c COMMA || Ascii.eqb c DQUOTE || Ascii.eqb c LF.

Fixpoint needs_quote (s : string) : bool :=
  match s with
  | EmptyString => false
  | String c s' => special c || needs_quote s'
  end.

Fixpoint double_quotes (s : string) : string :=
  match s with
  | EmptyString => EmptyString
  | String c s' =>
      if Ascii.eqb c DQUOTE then String DQUOTE (String DQUOTE (double_quotes s'))
      else String c (double_quotes s')
  end.

Definition csv_field (s : string) : string :=
  if needs_quote s then String DQUOTE (double_quotes s ++ String DQUOTE EmptyString)
  else s.

Fixpoint join_fields (l : list string) : string :=
  match l with
  | [] => EmptyString
  | [f] => csv_field f
  | f :: l' => csv_field f ++ String COMMA (join_fields l')
  end.

Definition writerow (l : list string) : string :=
  match l with
  | [EmptyString] => String DQUOTE (String DQUOTE (String LF EmptyString))
  | _ => join_fields l ++ String LF EmptyString
  end.

Fixpoint writerows (ls : list (list string)) : string :=
  match ls with
  | [] => EmptyString
  | l :: ls' => writerow l ++ writerows ls'
  end.

(** *** Reading: the tokenizer of the C parser behind [pandas.read_csv]
    with its defaults (delimiter [,], quote character, doubled quotes, blank
    lines skipped, line terminators LF and CR LF).  A carriage return
    outside quotes that is not followed by a line feed is left to
    [Unmodelled]. *)

Inductive tstate : Type :=
| START_RECORD
| START_FIELD
| IN_FIELD
| IN_QUOTED_FIELD
| QUOTE_IN_QUOTED_FIELD
| EAT_CRNL
| EAT_CRNL_NOP
| WHITESPACE_LINE.

(** The tokenizer: its state, the characters of the field being read (in
    [WHITESPACE_LINE], the blanks seen so far), the fields of the line being
    read and the lines completed. *)
Record parser_t : Type := {
  state : tstate;
  word : string;
  line_fields : list string;
  lines : list (list string)
}.

Definition set_state (p : parser_t) (s : tstate) : parser_t :=
  {| state := s; word := word p; line_fields := line_fields p; lines := lines p |}.

Definition push_char (c : ascii) (p : parser_t) (s : tstate) : parser_t :=
  {| state := s; word := word p ++ String c EmptyString;
     line_fields := line_fields p; lines := lines p |}.

Definition end_field (p : parser_t) (s : tstate) : parser_t :=
  {| state := s; word := EmptyString;
     line_fields := (line_fields p ++ [word p])%list; lines := lines p |}.

(** [end_line]: from the second data line on, a line with more fields than
    the line before it is an error; from the first data line on, a line with
    fewer fields is filled up with empty fields. *)
Definition end_line (p : parser_t) : result parser_t :=
  let fields := length (line_fields p) in
  let ex_fields := length (last (lines p) []) in
  let n := length (lines p) in
  if (2 <=? n)%nat && (ex_fields <? fields)%nat then Raise ParserError
  else
    let padded :=
      if (1 <=? n)%nat then (line_fields p ++ repeat EmptyString (ex_fields - fields))%list
      else line_fields p in
    Ok {| state := START_RECORD; word := EmptyString; line_fields := [];
          lines := (lines p ++ [padded])%list |}.

Definition is_blank (c : ascii) : bool := Ascii.eqb c SPACE || Ascii.eqb c TAB.

Definition in_start_field (c : ascii) (p : parser_t) : result parser_t :=
  if Ascii.eqb c LF then end_line (end_field p START_FIELD)
  else if Ascii.eqb c CR then Ok (end_field p EAT_CRNL)
  else if Ascii.eqb c DQUOTE then Ok (set_state p IN_QUOTED_FIELD)
  else if Ascii.eqb c COMMA then Ok (end_field p START_FIELD)
  else Ok (push_char c p IN_FIELD).

Definition in_field (c : ascii) (p : parser_t) : result parser_t :=
  if Ascii.eqb c LF then end_line (end_field p IN_FIELD)
  else if Ascii.eqb c CR then Ok (end_field p EAT_CRNL)
  else if Ascii.eqb c COMMA then Ok (end_field p START_FIELD)
  else Ok (push_char c p IN_FIELD).

Definition tokenize_char (c : ascii) (p : parser_t) : result parser_t :=
  match state p with
  | START_RECORD =>
      if Ascii.eqb c LF then Ok p
      else if Ascii.eqb c CR then Ok (set_state p EAT_CRNL_NOP)
      else if is_blank c then Ok (push_char c p WHITESPACE_LINE)
      else in_start_field c p
  | WHITESPACE_LINE =>
      if Ascii.eqb c LF then
        Ok {| state := START_RECORD; word := EmptyString;
              line_fields := line_fields p; lines := lines p |}
      else if Ascii.eqb c CR then
        Ok {| state := EAT_CRNL_NOP; word := EmptyString;
              line_fields := line_fields p; lines := lines p |}
      else if is_blank c then Ok (push_char c p WHITESPACE_LINE)
      else in_field c p
  | START_FIELD => in_start_field c p
  | IN_FIELD => in_field c p
  | IN_QUOTED_FIELD =>
      if Ascii.eqb c DQUOTE then Ok (set_state p QUOTE_IN_QUOTED_FIELD)
      else Ok (push_char c p IN_QUOTED_FIELD)
  | QUOTE_IN_QUOTED_FIELD =>
      if Ascii.eqb c DQUOTE then Ok (push_char c p IN_QUOTED_FIELD)
      else if Ascii.eqb c COMMA then Ok (end_field p START_FIELD)
      else if Ascii.eqb c LF then end_line (end_field p START_FIELD)
      else if Ascii.eqb c CR then Ok (end_field p EAT_CRNL)
      else Ok (push_char c p IN_FIELD)
  | EAT_CRNL =>
      if Ascii.eqb c LF then end_line p else Unmodelled
  | EAT_CRNL_NOP =>
      if Ascii.eqb c LF then Ok (set_state p START_RECORD) else Unmodelled
  end.

Fixpoint tokenize_bytes (s : string) (p : parser_t) : result parser_t :=
  match s with
  | EmptyString => Ok p
  | String c s' => p' <- tokenize_char c p ;; tokenize_bytes s' p'
  end.

(** [parser_handle_eof]: the end of the text inside a quoted field is an
    error; an unfinished line is completed. *)
Definition parser_handle_eof (p : parser_t) : result (list (list string)) :=
  match state p with
  | START_RECORD | WHITESPACE_LINE | EAT_CRNL_NOP => Ok (lines p)
  | IN_QUOTED_FIELD => Raise ParserError
  | IN_FIELD | START_FIELD | QUOTE_IN_QUOTED_FIELD =>
      p' <- end_line (end_field p START_FIELD) ;; Ok (lines p')
  | EAT_CRNL => p' <- end_line p ;; Ok (lines p')
  end.

Definition parser_new : parser_t :=
  {| state := START_RECORD; word := EmptyString; line_fields := []; lines := [] |}.

Definition tokenize_all_rows (text : string) : result (list (list string)) :=
  p <- tokenize_bytes text parser_new ;; parser_handle_eof p.

(** ** Tables: the part of pandas the script uses *)

(** A value held by a table: a missing value, an [int], a [bool] or a
    [str].  Columns of binary64 numbers other than NaN are outside the
    embedding. *)
Inductive cell : Type :=
| NaN
| VInt (n : Z)
| VBool (b : bool)
| VStr (s : string).

Inductive dtype : Type := int64 | float64 | bool_ | object_.

(** A table, row by row; every row has one cell per column. *)
Record DataFrame : Type := {
  columns : list (string * dtype);
  data : list (list cell)
}.

Definition names (df : DataFrame) : list string := map fst (columns df).

(** [len(df)] *)
Definition nrows (df : DataFrame) : nat := length (data df).

(** [df.empty] *)
Definition df_empty (df : DataFrame) : bool :=
  match columns df, data df with
  | _ :: _, _ :: _ => false
  | _, _ => true
  end.

(** *** Type inference of [read_csv] *)

(** The texts read as a missing value. *)
Definition STR_NA_VALUES : list string :=
  [ ""; "#N/A"; "#N/A N/A"; "#NA"; "-1.#IND"; "-1.#QNAN"; "-NaN"; "-nan";
    "1.#IND"; "1.#QNAN"; "<NA>"; "N/A"; "NA"; "NULL"; "NaN"; "None"; "n/a";
    "nan"; "null" ].

Definition is_na (t : string) : bool := mem_string t STR_NA_VALUES.

Definition isspace_ascii (c : ascii) : bool := Ascii.eqb c SPACE || in_range 9 13 c.
Definition isdigit_ascii (c : ascii) : bool := in_range 48 57 c.

Fixpoint drop_while (p : ascii -> bool) (s : string) : string :=
  match s with
  | String c s' => if p c then drop_while p s' else s
  | EmptyString => EmptyString
  end.

Fixpoint take_while (p : ascii -> bool) (s : string) : string :=
  match s with
  | String c s' => if p c then String c (take_while p s') else EmptyString
  | EmptyString => EmptyString
  end.

(** An optional sign: whether it was a minus, and the rest. *)
Definition strip_sign (s : string) : bool * string :=
  match s with
  | String c s' =>
      if Ascii.eqb c "-" then (true, s')
      else if Ascii.eqb c "+" then (false, s')
      else (false, s)
  | EmptyString => (false, s)
  end.

Definition is_empty (s : string) : bool :=
  match s with EmptyString => true | _ => false end.

(** [str_to_int64]: blanks, an optional sign, at least one digit, blanks;
    [None] also when the value does not fit 64 bits. *)
Definition parse_int64 (t : string) : option Z :=
  let (neg, s) := strip_sign (drop_while isspace_ascii t) in
  let ds := take_while isdigit_ascii s in
  if is_empty ds then None
  else if negb (is_empty (drop_while isspace_ascii (drop_while isdigit_ascii s))) then None
  else
    match NilEmpty.uint_of_string ds with
    | Some u =>
        let v := Z.of_uint u in
        let z := if neg then - v else v in
        if (- 2 ^ 63 <=? z) && (z <? 2 ^ 63) then Some z else None
    | None => None
    end.

(** The syntax the binary64 converter accepts: blanks, an optional sign,
    digits with an optional point (at least one digit), an optional exponent
    with at least one digit, blanks. *)
Definition float_syntax (t : string) : bool :=
  let (_, s) := strip_sign (drop_while isspace_ascii t) in
  let int_digits := take_while isdigit_ascii s in
  let s1 := drop_while isdigit_ascii s in
  let (frac_digits, s2) :=
    match s1 with
    | String c r =>
        if Ascii.eqb c "." then (take_while isdigit_ascii r, drop_while isdigit_ascii r)
        else (EmptyString, s1)
    | EmptyString => (EmptyString, s1)
    end in
  if is_empty int_digits && is_empty frac_digits then false
  else
    let s3 :=
      match s2 with
      | String c r =>
          if Ascii.eqb c "e" || Ascii.eqb c "E" then
            let (_, r1) := strip_sign r in
            if is_empty (take_while isdigit_ascii r1) then s2
            else drop_while isdigit_ascii r1
          else s2
      | EmptyString => s2
      end in
    is_empty (drop_while isspace_ascii s3).

(** [tolower] in the C locale, and a text in lower case. *)
Definition tolower_ascii (c : ascii) : ascii :=
  if in_range 65 90 c then ascii_of_nat (code c + 32) else c.

Fixpoint lower_ascii (s : string) : string :=
  match s with
  | EmptyString => EmptyString
  | String c s' => String (tolower_ascii c) (lower_ascii s')
  end.

(** The names of the infinities, compared with [strcasecmp]. *)
Definition inf_name (t : string) : bool :=
  mem_string (lower_ascii t)
    ["inf"; "+inf"; "-inf"; "infinity"; "+infinity"; "-infinity"].

(** A text that the parser would read as a number. *)
Definition numeric_like (t : string) : bool := float_syntax t || inf_name t.

(** [to_boolean]: TRUE and FALSE in any letter case ([strcasecmp]). *)
Definition to_boolean (t : string) : option bool :=
  if String.eqb (lower_ascii t) "true" then Some true
  else if String.eqb (lower_ascii t) "false" then Some false
  else None.

Definition bool_like (t : string) : bool :=
  match to_boolean t with Some _ => true | None => false end.

(** What a column of texts is converted to. *)
Inductive kind : Type :=
| KInt       (* all integers, none missing: int64 *)
| KNaN       (* all missing: float64 holding NaN only *)
| KBool      (* all booleans, none missing: bool *)
| KBoolNA    (* booleans and missing values: object *)
| KStr.      (* text: object *)

Definition is_int64 (t : string) : bool :=
  negb (is_na t) && match parse_int64 t with Some _ => true | None => false end.

(** The conversions are tried in the order int64, float64, bool, object;
    a column that would become a column of binary64 numbers is
    [Unmodelled]. *)
Definition infer_kind (col : list string) : result kind :=
  match col with
  | [] => Ok KStr
  | _ =>
      if forallb is_int64 col then Ok KInt
      else
        match filter (fun t => negb (is_na t)) col with
        | [] => Ok KNaN
        | vals =>
            if forallb numeric_like vals then Unmodelled
            else if forallb bool_like vals then
              Ok (if existsb is_na col then KBoolNA else KBool)
            else Ok KStr
        end
  end.

Definition dtype_of_kind (k : kind) : dtype :=
  match k with
  | KInt => int64
  | KNaN => float64
  | KBool => bool_
  | KBoolNA => object_
  | KStr => object_
  end.

Definition convert (k : kind) (t : string) : cell :=
  if is_na t then NaN
  else
    match k with
    | KInt => match parse_int64 t with Some z => VInt z | None => NaN end
    | KNaN => NaN
    | KBool | KBoolNA =>
        match to_boolean t with Some b => VBool b | None => NaN end
    | KStr => VStr t
    end.

Fixpoint convert_row (ks : list kind) (r : list string) : list cell :=
  match ks, r with
  | k :: ks', t :: r' => convert k t :: convert_row ks' r'
  | k :: ks', [] => convert k EmptyString :: convert_row ks' []
  | [], _ => []
  end.

(** The texts of column [j]. *)
Definition token_column (j : nat) (body : list (list string)) : list string :=
  map (fun r => nth j r EmptyString) body.

Fixpoint infer_columns (js : list nat) (body : list (list string))
  : result (list kind) :=
  match js with
  | [] => Ok []
  | j :: js' =>
      k <- infer_kind (token_column j body) ;;
      ks <- infer_columns js' body ;;
      Ok (k :: ks)
  end.

Fixpoint nodupb (l : list string) : bool :=
  match l with
  | [] => true
  | x :: l' => negb (mem_string x l') && nodupb l'
  end.

(** The parser converts a large table in blocks of rows, each block on
    its own: 2^20 / width rows, rounded to a power of two that is at least
    half of that.  A table of at most 2^19 cells is one block. *)
Definition one_block (table_width rows : nat) : bool :=
  Z.of_nat rows * Z.of_nat table_width <=? 2 ^ 19.

(** [pd.read_csv(text)].  The first line names the columns; names that
    pandas would rewrite (empty or repeated) are [Unmodelled], and so is a
    table of more than one block.  The width of the table is the number of
    fields of the first data line; when that line has more fields than the
    header, the leading fields become the row labels, which the script
    never reads. *)
Definition read_csv (text : string) : result DataFrame :=
  ls <- tokenize_all_rows text ;;
  match ls with
  | [] => Raise EmptyDataError
  | header :: body =>
      if mem_string EmptyString header || negb (nodupb header) then Unmodelled
      else
        let table_width :=
          match body with
          | [] => length header
          | l :: _ => length l
          end in
        if negb (one_block table_width (length body)) then Unmodelled
        else
          let leading_cols := (table_width - length header)%nat in
          let body' := map (skipn leading_cols) body in
          ks <- infer_columns (seq 0 (length header)) body' ;;
          Ok {| columns := combine header (map dtype_of_kind ks);
                data := map (convert_row ks) body' |}
  end.

(** *** Writing a table *)

Definition render (c : cell) : string :=
  match c with
  | NaN => EmptyString
  | VInt n => str_of_int n
  | VBool true => "True"
  | VBool false => "False"
  | VStr s => s
  end.

(** [df.to_csv(index=False)] *)
Definition to_csv (df : DataFrame) : string :=
  writerows (names df :: map (map render) (data df)).

(** *** Appending: [pd.concat([df, other], ignore_index=True)] *)

Fixpoint index_of (n : string) (l : list string) : option nat :=
  match l with
  | [] => None
  | x :: l' => if String.eqb n x then Some O else option_map S (index_of n l')
  end.

Fixpoint lookup_dtype (n : string) (cols : list (string * dtype)) : option dtype :=
  match cols with
  | [] => None
  | (x, d) :: cols' => if String.eqb n x then Some d else lookup_dtype n cols'
  end.

(** The cells of a row of a table with columns [src], laid out for the
    columns [dst]; a column the row does not have is filled with NaN. *)
Definition reindex (src dst : list string) (r : list cell) : list cell :=
  map (fun n => match index_of n src with
                | Some i => nth i r NaN
                | None => NaN
                end) dst.

Definition dtype_eqb (a b : dtype) : bool :=
  match a, b with
  | int64, int64 | float64, float64 | bool_, bool_ | object_, object_ => true
  | _, _ => false
  end.

(** The type of a column on one side of the concatenation: a column the
    side lacks counts as a float64 column of NaN when the side has rows. *)
Definition side_dtype (df : DataFrame) (n : string) : option dtype :=
  match lookup_dtype n (columns df) with
  | Some d => Some d
  | None => match data df with [] => None | _ :: _ => Some float64 end
  end.

(** The type of the concatenated column.  Integers joined with a float64
    column become binary64 numbers: [Unmodelled].  (The script writes the
    result out at once and never looks at this type.) *)
Definition common_dtype (a b : option dtype) : result dtype :=
  match a, b with
  | None, None => Ok object_
  | Some d, None => Ok d
  | None, Some d => Ok d
  | Some int64, Some float64 => Unmodelled
  | Some float64, Some int64 => Unmodelled
  | Some d1, Some d2 => Ok (if dtype_eqb d1 d2 then d1 else object_)
  end.

Fixpoint concat_columns (a b : DataFrame) (ns : list string)
  : result (list (string * dtype)) :=
  match ns with
  | [] => Ok []
  | n :: ns' =>
      d <- common_dtype (side_dtype a n) (side_dtype b n) ;;
      cols <- concat_columns a b ns' ;;
      Ok ((n, d) :: cols)
  end.

Definition concat (a b : DataFrame) : result DataFrame :=
  let ns := (names a
             ++ filter (fun n => negb (mem_string n (names a))) (names b))%list in
  cols <- concat_columns a b ns ;;
  Ok {| columns := cols;
        data := (map (reindex (names a) ns) (data a)
                 ++ map (reindex (names b) ns) (data b))%list |}.

(** ** The store (lines 17-31) *)

(** The [row] dictionary of lines 120-127. *)
Module Row.

Record t : Type := {
  timestamp : string;
  rating : Z;
  review : string;
  ai_response : string;
  summary : string;
  actions : string
}.

End Row.

Definition submission_columns : list (string * dtype) :=
  [ ("timestamp", object_); ("rating", int64); ("review", object_);
    ("ai_response", object_); ("summary", object_); ("actions", object_) ].

(** [pd.DataFrame([row])] *)
Definition DataFrame_of_row (row : Row.t) : DataFrame :=
  {| columns := submission_columns;
     data := [[ VStr (Row.timestamp row); VInt (Row.rating row);
                VStr (Row.review row); VStr (Row.ai_response row);
                VStr (Row.summary row); VStr (Row.actions row) ]] |}.

(** [pd.DataFrame(columns=[...])]: no rows, every column of type object. *)
Definition empty_table : DataFrame :=
  {| columns := map (fun c => (fst c, object_)) submission_columns; data := [] |}.

Definition load_data (w : World) : result DataFrame :=
  match DATA_PATH w with
  | Some text => read_csv text
  | None => Ok empty_table
  end.

Definition save_submission (row : Row.t) (w : World) : result World :=
  df <- load_data w ;;
  df' <- concat df (DataFrame_of_row row) ;;
  Ok (with_file w (Some (to_csv df'))).

Definition delete_all_submissions (w : World) : World :=
  match DATA_PATH w with
  | Some _ => with_file w None
  | None => w
  end.

(** ** The user dashboard (lines 94-135) *)

Definition str_of_nat (n : nat) : string := NilEmpty.string_of_uint (Nat.to_uint n).

Fixpoint zeros (n : nat) : string :=
  match n with O => EmptyString | S n' => String "0" (zeros n') end.

(** [%0wd] *)
Definition zfill (width n : nat) : string :=
  let s := str_of_nat n in zeros (width - String.length s) ++ s.

(** [datetime.isoformat()] of a naive datetime. *)
Definition isoformat (d : datetime) : string :=
  zfill 4 (year d) ++ "-" ++ zfill 2 (month d) ++ "-" ++ zfill 2 (day d)
  ++ "T" ++ zfill 2 (hour d) ++ ":" ++ zfill 2 (minute d) ++ ":"
  ++ zfill 2 (second d)
  ++ (if (microsecond d =? 0)%nat then "" else "." ++ zfill 6 (microsecond d)).

Definition or_fallback (r : option string) (fallback : string) : string :=
  match r with
  | Some text => text
  | None => fallback
  end.

(** What happens when the Submit button is pressed with the given rating
    and review: [Ok None] when the review is refused, [Ok (Some row)] when
    [row] was saved; the exceptions of [save_submission] are not caught. *)
Definition submit (rating : Z) (review : string) (w : World)
  : result (option Row.t) * World :=
  if String.eqb (strip review) "" then
    (Ok None, show w (st_error "Review cannot be empty"))
  else
    let w0 := show w (st_info "Saving your review...") in
    let (ai_resp, w1) := call_llm_text (user_reply_prompt rating review) w0 in
    let (summary, w2) := call_llm_text (summary_prompt review) w1 in
    let (actions, w3) := call_llm_text (actions_prompt review rating) w2 in
    let ai_resp := or_fallback ai_resp (fallback_user_response rating review) in
    let summary := or_fallback summary (fallback_summary review) in
    let actions := or_fallback actions (fallback_actions review rating) in
    let ts := isoformat (utcnow w3) in
    let row := {| Row.timestamp := ts; Row.rating := rating;
                  Row.review := review; Row.ai_response := ai_resp;
                  Row.summary := summary; Row.actions := actions |} in
    match save_submission row w3 with
    | Ok w4 =>
        let w5 := show w4 (st_success "Submitted! Here is the AI response:") in
        let w6 := show w5 (st_markdown ("**AI reply:** " ++ ai_resp)) in
        let w7 := show w6 (st_write ["**Summary:**"; summary]) in
        let w8 := show w7 (st_write ["**Recommended actions:**"]) in
        (Ok (Some row), show w8 (st_markdown actions))
    | Raise e => (Raise e, w3)
    | Unmodelled => (Unmodelled, w3)
    end.

(** ** Regular expressions: the part of Python's [re] behind
    [Series.str.contains] *)

(** Parsed patterns, with the operators of [sre_parse]. *)
Inductive regex : Type :=
| EMPTY
| LITERAL (c : ascii)
| ANY
| AT_BEGINNING
| AT_END
| IN (negate : bool) (set : list (ascii * ascii))
| SEQ (a b : regex)
| BRANCH (a b : regex)
| SUBPATTERN (p : regex)
| MAX_REPEAT (lo : nat) (hi : option nat) (p : regex)
| MIN_REPEAT (lo : nat) (hi : option nat) (p : regex).

(** The alternatives completed so far and the items of the alternative
    being read, of one (sub)pattern. *)
Record frame : Type := {
  branches : list regex;
  items : list regex
}.

Inductive pmode : Type :=
| NORMAL
| ESCAPE                 (* a backslash was read *)
| GROUP_OPEN             (* an opening parenthesis was read *)
| SET_OPEN               (* an opening bracket was read *)
| SET_ITEMS (negate : bool) (set : list (ascii * ascii))
| SET_ESCAPE (negate : bool) (set : list (ascii * ascii))
| SET_AFTER (negate : bool) (set : list (ascii * ascii)) (lo : ascii)
| SET_RANGE (negate : bool) (set : list (ascii * ascii)) (lo : ascii)
| SET_RANGE_ESCAPE (negate : bool) (set : list (ascii * ascii)) (lo : ascii).

Record pstate : Type := {
  mode : pmode;
  cur : frame;
  stack : list frame
}.

Fixpoint seq_of (l : list regex) : regex :=
  match l with
  | [] => EMPTY
  | [x] => x
  | x :: l' => SEQ x (seq_of l')
  end.

Fixpoint branch_of (l : list regex) : regex :=
  match l with
  | [] => EMPTY
  | [x] => x
  | x :: l' => BRANCH x (branch_of l')
  end.

Definition close_frame (f : frame) : regex :=
  branch_of (branches f ++ [seq_of (items f)])%list.

Definition add_item (r : regex) (f : frame) : frame :=
  {| branches := branches f; items := (items f ++ [r])%list |}.

Definition normal (f : frame) (st : list frame) : pstate :=
  {| mode := NORMAL; cur := f; stack := st |}.

Definition is_alnum (c : ascii) : bool :=
  in_range 48 57 c || in_range 65 90 c || in_range 97 122 c.

(** A repetition operator [c] applied to the last item: there must be an
    item and it must not be an anchor; a second operator is an error,
    except [?] after a greedy repetition (lazy) and [+] after one
    (possessive in Python 3.11, an error before: [Unmodelled]). *)
Definition repeat_last (lo : nat) (hi : option nat) (c : ascii) (f : frame)
  : result frame :=
  match rev (items f) with
  | [] => Raise ReError
  | x :: before =>
      let put y := Ok {| branches := branches f; items := rev (y :: before) |} in
      match x with
      | AT_BEGINNING | AT_END => Raise ReError
      | MAX_REPEAT l h p =>
          if Ascii.eqb c "?" then put (MIN_REPEAT l h p)
          else if Ascii.eqb c "+" then Unmodelled
          else Raise ReError
      | MIN_REPEAT _ _ _ => Raise ReError
      | _ => put (MAX_REPEAT lo hi x)
      end
  end.

Definition parse_normal (c : ascii) (f : frame) (st : list frame)
  : result pstate :=
  if Ascii.eqb c "\" then Ok {| mode := ESCAPE; cur := f; stack := st |}
  else if Ascii.eqb c "[" then Ok {| mode := SET_OPEN; cur := f; stack := st |}
  else if Ascii.eqb c "*" then f' <- repeat_last 0 None c f ;; Ok (normal f' st)
  else if Ascii.eqb c "+" then f' <- repeat_last 1 None c f ;; Ok (normal f' st)
  else if Ascii.eqb c "?" then f' <- repeat_last 0 (Some 1%nat) c f ;; Ok (normal f' st)
  else if Ascii.eqb c "{" then Unmodelled
  else if Ascii.eqb c "." then Ok (normal (add_item ANY f) st)
  else if Ascii.eqb c "^" then Ok (normal (add_item AT_BEGINNING f) st)
  else if Ascii.eqb c "$" then Ok (normal (add_item AT_END f) st)
  else if Ascii.eqb c "(" then
    Ok {| mode := GROUP_OPEN; cur := {| branches := []; items := [] |};
          stack := f :: st |}
  else if Ascii.eqb c ")" then
    match st with
    | [] => Raise ReError
    | outer :: st' => Ok (normal (add_item (SUBPATTERN (close_frame f)) outer) st')
    end
  else if Ascii.eqb c "|" then
    Ok (normal {| branches := (branches f ++ [seq_of (items f)])%list;
                  items := [] |} st)
  else Ok (normal (add_item (LITERAL c) f) st).

(** Inside brackets, where an item may start. *)
Definition parse_set_item (c : ascii) (negate : bool)
  (set : list (ascii * ascii)) (f : frame) (st : list frame) : result pstate :=
  if Ascii.eqb c "]" && negb (match set with [] => true | _ => false end) then
    Ok (normal (add_item (IN negate set) f) st)
  else if Ascii.eqb c "\" then
    Ok {| mode := SET_ESCAPE negate set; cur := f; stack := st |}
  else Ok {| mode := SET_AFTER negate set c; cur := f; stack := st |}.

Definition parse_char (c : ascii) (s : pstate) : result pstate :=
  let f := cur s in
  let st := stack s in
  match mode s with
  | NORMAL => parse_normal c f st
  | ESCAPE =>
      if is_alnum c then Unmodelled
      else Ok (normal (add_item (LITERAL c) f) st)
  | GROUP_OPEN =>
      if Ascii.eqb c "?" then Unmodelled else parse_normal c f st
  | SET_OPEN =>
      if Ascii.eqb c "^" then Ok {| mode := SET_ITEMS true []; cur := f; stack := st |}
      else parse_set_item c false [] f st
  | SET_ITEMS negate set => parse_set_item c negate set f st
  | SET_ESCAPE negate set =>
      if is_alnum c then Unmodelled
      else Ok {| mode := SET_AFTER negate set c; cur := f; stack := st |}
  | SET_AFTER negate set lo =>
      if Ascii.eqb c "-" then Ok {| mode := SET_RANGE negate set lo; cur := f; stack := st |}
      else parse_set_item c negate (set ++ [(lo, lo)])%list f st
  | SET_RANGE negate set lo =>
      if Ascii.eqb c "]" then
        Ok (normal (add_item (IN negate (set ++ [(lo, lo); ("-"%char, "-"%char)])%list) f) st)
      else if Ascii.eqb c "\" then
        Ok {| mode := SET_RANGE_ESCAPE negate set lo; cur := f; stack := st |}
      else if (code c <? code lo)%nat then Raise ReError
      else Ok {| mode := SET_ITEMS negate (set ++ [(lo, c)])%list; cur := f; stack := st |}
  | SET_RANGE_ESCAPE negate set lo =>
      if is_alnum c then Unmodelled
      else if (code c <? code lo)%nat then Raise ReError
      else Ok {| mode := SET_ITEMS negate (set ++ [(lo, c)])%list; cur := f; stack := st |}
  end.

Fixpoint parse_chars (p : string) (s : pstate) : result pstate :=
  match p with
  | EmptyString => Ok s
  | String c p' => s' <- parse_char c s ;; parse_chars p' s'
  end.

(** [re.compile(pattern)].  Embedded: literals, [.], [^], [$], [|],
    groups, the operators [*], [+], [?] and their lazy forms, bracket sets
    with ranges and negation, and a backslash before a character that is
    neither a letter nor a digit.  Everything else ([{], [(?], a backslash
    before a letter or digit, possessive operators) is [Unmodelled].  A
    pattern that does not end in the top-level normal state is an error:
    a trailing backslash, an unterminated set, a missing parenthesis. *)
Definition re_compile (pattern : string) : result regex :=
  s <- parse_chars pattern
         {| mode := NORMAL; cur := {| branches := []; items := [] |}; stack := [] |} ;;
  match mode s, stack s with
  | NORMAL, [] => Ok (close_frame (cur s))
  | _, _ => Raise ReError
  end.

(** *** Matching, with the flag IGNORECASE *)

(** Lower case of the code points below 256 whose lower case is again
    below 256. *)
Definition lower (c : ascii) : ascii :=
  if in_range 65 90 c || (in_range 192 222 c && negb (code c =? 215)%nat)
  then ascii_of_nat (code c + 32)
  else c.

(** A range of a set matches the characters whose lower case is the lower
    case of a character of the range. *)
Definition in_set (d : ascii) (set : list (ascii * ascii)) : bool :=
  existsb (fun item =>
    existsb (fun k => Ascii.eqb (lower (ascii_of_nat k)) (lower d))
            (seq (code (fst item)) (code (snd item) + 1 - code (fst item))))
    set.

(** The positions reached from the positions [front] by repeating [step]
    at most [fuel] times. *)
Fixpoint closure (step : nat -> list nat) (fuel : nat) (front : list nat)
  : list nat :=
  match fuel with
  | O => front
  | S fuel' =>
      (front ++ closure step fuel' (nodup Nat.eq_dec (flat_map step front)))%list
  end.

(** [ends r s i]: the positions at which a match of [r] that starts at
    position [i] of [s] can end. *)
Fixpoint ends (r : regex) (s : string) (i : nat) : list nat :=
  let repeat_ends lo hi p :=
    let step := ends p s in
    let start := Nat.iter lo (fun front => nodup Nat.eq_dec (flat_map step front)) [i] in
    closure step
      (match hi with Some h => h - lo | None => String.length s end)%nat start in
  match r with
  | EMPTY => [i]
  | LITERAL c =>
      match String.get i s with
      | Some d => if Ascii.eqb (lower d) (lower c) then [S i] else []
      | None => []
      end
  | ANY =>
      match String.get i s with
      | Some d => if Ascii.eqb d LF then [] else [S i]
      | None => []
      end
  | AT_BEGINNING => if (i =? 0)%nat then [i] else []
  | AT_END =>
      if (i =? String.length s)%nat then [i]
      else if (S i =? String.length s)%nat then
        match String.get i s with
        | Some d => if Ascii.eqb d LF then [i] else []
        | None => []
        end
      else []
  | IN negate set =>
      match String.get i s with
      | Some d => if xorb negate (in_set d set) then [S i] else []
      | None => []
      end
  | SEQ a b => flat_map (ends b s) (ends a s i)
  | BRANCH a b => (ends a s i ++ ends b s i)%list
  | SUBPATTERN p => ends p s i
  | MAX_REPEAT lo hi p => repeat_ends lo hi p
  | MIN_REPEAT lo hi p => repeat_ends lo hi p
  end.

(** [regex.search(s) is not None] *)
Definition re_search (r : regex) (s : string) : bool :=
  existsb (fun i => match ends r s i with [] => false | _ => true end)
          (seq 0 (S (String.length s))).

(** ** The admin dashboard (lines 138-177) *)

(** *** Columns *)

(** [df[name]]: the type and the cells of a column, KeyError without it. *)
Definition getitem (df : DataFrame) (name : string)
  : result (dtype * list cell) :=
  match index_of name (names df), lookup_dtype name (columns df) with
  | Some i, Some d => Ok (d, map (fun r => nth i r NaN) (data df))
  | _, _ => Raise KeyError
  end.

(** [df[mask]] *)
Fixpoint select {A} (mask : list bool) (l : list A) : list A :=
  match mask, l with
  | b :: mask', x :: l' => if b then x :: select mask' l' else select mask' l'
  | _, _ => []
  end.

Definition df_select (df : DataFrame) (mask : list bool) : DataFrame :=
  {| columns := columns df; data := select mask (data df) |}.

(** *** Analytics (lines 148-154) *)

(** Binary64 arithmetic. *)
Definition prec : Z := 53.
Definition emax : Z := 1024.

Definition float_of_int (n : Z) : spec_float := binary_normalize prec emax n 0 false.

(** [numpy.rint]: to the nearest integer, ties to even. *)
Definition rint (x : spec_float) : spec_float :=
  match x with
  | S754_finite s m e =>
      if 0 <=? e then x
      else
        let d := 2 ^ (- e) in
        let q := Z.pos m / d in
        let r := Z.pos m mod d in
        let q' :=
          match 2 * r ?= d with
          | Lt => q
          | Gt => q + 1
          | Eq => if Z.even q then q else q + 1
          end in
        if q' =? 0 then S754_zero s
        else binary_normalize prec emax (if s then - q' else q') 0 s
  | _ => x
  end.

(** [round(x, 2)] on a numpy float64: scale, round to an integer, scale
    back. *)
Definition round2 (x : spec_float) : spec_float :=
  SFdiv prec emax (rint (SFmul prec emax x (float_of_int 100))) (float_of_int 100).

(** [Series.mean()] of integers adds them up as binary64 numbers and
    divides by the count.  When the absolute values add up to less than
    2^53 every partial sum is an integer that binary64 holds exactly, in
    whichever order the values are added. *)
Definition sums_exactly (l : list Z) : bool :=
  fold_right (fun x a => Z.abs x + a) 0 l <? 2 ^ 53.

Definition mean (l : list Z) : spec_float :=
  SFdiv prec emax (float_of_int (fold_right Z.add 0 l))
                  (float_of_int (Z.of_nat (length l))).

(** [Series.value_counts()]: every value with the number of its
    occurrences, the most frequent first. *)
Fixpoint count_in (x : Z) (m : list (Z * nat)) : list (Z * nat) :=
  match m with
  | [] => [(x, 1%nat)]
  | (y, k) :: m' => if x =? y then (y, S k) :: m' else (y, k) :: count_in x m'
  end.

Definition tally (l : list Z) : list (Z * nat) :=
  fold_left (fun m x => count_in x m) l [].

Fixpoint insert_by (le : Z * nat -> Z * nat -> bool) (x : Z * nat)
  (l : list (Z * nat)) : list (Z * nat) :=
  match l with
  | [] => [x]
  | y :: l' => if le x y then x :: l else y :: insert_by le x l'
  end.

Definition sort_by (le : Z * nat -> Z * nat -> bool) (l : list (Z * nat))
  : list (Z * nat) :=
  fold_right (insert_by le) [] l.

Definition value_counts (l : list Z) : list (Z * nat) :=
  sort_by (fun a b => (snd b <=? snd a)%nat) (tally l).

(** [Series.sort_index()] *)
Definition sort_index (m : list (Z * nat)) : list (Z * nat) :=
  sort_by (fun a b => fst a <=? fst b) m.

(** [counts.get(r, 0)] *)
Fixpoint counts_get (r : Z) (m : list (Z * nat)) : nat :=
  match m with
  | [] => O
  | (y, k) :: m' => if r =? y then k else counts_get r m'
  end.

Fixpoint ints_of (cells : list cell) : list Z :=
  match cells with
  | [] => []
  | VInt n :: cells' => n :: ints_of cells'
  | _ :: cells' => ints_of cells'
  end.

Record Analytics : Type := {
  total : nat;                  (* "Total submissions" *)
  avg_rating : spec_float;      (* "Avg rating" *)
  per_rating : list (Z * nat)   (* the count shown for r = 1, ..., 5 *)
}.

(** The analytics row.  A rating column of type bool or object (text in
    the column) is [Unmodelled], and so are integers too large to be added
    up exactly. *)
Definition analytics (df : DataFrame) : result Analytics :=
  col <- getitem df "rating" ;;
  match fst col with
  | int64 | float64 =>
      let ratings := ints_of (snd col) in
      let counts := sort_index (value_counts ratings) in
      if sums_exactly ratings then
        Ok {| total := nrows df;
              avg_rating := round2 (mean ratings);
              per_rating := map (fun r => (r, counts_get r counts)) [1; 2; 3; 4; 5] |}
      else Unmodelled
  | _ => Unmodelled
  end.

(** *** Filter (lines 159-164) *)

(** An element of [Series.isin(values)] for a list of integers: [True]
    and [False] compare equal to 1 and 0. *)
Definition isin (values : list Z) (c : cell) : bool :=
  match c with
  | VInt n => existsb (Z.eqb n) values
  | VBool b => existsb (Z.eqb (if b then 1 else 0)) values
  | _ => false
  end.

Definition is_str (c : cell) : bool := match c with VStr _ => true | _ => false end.
Definition is_bool (c : cell) : bool := match c with VBool _ => true | _ => false end.
Definition is_int (c : cell) : bool := match c with VInt _ => true | _ => false end.
Definition notna (c : cell) : bool := match c with NaN => false | _ => true end.

(** The [.str] accessor exists on a column of type object whose values
    are text, or mixed; not on numbers or booleans. *)
Definition str_accessor (col : dtype * list cell) : bool :=
  match fst col with
  | object_ =>
      let vals := filter notna (snd col) in
      forallb is_str vals || negb (forallb is_bool vals || forallb is_int vals)
  | _ => false
  end.

(** [col.str.contains(pat, case=False, na=False)]: the pattern is
    compiled as a regular expression before any row is looked at. *)
Definition str_contains (col : dtype * list cell) (pat : string)
  : result (list bool) :=
  if str_accessor col then
    r <- re_compile pat ;;
    Ok (map (fun c => match c with
                      | VStr s => re_search r s
                      | _ => false
                      end) (snd col))
  else Raise AttributeError.

Definition admin_filter (df : DataFrame) (selected_ratings : list Z) (q : string)
  : result DataFrame :=
  rating <- getitem df "rating" ;;
  let filtered := df_select df (map (isin selected_ratings) (snd rating)) in
  if negb (String.eqb (strip q) "") then
    review <- getitem filtered "review" ;;
    mask <- str_contains review q ;;
    Ok (df_select filtered mask)
  else Ok filtered.

(** *** The page *)

Record AdminView : Type := {
  shown_analytics : Analytics;
  shown_table : DataFrame;
  csv_buf : string               (* the content of "Download filtered CSV" *)
}.

(** The admin page for the given widget values; [Ok None] is the page
    that only says "No submissions yet.". *)
Definition admin_dashboard (selected_ratings : list Z) (q : string) (w : World)
  : result (option AdminView) :=
  df <- load_data w ;;
  if df_empty df then Ok None
  else
    a <- analytics df ;;
    filtered <- admin_filter df selected_ratings q ;;
    Ok (Some {| shown_analytics := a; shown_table := filtered;
                csv_buf := to_csv filtered |}).

(** ** Notions used to state the properties *)

(** The decoded body [j] has the text [content] at
    [choices[0].message.content]. *)
Definition content_path (j : json) (content : string) : Prop :=
  exists m m0 rest mm,
    j = JObj m
    /\ dict_get "choices" m = Some (JArr (JObj m0 :: rest))
    /\ dict_get "message" m0 = Some (JObj mm)
    /\ dict_get "content" mm = Some (JStr content).

(** A provider call that fails: it raises (no connection, time-out), it
    answers with a 4xx or 5xx status, or its body cannot be decoded or lacks
    the text of a completion. *)
Inductive failed : outcome -> Prop :=
| failed_raises : failed PostRaises
| failed_status (s : Z) (b : option json) : 400 <= s < 600 -> failed (Response s b)
| failed_undecodable (s : Z) : failed (Response s None)
| failed_malformed (s : Z) (j : json) :
    (forall content, ~ content_path j content) -> failed (Response s (Some j)).

(** A well-formed chat completion with the given text. *)
Definition completion (content : string) : json :=
  JObj [("choices", JArr [JObj [("message", JObj [("role", JStr "assistant");
                                                  ("content", JStr content)])]])].

Definition a_moment : datetime :=
  {| year := 2024; month := 1; day := 2; hour := 3; minute := 4; second := 5;
     microsecond := 0 |}.

(** A world with a key for the first provider, no stored file, and
    providers that answer every request with [o]. *)
Definition world_answering (o : outcome) : World :=
  {| OPENAI_API_KEY := Some "sk-test"; OPENROUTER_API_KEY := None;
     provider := fun _ => o; sent := []; DATA_PATH := None;
     utcnow := a_moment; screen := [] |}.

(** The table of the four ratings 5, 5, 3, 1. *)
Definition four_ratings : DataFrame :=
  {| columns := submission_columns;
     data :=
       [ [VStr "2024-01-01T10:00:00"; VInt 5; VStr "Great food"; VStr "Thanks!";
          VStr "Great food"; VStr "- Keep it up"];
         [VStr "2024-01-01T11:00:00"; VInt 5; VStr "Lovely staff"; VStr "Thanks!";
          VStr "Lovely staff"; VStr "- Keep it up"];
         [VStr "2024-01-01T12:00:00"; VInt 3; VStr "Slow service"; VStr "Sorry!";
          VStr "Slow service"; VStr "- Hire staff"];
         [VStr "2024-01-01T13:00:00"; VInt 1; VStr "Cold soup"; VStr "Sorry!";
          VStr "Cold soup"; VStr "- Check the kitchen"] ] |}.

(** [s] starts with [q], letter case ignored. *)
Fixpoint starts_with_ci (q s : string) : bool :=
  match q, s with
  | EmptyString, _ => true
  | String c q', String d s' => Ascii.eqb (lower d) (lower c) && starts_with_ci q' s'
  | String _ _, EmptyString => false
  end.

(** [s] contains [q] as a substring, letter case ignored. *)
Fixpoint contains_ci (q s : string) : bool :=
  starts_with_ci q s
  || match s with
     | EmptyString => false
     | String _ s' => contains_ci q s'
     end.

(** A cell of a column of text: a text or a missing value. *)
Definition text_or_missing (c : cell) : Prop :=
  match c with
  | NaN | VStr _ => True
  | _ => False
  end.

(** *** Texts that survive being written and read back *)

(** A field the writer leaves bare must hold no carriage return, which the
    reader would take for the end of the line. *)
Definition safe_field (f : string) : bool := needs_quote f || negb (mem_char CR f).

(** A row the reader gives back as written: it has a field, its fields are
    safe, and it is not a single field of blanks, which the reader would
    skip as a blank line. *)
Definition safe_row (r : list string) : bool :=
  forallb safe_field r
  && match r with
     | [] => false
     | [String c f] => negb (all_chars is_blank (String c f))
     | _ => true
     end.

(** A row filled up with empty fields to [n] fields. *)
Definition pad_row (n : nat) (r : list string) : list string :=
  (r ++ repeat EmptyString (n - length r))%list.

(** A character that continues a bare field. *)
Definition plain_char (c : ascii) : bool :=
  negb (Ascii.eqb c LF || Ascii.eqb c CR || Ascii.eqb c COMMA || Ascii.eqb c DQUOTE).

(** The lines the reader holds after it has ended a line for each of
    [rows], starting from the lines [ls]. *)
Fixpoint add_lines (rows : list (list string)) (ls : list (list string))
  : result (list (list string)) :=
  match rows with
  | [] => Ok ls
  | r :: rows' =>
      p <- end_line {| state := START_FIELD; word := EmptyString;
                       line_fields := r; lines := ls |} ;;
      add_lines rows' (lines p)
  end.

(** The first data line has at least as many fields as the header. *)
Definition first_line_filled (ls : list (list string)) : Prop :=
  match ls with
  | header :: l :: _ => (length header <= length l)%nat
  | _ => True
  end.

Definition LINE (s : string) : string := s ++ String LF EmptyString.


(** A stored file without the columns rating, ai_response, summary and
    actions. *)
Definition missing_column_file : string :=
  LINE "timestamp,review" ++ LINE "2024-01-01T10:00:00,Great food".

(** A character of the decimal text of an integer. *)
Definition digit_or_minus (c : ascii) : bool := isdigit_ascii c || Ascii.eqb c "-".

(** A cell of a column that [read_csv] converted to the kind [k]. *)
Definition cell_of_kind (k : kind) (c : cell) : Prop :=
  match k, c with
  | KInt, VInt z => - 2 ^ 63 <= z < 2 ^ 63
  | KNaN, NaN => True
  | KBool, VBool _ => True
  | KBoolNA, NaN => True
  | KBoolNA, VBool _ => True
  | KStr, NaN => True
  | KStr, VStr s => is_na s = false
  | _, _ => False
  end.

(** Rows whose cells are of the kinds [ks], column by column. *)
Definition typed_rows (ks : list kind) (rows : list (list cell)) : Prop :=
  Forall (Forall2 cell_of_kind ks) rows.

(** The cells of column [j]. *)
Definition column (j : nat) (rows : list (list cell)) : list cell :=
  map (fun r => nth j r NaN) rows.

(** A text that is read back as a text: not as a number, not as a
    boolean. *)
Definition plain_text (c : cell) : bool :=
  match c with
  | VStr s => negb (numeric_like s) && negb (bool_like s)
  | _ => false
  end.

(** A column that holds a text holds one that is read back as a text, so
    that the column is read back as text. *)
Definition text_stays_text (cells : list cell) : bool :=
  negb (existsb is_str cells) || existsb plain_text cells.

(** Every column of the table stays text when it holds text. *)
Definition columns_stay_text (df : DataFrame) : bool :=
  forallb (fun j => text_stays_text (column j (data df)))
          (seq 0 (length (columns df))).

(** The rows of the written table (header first) are safe to read back. *)
Definition exportable (df : DataFrame) : bool :=
  forallb safe_row (names df :: map (map render) (data df)).

(** A stored file with the reviews "good" and "123". *)
Definition numeric_review_file : string :=
  LINE "timestamp,rating,review,ai_response,summary,actions"
  ++ LINE "2024-01-01T10:00:00,5,good,Thanks!,good,- Keep it up"
  ++ LINE "2024-01-01T11:00:00,3,123,Thanks!,123,- Ask again".

(** A world whose stored file holds [text]. *)
Definition world_with_file (text : string) : World :=
  {| OPENAI_API_KEY := None; OPENROUTER_API_KEY := None;
     provider := fun _ => PostRaises; sent := []; DATA_PATH := Some text;
     utcnow := a_moment; screen := [] |}.

(** The characters with a meaning of their own in a pattern
    ([SPECIAL_CHARS] of [sre_parse]). *)
Definition re_special (c : ascii) : bool := mem_char c ".\[{()*+?^$|".

(** A search string without special characters. *)
Definition literal_pattern (q : string) : bool :=
  all_chars (fun c => negb (re_special c)) q.

(** The pattern that matches the characters of [q] one after the other. *)
Fixpoint literals (q : string) : list regex :=
  match q with
  | EmptyString => []
  | String c q' => LITERAL c :: literals q'
  end.

(** [s[n:]] *)
Fixpoint slice_from (n : nat) (s : string) : string :=
  match n, s with
  | O, _ => s
  | S n', String _ s' => slice_from n' s'
  | S _, EmptyString => EmptyString
  end.

(** ** The whole script (lines 90-181) *)

(** The rest of the admin page (lines 172-177).  The page is the one of
    [admin_dashboard]; when it was drawn without an exception and the table
    is not empty it ends with a rule, the check box and, when that is
    ticked, the button: [confirm] is the state of the check box and
    [delete_all] whether the button was pressed.  The world's screen lists
    what is written with [st.error], [st.info], [st.success], [st.markdown]
    and [st.write]; the metrics, the table and the download are the view. *)
Definition admin_page (selected_ratings : list Z) (q : string)
  (confirm delete_all : bool) (w : World) : result (option AdminView) * World :=
  match admin_dashboard selected_ratings q w with
  | Ok (Some view) =>
      let w1 := show w (st_markdown "---") in
      if confirm && delete_all then
        (Ok (Some view),
         show (delete_all_submissions w1)
              (st_success "All submissions deleted. Refresh the app to see changes."))
      else (Ok (Some view), w1)
  | Ok None => (Ok None, show w (st_info "No submissions yet."))
  | Raise e => (Raise e, w)
  | Unmodelled => (Unmodelled, w)
  end.

(** Lines 180-181: whether the sidebar warns that no key is set. *)
Definition missing_key_warning (w : World) : bool :=
  negb (truthy (py_or (OPENAI_API_KEY w) (OPENROUTER_API_KEY w))).

(** The value of the sidebar's select box. *)
Inductive page_t : Type := User_Dashboard | Admin_Dashboard.

(** The values of the widgets in one run of the script. *)
Record Widgets : Type := {
  page : page_t;
  rating_box : Z;                     (* "Rating" *)
  review_area : string;               (* "Write your review" *)
  submit_button : bool;               (* "Submit" *)
  rating_filter : list Z;             (* "Filter by rating" *)
  search_box : string;                (* "Search reviews (simple substring)" *)
  confirm_box : bool;                 (* "I confirm I want to delete ..." *)
  delete_button : bool                (* "Delete all" *)
}.

(** One run of the script: the page that was selected, then the warning
    of the sidebar, which an exception on the page keeps from being
    reached.  The result tells whether the warning is shown. *)
Definition app_py (ws : Widgets) (w : World) : result bool * World :=
  match page ws with
  | User_Dashboard =>
      if submit_button ws then
        match submit (rating_box ws) (review_area ws) w with
        | (Ok _, w') => (Ok (missing_key_warning w'), w')
        | (Raise e, w') => (Raise e, w')
        | (Unmodelled, w') => (Unmodelled, w')
        end
      else (Ok (missing_key_warning w), w)
  | Admin_Dashboard =>
      match admin_page (rating_filter ws) (search_box ws)
                       (confirm_box ws) (delete_button ws) w with
      | (Ok _, w') => (Ok (missing_key_warning w'), w')
      | (Raise e, w') => (Raise e, w')
      | (Unmodelled, w') => (Unmodelled, w')
      end
  end.

(** The kinds of the columns of a table of submissions: text, an integer
    rating, and four texts. *)
Definition submission_kinds : list kind := [KStr; KInt; KStr; KStr; KStr; KStr].

(** The cells of a submission. *)
Definition cells_of_row (row : Row.t) : list cell :=
  [ VStr (Row.timestamp row); VInt (Row.rating row); VStr (Row.review row);
    VStr (Row.ai_response row); VStr (Row.summary row); VStr (Row.actions row) ].

(** A text that the store gives back as it was saved: neither a marker of
    a missing value, nor the text of a number or of a boolean. *)
Definition kept_text (t : string) : bool :=
  negb (is_na t) && negb (numeric_like t) && negb (bool_like t).

(** The number of ratings between 1 and 5. *)
Definition in_1_5 (r : Z) : bool := (1 <=? r) && (r <=? 5).

(** A submission that the store gives back as it was saved: the rating
    fits 64 bits and the five texts are kept texts. *)
Definition storable (row : Row.t) : bool :=
  (- 2 ^ 63 <=? Row.rating row) && (Row.rating row <? 2 ^ 63)
  && forallb kept_text
       [ Row.timestamp row; Row.review row; Row.ai_response row;
         Row.summary row; Row.actions row ].

(** * Properties *)

(** ** Strings *)

Lemma append_nil_r (s : string) : s ++ "" = s.
Proof. induction s as [|c s IH]; simpl; [reflexivity | now rewrite IH]. Qed.

Lemma append_assoc (a b c : string) : (a ++ b) ++ c = a ++ (b ++ c).
Proof. induction a as [|x a IH]; simpl; [reflexivity | now rewrite IH]. Qed.

Lemma length_append (a b : string) :
  String.length (a ++ b) = (String.length a + String.length b)%nat.
Proof. induction a as [|x a IH]; simpl; [reflexivity | now rewrite IH]. Qed.

Lemma slice_to_substring (n : nat) (s : string) : slice_to n s = substring 0 n s.
Proof.
  revert s; induction n as [|n IH]; intros [|c s]; simpl; try reflexivity.
  now rewrite IH.
Qed.

Lemma slice_to_all (n : nat) (s : string) :
  (String.length s <= n)%nat -> slice_to n s = s.
Proof.
  revert s; induction n as [|n IH]; intros [|c s] H; simpl in *; try reflexivity.
  - lia.
  - rewrite IH by lia. reflexivity.
Qed.

Lemma length_slice_to (n : nat) (s : string) :
  String.length (slice_to n s) = Nat.min n (String.length s).
Proof.
  revert s; induction n as [|n IH]; intros [|c s]; simpl; try reflexivity.
  now rewrite IH.
Qed.

Lemma lstrip_blank (s : string) :
  all_chars py_isspace s = true -> lstrip s = "".
Proof.
  induction s as [|c s IH]; simpl; [reflexivity |].
  intros H. apply andb_true_iff in H as [Hc Hs]. rewrite Hc. auto.
Qed.

Lemma rstrip_empty_blank (s : string) :
  rstrip s = "" -> all_chars py_isspace s = true.
Proof.
  induction s as [|c s IH]; simpl; [reflexivity |].
  destruct (rstrip s) eqn:E.
  - destruct (py_isspace c); [intros _; simpl; auto | discriminate].
  - discriminate.
Qed.

Lemma lstrip_head (s : string) :
  match lstrip s with
  | EmptyString => all_chars py_isspace s = true
  | String c _ => py_isspace c = false
  end.
Proof.
  induction s as [|c s IH]; simpl; [reflexivity |].
  destruct (py_isspace c) eqn:E; simpl; [| exact E].
  destruct (lstrip s); auto.
Qed.

(** [s.strip()] is empty exactly when [s] holds nothing but whitespace. *)
Lemma strip_empty_iff (s : string) :
  strip s = "" <-> all_chars py_isspace s = true.
Proof.
  unfold strip. split.
  - intros H. pose proof (lstrip_head s) as Hh.
    destruct (lstrip s) as [|c r] eqn:E; [exact Hh |].
    apply rstrip_empty_blank in H. simpl in H. rewrite Hh in H. discriminate.
  - intros H. now rewrite lstrip_blank.
Qed.

(** ** C4: the fallback summary *)

(** C4. The fallback summary of a review is its first 160 characters,
    followed by the marker "..." exactly when the review is longer than 160
    characters; a review of at most 160 characters is returned unchanged.
    A review of 200 characters gives 160 characters and the marker, one of
    100 characters gives the review itself. *)
Theorem fallback_summary_first_160 (review : string) :
  fallback_summary review =
    (if (160 <? String.length review)%nat
     then substring 0 160 review ++ "..."
     else review)
  /\ String.length (substring 0 160 review) = Nat.min 160 (String.length review)
  /\ (String.length review = 200%nat ->
      fallback_summary review = substring 0 160 review ++ "..."
      /\ String.length (fallback_summary review) = 163%nat)
  /\ (String.length review = 100%nat -> fallback_summary review = review).
Proof.
  assert (Hmain : fallback_summary review =
    (if (160 <? String.length review)%nat
     then substring 0 160 review ++ "..." else review)).
  { unfold fallback_summary, len.
    destruct (160 <? String.length review)%nat eqn:E.
    - apply Nat.ltb_lt in E.
      replace (Z.of_nat (String.length review) >? 160) with true
        by (symmetry; rewrite Z.gtb_ltb; apply Z.ltb_lt; lia).
      now rewrite slice_to_substring.
    - apply Nat.ltb_ge in E.
      replace (Z.of_nat (String.length review) >? 160) with false
        by (symmetry; rewrite Z.gtb_ltb; apply Z.ltb_ge; lia).
      rewrite slice_to_all by lia. apply append_nil_r. }
  assert (Hlen : String.length (substring 0 160 review)
                 = Nat.min 160 (String.length review)).
  { rewrite <- slice_to_substring. apply length_slice_to. }
  split; [exact Hmain |]. split; [exact Hlen |]. split.
  - intros H. rewrite Hmain, H.
    change (160 <? 200)%nat with true. cbv iota. split; [reflexivity |].
    rewrite length_append, Hlen, H. reflexivity.
  - intros H. rewrite Hmain, H. reflexivity.
Qed.

(** ** C2: a review of whitespace only *)

(** C2. When the review holds nothing but whitespace (it is empty after
    trimming), pressing Submit is refused with the message "Review cannot
    be empty": no request is sent to a provider and the stored file is left
    as it was. *)
Theorem whitespace_review_rejected (rating : Z) (review : string) (w : World) :
  all_chars py_isspace review = true ->
  strip review = ""
  /\ submit rating review w = (Ok None, show w (st_error "Review cannot be empty"))
  /\ sent (snd (submit rating review w)) = sent w
  /\ DATA_PATH (snd (submit rating review w)) = DATA_PATH w
  /\ load_data (snd (submit rating review w)) = load_data w.
Proof.
  intros H. apply strip_empty_iff in H.
  assert (E : submit rating review w
              = (Ok None, show w (st_error "Review cannot be empty"))).
  { unfold submit. rewrite H. reflexivity. }
  rewrite E. repeat split; try reflexivity. exact H.
Qed.

Lemma whitespace_review_rejected_witness :
  let w := {| OPENAI_API_KEY := Some "sk-test"; OPENROUTER_API_KEY := None;
              provider := fun _ => PostRaises; sent := []; DATA_PATH := None;
              utcnow := {| year := 2024; month := 5; day := 17; hour := 9;
                           minute := 30; second := 0; microsecond := 0 |};
              screen := [] |} in
  let review := String SPACE (String TAB (String LF " ")) in
  submit 4 review w = (Ok None, show w (st_error "Review cannot be empty"))
  /\ sent (snd (submit 4 review w)) = []
  /\ DATA_PATH (snd (submit 4 review w)) = None.
Proof.
  intros w review.
  destruct (whitespace_review_rejected 4 review w eq_refl) as (_ & E & S & D & _).
  repeat split; assumption.
Defined.

(** ** C8: deleting everything *)

(** C8. After [delete_all_submissions] the table loads as the empty
    table; deleting when there is no file changes nothing and raises
    nothing, so deleting twice is the same as deleting once. *)
Theorem delete_all_then_load_is_empty (w : World) :
  load_data (delete_all_submissions w) = Ok empty_table
  /\ data empty_table = []
  /\ delete_all_submissions (with_file w None) = with_file w None
  /\ delete_all_submissions (delete_all_submissions w) = delete_all_submissions w.
Proof.
  unfold delete_all_submissions, load_data.
  destruct w as [k1 k2 p s f u sc]. destruct f as [text|]; simpl; auto.
Qed.

(** ** The enrichment client *)

Lemma completion_text_path (j : json) (t : string) :
  completion_text j = Some t <->
  exists content, content_path j content /\ t = strip content.
Proof.
  unfold completion_text, content_path. split.
  - destruct j as [| | | |l|m]; simpl; try discriminate.
    destruct (dict_get "choices" m) as [c|] eqn:E1; simpl; [|discriminate].
    destruct c as [| | |s|l|m1]; simpl; try discriminate.
    + destruct s; simpl; discriminate.
    + destruct l as [|c0 rest]; simpl; [discriminate|].
      destruct c0 as [| | | |l0|m0]; simpl; try discriminate.
      destruct (dict_get "message" m0) as [mm|] eqn:E2; simpl; [|discriminate].
      destruct mm as [| | | |l1|mm]; simpl; try discriminate.
      destruct (dict_get "content" mm) as [mc|] eqn:E3; simpl; [|discriminate].
      destruct mc as [| | |s| |]; simpl; try discriminate.
      intros H; injection H as <-.
      exists s. split; [|reflexivity]. exists m, m0, rest, mm. auto.
  - intros (content & (m & m0 & rest & mm & -> & E1 & E2 & E3) & ->).
    simpl. rewrite E1. simpl. rewrite E2. simpl. rewrite E3. reflexivity.
Qed.

(** A failed call yields no text. *)
Lemma failed_read_completion (o : outcome) :
  failed o -> read_completion o = None.
Proof.
  intros [ | s b H | s | s j H]; simpl; try reflexivity.
  - replace (raise_for_status s) with true; [reflexivity|].
    symmetry. unfold raise_for_status. apply andb_true_iff.
    split; [apply Z.leb_le | apply Z.ltb_lt]; lia.
  - destruct (raise_for_status s); reflexivity.
  - destruct (raise_for_status s); [reflexivity|]. simpl.
    destruct (completion_text j) as [t|] eqn:E; [|reflexivity].
    apply completion_text_path in E as (content & Hp & _).
    exfalso. exact (H content Hp).
Qed.

(** [call_llm_text] changes nothing but the log of requests, to which it
    only adds requests that carry the prompt. *)
Lemma call_llm_text_frame (prompt : string) (w w' : World) (r : option string) :
  call_llm_text prompt w = (r, w') ->
  exists l, w' = with_sent w (sent w ++ l)%list
            /\ Forall (fun rq => message_content rq = prompt) l.
Proof.
  unfold call_llm_text, call_llm_text_with, post.
  destruct (py_or (OPENAI_API_KEY w) (OPENROUTER_API_KEY w)) as [[|c k]|].
  - intros H; injection H as _ <-. exists []. split; [|constructor].
    rewrite app_nil_r. destruct w; reflexivity.
  - destruct (read_completion _).
    + intros H; injection H as _ <-. eexists. split; [reflexivity|].
      repeat constructor.
    + simpl. destruct (truthy (OPENROUTER_API_KEY w)).
      * intros H; injection H as _ <-.
        eexists [_; _]. split.
        -- unfold with_sent; simpl. rewrite <- app_assoc. reflexivity.
        -- repeat constructor.
      * intros H; injection H as _ <-. eexists. split; [reflexivity|].
        repeat constructor.
  - intros H; injection H as _ <-. exists []. split; [|constructor].
    rewrite app_nil_r. destruct w; reflexivity.
Qed.

(** A text returned by [call_llm_text] is the completion read from the
    answer to one of the requests it sent. *)
Lemma call_llm_text_some (prompt : string) (w w' : World) (t : string) :
  call_llm_text prompt w = (Some t, w') ->
  exists rq, In rq (sent w') /\ message_content rq = prompt
             /\ read_completion (provider w rq) = Some t.
Proof.
  unfold call_llm_text, call_llm_text_with, post.
  destruct (py_or (OPENAI_API_KEY w) (OPENROUTER_API_KEY w)) as [[|c k]|];
    try discriminate.
  destruct (read_completion (provider w _)) as [t1|] eqn:E1.
  - intros H; injection H as -> <-. eexists. split; [|split; [|exact E1]].
    + simpl. apply in_or_app. right. left. reflexivity.
    + reflexivity.
  - simpl. destruct (truthy (OPENROUTER_API_KEY w)); [|discriminate].
    intros H; injection H as E2 <-. eexists. split; [|split; [|exact E2]].
    + simpl. apply in_or_app. right. left. reflexivity.
    + reflexivity.
Qed.


(** ** The submit handler *)

Lemma save_submission_inv (row : Row.t) (w w4 : World) :
  save_submission row w = Ok w4 ->
  exists df df',
    load_data w = Ok df
    /\ concat df (DataFrame_of_row row) = Ok df'
    /\ w4 = with_file w (Some (to_csv df')).
Proof.
  unfold save_submission.
  destruct (load_data w) as [df| |]; simpl; try discriminate.
  destruct (concat df (DataFrame_of_row row)) as [df'| |] eqn:E; simpl;
    try discriminate.
  intros H; injection H as <-. exists df, df'. auto.
Qed.

(** The steps of a submission that was not refused. *)
Lemma submit_steps (rating : Z) (review : string) (w : World) :
  strip review <> "" ->
  exists r1 r2 r3 l1 l2 l3,
    let w0 := show w (st_info "Saving your review...") in
    let w1 := with_sent w0 (sent w0 ++ l1)%list in
    let w2 := with_sent w1 (sent w1 ++ l2)%list in
    let w3 := with_sent w2 (sent w2 ++ l3)%list in
    let row := {| Row.timestamp := isoformat (utcnow w);
                  Row.rating := rating; Row.review := review;
                  Row.ai_response := or_fallback r1 (fallback_user_response rating review);
                  Row.summary := or_fallback r2 (fallback_summary review);
                  Row.actions := or_fallback r3 (fallback_actions review rating) |} in
    call_llm_text (user_reply_prompt rating review) w0 = (r1, w1)
    /\ call_llm_text (summary_prompt review) w1 = (r2, w2)
    /\ call_llm_text (actions_prompt review rating) w2 = (r3, w3)
    /\ match save_submission row w3 with
       | Ok w4 =>
           submit rating review w =
             (Ok (Some row),
              show (show (show (show (show w4
                (st_success "Submitted! Here is the AI response:"))
                (st_markdown ("**AI reply:** " ++ Row.ai_response row)))
                (st_write ["**Summary:**"; Row.summary row]))
                (st_write ["**Recommended actions:**"]))
                (st_markdown (Row.actions row)))
       | Raise e => submit rating review w = (Raise e, w3)
       | Unmodelled => submit rating review w = (Unmodelled, w3)
       end.
Proof.
  intros Hne. unfold submit.
  destruct (String.eqb_spec (strip review) "") as [E|_]; [contradiction|].
  set (w0 := show w (st_info "Saving your review...")).
  destruct (call_llm_text (user_reply_prompt rating review) w0) as [r1 w1] eqn:E1.
  destruct (call_llm_text (summary_prompt review) w1) as [r2 w2] eqn:E2.
  destruct (call_llm_text (actions_prompt review rating) w2) as [r3 w3] eqn:E3.
  destruct (call_llm_text_frame _ _ _ _ E1) as (l1 & -> & _).
  destruct (call_llm_text_frame _ _ _ _ E2) as (l2 & -> & _).
  destruct (call_llm_text_frame _ _ _ _ E3) as (l3 & -> & _).
  exists r1, r2, r3, l1, l2, l3. cbv zeta.
  repeat split; try assumption.
  change (utcnow (with_sent _ _)) with (utcnow w).
  destruct (save_submission _ _); reflexivity.
Qed.







(** ** C1: the fields of a saved row *)




(** ** C3: provider failures *)

Lemma save_submission_frame (row : Row.t) (w w3 w4 : World) :
  save_submission row w = Ok w4 ->
  DATA_PATH w3 = DATA_PATH w ->
  exists df df',
    load_data w = Ok df
    /\ concat df (DataFrame_of_row row) = Ok df'
    /\ save_submission row w3 = Ok (with_file w3 (Some (to_csv df'))).
Proof.
  intros H Hd. apply save_submission_inv in H as (df & df' & Hl & Hc & _).
  exists df, df'. split; [exact Hl|]. split; [exact Hc|].
  unfold save_submission, load_data in *. rewrite Hd, Hl. simpl.
  rewrite Hc. reflexivity.
Qed.




(** ** C6: analytics *)

Lemma counts_get_count_in (r x : Z) (m : list (Z * nat)) :
  counts_get r (count_in x m)
  = if r =? x then S (counts_get r m) else counts_get r m.
Proof.
  induction m as [|[y k] m IH]; simpl.
  - destruct (r =? x); reflexivity.
  - destruct (x =? y) eqn:Exy; simpl.
    + apply Z.eqb_eq in Exy; subst y. destruct (r =? x); reflexivity.
    + destruct (r =? y) eqn:Ery.
      * apply Z.eqb_eq in Ery; subst y.
        rewrite Z.eqb_sym, Exy. reflexivity.
      * exact IH.
Qed.

Lemma keys_count_in (x : Z) (m : list (Z * nat)) :
  map fst (count_in x m)
  = if existsb (Z.eqb x) (map fst m) then map fst m else (map fst m ++ [x])%list.
Proof.
  induction m as [|[y k] m IH]; simpl; [reflexivity|].
  destruct (x =? y); simpl; [reflexivity|]. rewrite IH.
  destruct (existsb (Z.eqb x) (map fst m)); reflexivity.
Qed.

Lemma NoDup_keys_count_in (x : Z) (m : list (Z * nat)) :
  NoDup (map fst m) -> NoDup (map fst (count_in x m)).
Proof.
  intros H. rewrite keys_count_in.
  destruct (existsb (Z.eqb x) (map fst m)) eqn:E; [exact H|].
  apply NoDup_app; [exact H | repeat constructor; intros [] |].
  intros y Hy [Hx|[]]. subst y.
  assert (existsb (Z.eqb x) (map fst m) = true)
    by (apply existsb_exists; exists x; split; [exact Hy | apply Z.eqb_refl]).
  congruence.
Qed.

Lemma tally_spec (l : list Z) (m : list (Z * nat)) (r : Z) :
  NoDup (map fst m) ->
  NoDup (map fst (fold_left (fun m x => count_in x m) l m))
  /\ counts_get r (fold_left (fun m x => count_in x m) l m)
     = (counts_get r m + count_occ Z.eq_dec l r)%nat.
Proof.
  revert m; induction l as [|x l IH]; intros m Hm; simpl.
  - split; [exact Hm | lia].
  - destruct (IH (count_in x m) (NoDup_keys_count_in x m Hm)) as [H1 H2].
    split; [exact H1|]. rewrite H2, counts_get_count_in.
    destruct (Z.eq_dec x r) as [->|Hne].
    + rewrite Z.eqb_refl. lia.
    + replace (r =? x) with false; [lia|].
      symmetry. apply Z.eqb_neq. congruence.
Qed.

Lemma insert_by_perm le (x : Z * nat) (l : list (Z * nat)) :
  Permutation (x :: l) (insert_by le x l).
Proof.
  induction l as [|y l IH]; simpl; [reflexivity|].
  destruct (le x y); [reflexivity|].
  rewrite perm_swap. constructor. exact IH.
Qed.

Lemma sort_by_perm le (l : list (Z * nat)) : Permutation l (sort_by le l).
Proof.
  induction l as [|x l IH]; simpl; [constructor|].
  rewrite <- insert_by_perm. constructor. exact IH.
Qed.

Lemma counts_get_in (r : Z) (k : nat) (m : list (Z * nat)) :
  NoDup (map fst m) -> In (r, k) m -> counts_get r m = k.
Proof.
  induction m as [|[y j] m IH]; simpl; [intros _ []|].
  intros Hnd [H|H].
  - injection H as -> ->. rewrite Z.eqb_refl. reflexivity.
  - inversion Hnd as [|? ? Hy Hnd']; subst.
    destruct (r =? y) eqn:E; [|auto].
    apply Z.eqb_eq in E; subst y. exfalso. apply Hy.
    change r with (fst (r, k)). apply in_map. exact H.
Qed.

Lemma counts_get_absent (r : Z) (m : list (Z * nat)) :
  ~ In r (map fst m) -> counts_get r m = O.
Proof.
  induction m as [|[y j] m IH]; simpl; [reflexivity|].
  intros H. destruct (r =? y) eqn:E.
  - apply Z.eqb_eq in E. exfalso. apply H. left. congruence.
  - apply IH. intros Hin. apply H. right. exact Hin.
Qed.

(** Reordering a tally does not change the count found for a value. *)
Lemma counts_get_perm (r : Z) (m m' : list (Z * nat)) :
  Permutation m m' -> NoDup (map fst m) -> counts_get r m' = counts_get r m.
Proof.
  intros Hp Hnd.
  assert (Hnd' : NoDup (map fst m'))
    by (eapply Permutation_NoDup; [apply Permutation_map; exact Hp | exact Hnd]).
  destruct (in_dec Z.eq_dec r (map fst m)) as [Hin|Hout].
  - apply in_map_iff in Hin as ([y k] & Hy & Hin). simpl in Hy; subst y.
    rewrite (counts_get_in r k m Hnd Hin).
    apply counts_get_in; [exact Hnd'|].
    eapply Permutation_in; eassumption.
  - rewrite (counts_get_absent r m Hout). apply counts_get_absent.
    intros Hin. apply Hout.
    eapply Permutation_in; [symmetry; apply Permutation_map; exact Hp | exact Hin].
Qed.

(** The count read off the sorted value counts is the number of
    occurrences, 0 for a value that does not occur. *)
Lemma counts_get_value_counts (l : list Z) (r : Z) :
  counts_get r (sort_index (value_counts l)) = count_occ Z.eq_dec l r.
Proof.
  unfold sort_index, value_counts, tally.
  destruct (tally_spec l [] r (NoDup_nil _)) as [Hnd Hc].
  rewrite (counts_get_perm r _ _ (sort_by_perm _ _)).
  - rewrite (counts_get_perm r _ _ (sort_by_perm _ _) Hnd). exact Hc.
  - eapply Permutation_NoDup;
      [apply Permutation_map; apply sort_by_perm | exact Hnd].
Qed.

Lemma ints_of_map_VInt (l : list Z) : ints_of (map VInt l) = l.
Proof. induction l as [|x l IH]; simpl; [reflexivity | now rewrite IH]. Qed.

(** Ratings between 1 and 5 on fewer than 2^50 rows are added up
    exactly. *)
Lemma ratings_sum_exactly (ratings : list Z) :
  Forall (fun r => 1 <= r <= 5) ratings ->
  Z.of_nat (length ratings) < 2 ^ 50 ->
  sums_exactly ratings = true.
Proof.
  intros H Hn. unfold sums_exactly. apply Z.ltb_lt.
  assert (Hs : fold_right (fun x a => Z.abs x + a) 0 ratings
               <= 5 * Z.of_nat (length ratings)).
  { clear Hn. induction H as [|r l Hr _ IH]; [simpl; lia|].
    cbn [fold_right length]. lia. }
  change (2 ^ 53) with (8 * 2 ^ 50). lia.
Qed.



(** ** The filter *)

Lemma select_map {A B} (f : A -> B) (mask : list bool) (l : list A) :
  map f (select mask l) = select mask (map f l).
Proof.
  revert l; induction mask as [|b mask IH]; intros [|x l]; simpl; try reflexivity.
  destruct b; simpl; now rewrite IH.
Qed.

Lemma Forall_select {A} (P : A -> Prop) (mask : list bool) (l : list A) :
  Forall P l -> Forall P (select mask l).
Proof.
  revert l; induction mask as [|b mask IH]; intros [|x l] H; simpl;
    try constructor.
  inversion H; subst. destruct b; [constructor|]; auto.
Qed.

(** Selecting rows selects the cells of every column. *)
Lemma getitem_df_select (df : DataFrame) (name : string) (mask : list bool)
  (d : dtype) (cells : list cell) :
  getitem df name = Ok (d, cells) ->
  getitem (df_select df mask) name = Ok (d, select mask cells).
Proof.
  unfold getitem, df_select, names. simpl.
  destruct (index_of name (map fst (columns df))) as [i|]; [|discriminate].
  destruct (lookup_dtype name (columns df)) as [d'|]; [|discriminate].
  intros H; injection H as <- <-. now rewrite select_map.
Qed.

Lemma str_accessor_text (cells : list cell) :
  Forall text_or_missing cells -> str_accessor (object_, cells) = true.
Proof.
  intros H. unfold str_accessor. simpl.
  apply orb_true_iff. left.
  induction H as [|c cells Hc _ IH]; simpl; [reflexivity|].
  destruct c; simpl in *; try contradiction; assumption.
Qed.

(** What the filter does on a table whose review column holds text, for
    a search string that is not blank: the rows with a selected rating are
    kept, and of these the rows whose review the search string, read as a
    regular expression, matches; an ill-formed expression raises. *)
Lemma admin_filter_search (df : DataFrame) (selected_ratings : list Z) (q : string)
  (rating : dtype * list cell) (reviews : list cell) :
  getitem df "rating" = Ok rating ->
  getitem df "review" = Ok (object_, reviews) ->
  Forall text_or_missing reviews ->
  strip q <> "" ->
  let by_rating := map (isin selected_ratings) (snd rating) in
  admin_filter df selected_ratings q =
    match re_compile q with
    | Ok r =>
        Ok (df_select (df_select df by_rating)
              (map (fun c => match c with
                             | VStr s => re_search r s
                             | _ => false
                             end) (select by_rating reviews)))
    | Raise e => Raise e
    | Unmodelled => Unmodelled
    end.
Proof.
  intros Hr Hv Ht Hq by_rating. unfold admin_filter. rewrite Hr.
  unfold bind at 1. fold by_rating.
  destruct (String.eqb_spec (strip q) "") as [E|_]; [contradiction|].
  cbv beta iota zeta delta [negb].
  rewrite (getitem_df_select _ _ by_rating _ _ Hv).
  unfold bind at 1. unfold str_contains.
  rewrite (str_accessor_text _ (Forall_select _ by_rating _ Ht)).
  simpl snd. destruct (re_compile q); reflexivity.
Qed.

(** ** The search string is a regular expression *)

(** On a table whose review column holds text, a search string that is not
    blank is handed to [str.contains] and read as a regular expression, not
    as a literal substring: when it is a well-formed expression the filter
    returns the rows with a selected rating whose review the expression
    matches, and when it is ill-formed the filter raises the error of
    [re.compile]. *)
Theorem search_string_is_a_pattern (df : DataFrame) (selected_ratings : list Z)
  (q : string) (rating : dtype * list cell) (reviews : list cell) :
  getitem df "rating" = Ok rating ->
  getitem df "review" = Ok (object_, reviews) ->
  Forall text_or_missing reviews ->
  strip q <> "" ->
  (forall r, re_compile q = Ok r ->
     exists filtered,
       admin_filter df selected_ratings q = Ok filtered
       /\ columns filtered = columns df
       /\ data filtered =
            select (map (fun c => match c with
                                  | VStr s => re_search r s
                                  | _ => false
                                  end)
                        (select (map (isin selected_ratings) (snd rating)) reviews))
                   (select (map (isin selected_ratings) (snd rating)) (data df)))
  /\ (forall e, re_compile q = Raise e ->
        admin_filter df selected_ratings q = Raise e).
Proof.
  intros Hr Hv Ht Hq.
  pose proof (admin_filter_search df selected_ratings q rating reviews Hr Hv Ht Hq)
    as H. cbv zeta in H.
  split.
  - intros r E. rewrite E in H. eexists. split; [exact H|]. split; reflexivity.
  - intros e E. rewrite E in H. exact H.
Qed.

Lemma Forall_text_four_ratings :
  Forall text_or_missing
    [VStr "Great food"; VStr "Lovely staff"; VStr "Slow service"; VStr "Cold soup"].
Proof. repeat constructor. Defined.

(** The search string "s.o" keeps "Slow service", which does not contain
    the three characters "s.o". *)
Lemma search_string_is_a_pattern_witness :
  (exists filtered,
     admin_filter four_ratings [1; 2; 3; 4; 5] "s.o" = Ok filtered
     /\ map (fun r => nth 2 r NaN) (data filtered) = [VStr "Slow service"])
  /\ contains_ci "s.o" "Slow service" = false.
Proof.
  assert (Hq : strip "s.o" <> "") by (cbv; discriminate).
  destruct (search_string_is_a_pattern four_ratings [1; 2; 3; 4; 5] "s.o"
              _ _ eq_refl eq_refl Forall_text_four_ratings Hq) as [Hok _].
  destruct (Hok _ eq_refl) as (filtered & E & _ & Hd).
  split; [|reflexivity].
  exists filtered. split; [exact E|]. rewrite Hd. reflexivity.
Defined.

(** ** C10: the filter on search strings with special characters *)

(** C10 fails on the code.  The claim has the filter total on every search
    string; the search strings "(" and "[" are read as regular expressions,
    are not well-formed ones, and the filter raises [re.error] on a table
    of four rows with every rating selected.  The text field is labelled
    "Search reviews (simple substring)" (line 160). *)
Lemma unbalanced_search_string_raises :
  admin_filter four_ratings [1; 2; 3; 4; 5] "(" = Raise ReError
  /\ admin_filter four_ratings [1; 2; 3; 4; 5] "[" = Raise ReError.
Proof. split; reflexivity. Qed.

(** ** C5: the filter *)

(** C5 fails on the code.  With every rating selected, the search string
    "." keeps all four rows although no review contains a full stop; and
    with no rating selected the search string "(" raises instead of giving
    the empty table. *)
Lemma search_is_not_a_substring_test :
  admin_filter four_ratings [1; 2; 3; 4; 5] "." = Ok four_ratings
  /\ forallb (fun review => negb (contains_ci "." review))
       ["Great food"; "Lovely staff"; "Slow service"; "Cold soup"] = true
  /\ admin_filter four_ratings [] "(" = Raise ReError.
Proof. repeat split; reflexivity. Qed.

(** ** Writing a CSV text and reading it back *)

#[local] Arguments Ascii.eqb : simpl never.

Local Abbreviation mk_parser s w lf ls :=
  {| state := s; word := w; line_fields := lf; lines := ls |}.

Lemma plain_char_inv (c : ascii) :
  plain_char c = true ->
  Ascii.eqb c LF = false /\ Ascii.eqb c CR = false
  /\ Ascii.eqb c COMMA = false /\ Ascii.eqb c DQUOTE = false.
Proof.
  unfold plain_char. intros H. apply negb_true_iff in H.
  repeat (apply orb_false_iff in H as [H ?]). auto.
Qed.

Lemma bare_field_plain (f : string) :
  needs_quote f = false -> mem_char CR f = false -> all_chars plain_char f = true.
Proof.
  induction f as [|c f IH]; simpl; [reflexivity|].
  intros Hq Hc. apply orb_false_iff in Hq as [Hs Hq].
  apply orb_false_iff in Hc as [Hcr Hc].
  rewrite (IH Hq Hc), andb_true_r.
  unfold special in Hs. repeat (apply orb_false_iff in Hs as [Hs ?]).
  unfold plain_char. rewrite (Ascii.eqb_sym c CR).
  rewrite Hs, Hcr. simpl. now rewrite H, H0.
Qed.

Lemma tokenize_bytes_cons (c : ascii) (s : string) (p : parser_t) :
  tokenize_bytes (String c s) p = (p' <- tokenize_char c p ;; tokenize_bytes s p').
Proof. reflexivity. Qed.

(** The inside of a quoted field. *)
Lemma tokenize_quoted (f rest : string) (w : string) (lf : list string)
  (ls : list (list string)) :
  tokenize_bytes (double_quotes f ++ rest) (mk_parser IN_QUOTED_FIELD w lf ls)
  = tokenize_bytes rest (mk_parser IN_QUOTED_FIELD (w ++ f) lf ls).
Proof.
  revert w; induction f as [|c f IH]; intros w.
  - simpl. now rewrite append_nil_r.
  - cbn [double_quotes]. destruct (Ascii.eqb c DQUOTE) eqn:E.
    + apply Ascii.eqb_eq in E; subst c.
      cbn [append]. rewrite tokenize_bytes_cons.
      unfold tokenize_char at 1. cbn [state]. rewrite Ascii.eqb_refl.
      cbn [bind]. rewrite tokenize_bytes_cons.
      unfold tokenize_char at 1, set_state. cbn [state].
      rewrite Ascii.eqb_refl. cbn [bind]. unfold push_char. cbn [word line_fields lines].
      rewrite IH. now rewrite append_assoc.
    + cbn [append]. rewrite tokenize_bytes_cons.
      unfold tokenize_char at 1. cbn [state]. rewrite E.
      cbn [bind]. unfold push_char. cbn [word line_fields lines].
      rewrite IH. now rewrite append_assoc.
Qed.

(** A run of plain characters inside a bare field. *)
Lemma tokenize_plain (f rest : string) (w : string) (lf : list string)
  (ls : list (list string)) :
  all_chars plain_char f = true ->
  tokenize_bytes (f ++ rest) (mk_parser IN_FIELD w lf ls)
  = tokenize_bytes rest (mk_parser IN_FIELD (w ++ f) lf ls).
Proof.
  revert w; induction f as [|c f IH]; intros w H.
  - simpl. now rewrite append_nil_r.
  - cbn [all_chars] in H. apply andb_true_iff in H as [Hc Hf].
    destruct (plain_char_inv c Hc) as (H1 & H2 & H3 & H4).
    cbn [append]. rewrite tokenize_bytes_cons.
    unfold tokenize_char at 1, in_field. cbn [state]. rewrite H1, H2, H3.
    cbn [bind]. unfold push_char. cbn [word line_fields lines].
    rewrite (IH _ Hf). now rewrite append_assoc.
Qed.

(** A run of plain characters after the blanks that opened a line. *)
Lemma tokenize_after_blanks (f rest : string) (w : string) (lf : list string)
  (ls : list (list string)) :
  all_chars plain_char f = true ->
  tokenize_bytes (f ++ rest) (mk_parser WHITESPACE_LINE w lf ls)
  = tokenize_bytes rest
      (mk_parser (if all_chars is_blank f then WHITESPACE_LINE else IN_FIELD)
                 (w ++ f) lf ls).
Proof.
  revert w; induction f as [|c f IH]; intros w H.
  - simpl. now rewrite append_nil_r.
  - cbn [all_chars] in H. apply andb_true_iff in H as [Hc Hf].
    destruct (plain_char_inv c Hc) as (H1 & H2 & H3 & H4).
    cbn [append all_chars]. rewrite tokenize_bytes_cons.
    unfold tokenize_char at 1, in_field. cbn [state]. rewrite H1, H2.
    destruct (is_blank c) eqn:Eb; cbn [andb].
    + cbn [bind]. unfold push_char. cbn [word line_fields lines].
      rewrite (IH _ Hf). now rewrite append_assoc.
    + rewrite H3. cbn [bind]. unfold push_char. cbn [word line_fields lines].
      rewrite (tokenize_plain f rest _ lf ls Hf). now rewrite append_assoc.
Qed.

Ltac tok_step :=
  rewrite tokenize_bytes_cons; unfold tokenize_char at 1; cbn [state];
  unfold in_start_field, in_field.

Ltac tok_done :=
  cbn [bind]; unfold push_char, end_field, set_state;
  cbn [state word line_fields lines].

Lemma is_blank_plain (c : ascii) : is_blank c = true -> plain_char c = true.
Proof.
  unfold is_blank. intros H. apply orb_true_iff in H as [H|H];
    apply Ascii.eqb_eq in H; subst c; reflexivity.
Qed.

Lemma end_line_fields (s1 s2 : tstate) (w1 w2 : string) (lf : list string)
  (ls : list (list string)) :
  end_line (mk_parser s1 w1 lf ls) = end_line (mk_parser s2 w2 lf ls).
Proof. reflexivity. Qed.

(** A written field that is followed by a comma: the reader, at the start
    of a line or of a field, appends the field to the line. *)
Lemma tokenize_field_comma (f rest : string) (st : tstate) (lf : list string)
  (ls : list (list string)) :
  safe_field f = true ->
  st = START_FIELD \/ st = START_RECORD ->
  tokenize_bytes (csv_field f ++ String COMMA rest) (mk_parser st "" lf ls)
  = tokenize_bytes rest (mk_parser START_FIELD "" (lf ++ [f])%list ls).
Proof.
  intros Hsafe Hst. unfold csv_field, safe_field in *.
  destruct (needs_quote f) eqn:Eq.
  - cbn [append]. rewrite append_assoc. cbn [append].
    assert (E : tokenize_bytes
                  (String DQUOTE (double_quotes f ++ String DQUOTE (String COMMA rest)))
                  (mk_parser st "" lf ls)
                = tokenize_bytes (double_quotes f ++ String DQUOTE (String COMMA rest))
                    (mk_parser IN_QUOTED_FIELD "" lf ls)).
    { destruct Hst as [-> | ->]; tok_step;
        change (Ascii.eqb DQUOTE LF) with false;
        change (Ascii.eqb DQUOTE CR) with false;
        change (is_blank DQUOTE) with false;
        rewrite ?Ascii.eqb_refl; reflexivity. }
    rewrite E, tokenize_quoted. cbn [append].
    tok_step. rewrite Ascii.eqb_refl. tok_done.
    rewrite tokenize_bytes_cons. unfold tokenize_char at 1. cbn [state].
    change (Ascii.eqb COMMA DQUOTE) with false. rewrite Ascii.eqb_refl.
    tok_done. reflexivity.
  - simpl in Hsafe. apply negb_true_iff in Hsafe.
    pose proof (bare_field_plain f Eq Hsafe) as Hp.
    destruct f as [|c f].
    + cbn [append].
      destruct Hst as [-> | ->]; tok_step;
        change (Ascii.eqb COMMA LF) with false;
        change (Ascii.eqb COMMA CR) with false;
        change (Ascii.eqb COMMA DQUOTE) with false;
        change (is_blank COMMA) with false;
        rewrite ?Ascii.eqb_refl; reflexivity.
    + cbn [all_chars] in Hp. apply andb_true_iff in Hp as [Hc Hf].
      destruct (plain_char_inv c Hc) as (H1 & H2 & H3 & H4).
      cbn [append].
      assert (E : exists s, (s = IN_FIELD \/ s = WHITESPACE_LINE)
                /\ tokenize_bytes (String c (f ++ String COMMA rest))
                     (mk_parser st "" lf ls)
                   = tokenize_bytes (String COMMA rest)
                       (mk_parser s (String c f) lf ls)).
      { destruct Hst as [-> | ->].
        - exists IN_FIELD. split; [now left|].
          tok_step. rewrite H1, H2, H3, H4. tok_done.
          rewrite (tokenize_plain f _ _ lf ls Hf). reflexivity.
        - destruct (is_blank c) eqn:Eb.
          + exists (if all_chars is_blank f then WHITESPACE_LINE else IN_FIELD).
            split; [destruct (all_chars is_blank f); auto|].
            tok_step. rewrite H1, H2, Eb. tok_done.
            rewrite (tokenize_after_blanks f _ _ lf ls Hf). reflexivity.
          + exists IN_FIELD. split; [now left|].
            tok_step. rewrite H1, H2, H3, H4, Eb. tok_done.
            rewrite (tokenize_plain f _ _ lf ls Hf). reflexivity. }
      destruct E as (s & Hs & ->).
      destruct Hs as [-> | ->]; tok_step;
        change (Ascii.eqb COMMA LF) with false;
        change (Ascii.eqb COMMA CR) with false;
        change (is_blank COMMA) with false;
        rewrite ?Ascii.eqb_refl; reflexivity.
Qed.

(** A written field that ends its line. *)
Lemma tokenize_field_lf (f rest : string) (st : tstate) (lf : list string)
  (ls : list (list string)) :
  safe_field f = true ->
  st = START_FIELD \/ (st = START_RECORD /\ all_chars is_blank f = false) ->
  tokenize_bytes (csv_field f ++ String LF rest) (mk_parser st "" lf ls)
  = (p' <- end_line (mk_parser START_FIELD "" (lf ++ [f])%list ls) ;;
     tokenize_bytes rest p').
Proof.
  intros Hsafe Hst. unfold csv_field, safe_field in *.
  destruct (needs_quote f) eqn:Eq.
  - cbn [append]. rewrite append_assoc. cbn [append].
    assert (E : tokenize_bytes
                  (String DQUOTE (double_quotes f ++ String DQUOTE (String LF rest)))
                  (mk_parser st "" lf ls)
                = tokenize_bytes (double_quotes f ++ String DQUOTE (String LF rest))
                    (mk_parser IN_QUOTED_FIELD "" lf ls)).
    { destruct Hst as [-> | [-> _]]; tok_step;
        change (Ascii.eqb DQUOTE LF) with false;
        change (Ascii.eqb DQUOTE CR) with false;
        change (is_blank DQUOTE) with false;
        rewrite ?Ascii.eqb_refl; reflexivity. }
    rewrite E, tokenize_quoted. cbn [append].
    tok_step. rewrite Ascii.eqb_refl. tok_done.
    rewrite tokenize_bytes_cons. unfold tokenize_char at 1. cbn [state].
    change (Ascii.eqb LF DQUOTE) with false.
    change (Ascii.eqb LF COMMA) with false. rewrite Ascii.eqb_refl.
    reflexivity.
  - simpl in Hsafe. apply negb_true_iff in Hsafe.
    pose proof (bare_field_plain f Eq Hsafe) as Hp.
    destruct f as [|c f].
    + cbn [append].
      destruct Hst as [-> | [_ Hb]]; [|discriminate].
      tok_step. rewrite Ascii.eqb_refl. reflexivity.
    + cbn [all_chars] in Hp. apply andb_true_iff in Hp as [Hc Hf].
      destruct (plain_char_inv c Hc) as (H1 & H2 & H3 & H4).
      cbn [append].
      assert (E : tokenize_bytes (String c (f ++ String LF rest))
                    (mk_parser st "" lf ls)
                  = tokenize_bytes (String LF rest)
                      (mk_parser IN_FIELD (String c f) lf ls)).
      { destruct Hst as [-> | [-> Hb]].
        - tok_step. rewrite H1, H2, H3, H4. tok_done.
          rewrite (tokenize_plain f _ _ lf ls Hf). reflexivity.
        - cbn [all_chars] in Hb. destruct (is_blank c) eqn:Eb.
          + cbn [andb] in Hb.
            tok_step. rewrite H1, H2, Eb. tok_done.
            rewrite (tokenize_after_blanks f _ _ lf ls Hf), Hb. reflexivity.
          + tok_step. rewrite H1, H2, H3, H4, Eb. tok_done.
            rewrite (tokenize_plain f _ _ lf ls Hf). reflexivity. }
      rewrite E. tok_step. rewrite Ascii.eqb_refl. reflexivity.
Qed.

(** Fields but the last of a line. *)
Lemma tokenize_join_fields (r : list string) (rest : string) (lf : list string)
  (ls : list (list string)) :
  r <> [] ->
  forallb safe_field r = true ->
  tokenize_bytes (join_fields r ++ String LF rest) (mk_parser START_FIELD "" lf ls)
  = (p' <- end_line (mk_parser START_FIELD "" (lf ++ r)%list ls) ;;
     tokenize_bytes rest p').
Proof.
  revert lf; induction r as [|f r IH]; intros lf Hne Hs; [contradiction|].
  cbn [forallb] in Hs. apply andb_true_iff in Hs as [Hf Hr].
  destruct r as [|g r].
  - cbn [join_fields]. apply tokenize_field_lf; auto.
  - change (join_fields (f :: g :: r))
      with (csv_field f ++ String COMMA (join_fields (g :: r))).
    rewrite append_assoc. cbn [append].
    rewrite tokenize_field_comma by auto.
    rewrite IH by (auto; discriminate).
    rewrite <- app_assoc. reflexivity.
Qed.

(** A written row: the reader ends a line with the fields of the row. *)
Lemma tokenize_writerow (r : list string) (rest : string)
  (ls : list (list string)) :
  safe_row r = true ->
  tokenize_bytes (writerow r ++ rest) (mk_parser START_RECORD "" [] ls)
  = (p' <- end_line (mk_parser START_FIELD "" r ls) ;; tokenize_bytes rest p').
Proof.
  unfold safe_row. intros H. apply andb_true_iff in H as [Hs Hshape].
  destruct r as [|f r]; [discriminate|].
  destruct r as [|g r].
  - destruct f as [|c f].
    + reflexivity.
    + unfold writerow. rewrite append_assoc. cbn [append join_fields].
      cbn [forallb] in Hs. apply andb_true_iff in Hs as [Hf _].
      rewrite tokenize_field_lf; [reflexivity | exact Hf |].
      right. split; [reflexivity|]. apply negb_true_iff. exact Hshape.
  - assert (Hw : writerow (f :: g :: r)
                 = csv_field f ++ String COMMA (join_fields (g :: r) ++ String LF ""))
      by (unfold writerow; destruct f; cbn [join_fields];
          rewrite append_assoc; reflexivity).
    rewrite Hw, append_assoc. cbn [append]. rewrite append_assoc. cbn [append].
    cbn [forallb] in Hs. apply andb_true_iff in Hs as [Hf Hr].
    rewrite tokenize_field_comma by auto.
    rewrite tokenize_join_fields by (auto; discriminate).
    reflexivity.
Qed.

Lemma end_line_ok (p p' : parser_t) :
  end_line p = Ok p' -> p' = mk_parser START_RECORD "" [] (lines p').
Proof.
  unfold end_line. destruct (_ && _); [discriminate|].
  intros H; injection H as <-. reflexivity.
Qed.

(** Reading what [writerows] wrote ends one line per row. *)
Lemma tokenize_writerows (rows : list (list string)) (ls : list (list string)) :
  forallb safe_row rows = true ->
  (p <- tokenize_bytes (writerows rows) (mk_parser START_RECORD "" [] ls) ;;
   parser_handle_eof p)
  = add_lines rows ls.
Proof.
  revert ls; induction rows as [|r rows IH]; intros ls H.
  - reflexivity.
  - cbn [forallb] in H. apply andb_true_iff in H as [Hr Hrows].
    cbn [writerows add_lines]. rewrite tokenize_writerow by exact Hr.
    destruct (end_line _) as [p'| |] eqn:E; try reflexivity.
    cbn [bind]. rewrite (end_line_ok _ _ E). cbn [lines].
    apply IH. exact Hrows.
Qed.

Lemma length_pad_row (n : nat) (r : list string) :
  (length r <= n)%nat -> length (pad_row n r) = n.
Proof. intros H. unfold pad_row. rewrite length_app, repeat_length. lia. Qed.

(** Lines of at most [h] fields after a line of [h] fields: each is
    filled up to [h] fields and none is refused. *)
Lemma add_lines_padded (h : nat) (rows : list (list string))
  (ls : list (list string)) :
  ls <> [] ->
  length (last ls []) = h ->
  Forall (fun r => (length r <= h)%nat) rows ->
  add_lines rows ls = Ok (ls ++ map (pad_row h) rows)%list.
Proof.
  revert ls; induction rows as [|r rows IH]; intros ls Hne Hlast Hlen.
  - simpl. now rewrite app_nil_r.
  - inversion Hlen as [|? ? Hr Hrows]; subst.
    cbn [add_lines]. unfold end_line. cbn [line_fields lines].
    replace (length (last ls []) <? length r)%nat with false
      by (symmetry; apply Nat.ltb_ge; exact Hr).
    rewrite andb_false_r.
    replace (1 <=? length ls)%nat with true
      by (symmetry; apply Nat.leb_le; destruct ls; [contradiction | simpl; lia]).
    cbn [bind lines]. rewrite IH.
    + rewrite <- app_assoc. reflexivity.
    + destruct ls; discriminate.
    + rewrite last_last. apply length_pad_row. exact Hr.
    + exact Hrows.
Qed.

(** Reading back a header and rows of at most as many fields: every row
    comes back, in order, short rows filled up with empty fields. *)
Lemma tokenize_written (header : list string) (rows : list (list string)) :
  forallb safe_row (header :: rows) = true ->
  Forall (fun r => (length r <= length header)%nat) rows ->
  tokenize_all_rows (writerows (header :: rows))
  = Ok (header :: map (pad_row (length header)) rows).
Proof.
  intros Hs Hl. unfold tokenize_all_rows.
  change parser_new with (mk_parser START_RECORD "" [] []).
  rewrite tokenize_writerows by exact Hs.
  cbn [add_lines]. unfold end_line. cbn [lines line_fields length].
  cbn [Nat.leb andb bind lines app].
  apply (add_lines_padded (length header) rows [header]);
    [discriminate | reflexivity | exact Hl].
Qed.

(** ** C7: loading *)

Lemma map_skipn_0 {A} (l : list (list A)) : map (skipn 0) l = l.
Proof.
  induction l as [|x l IH]; [reflexivity|].
  change (map (skipn 0) (x :: l)) with (x :: map (skipn 0) l). now rewrite IH.
Qed.


Lemma infer_columns_length (js : list nat) (body : list (list string))
  (ks : list kind) :
  infer_columns js body = Ok ks -> length ks = length js.
Proof.
  revert ks; induction js as [|j js IH]; intros ks H; simpl in H.
  - injection H as <-. reflexivity.
  - destruct (infer_kind _); simpl in H; try discriminate.
    destruct (infer_columns js body); simpl in H; try discriminate.
    injection H as <-. simpl. f_equal. apply IH. reflexivity.
Qed.

Lemma map_fst_combine_eq {A B} (l : list A) (l' : list B) :
  length l' = length l -> map fst (combine l l') = l.
Proof.
  revert l'; induction l as [|x l IH]; intros [|y l'] H; simpl in *;
    try reflexivity; try discriminate.
  f_equal. apply IH. lia.
Qed.

(** Reading a written table back, row by row. *)
Lemma read_csv_written (header : list string) (rows : list (list string))
  (ks : list kind) :
  forallb safe_row (header :: rows) = true ->
  mem_string "" header = false ->
  nodupb header = true ->
  Forall (fun r => (length r <= length header)%nat) rows ->
  one_block (length header) (length rows) = true ->
  infer_columns (seq 0 (length header)) (map (pad_row (length header)) rows) = Ok ks ->
  read_csv (writerows (header :: rows))
  = Ok {| columns := combine header (map dtype_of_kind ks);
          data := map (fun r => convert_row ks (pad_row (length header) r)) rows |}.
Proof.
  intros Hs He Hd Hl Hb Hk. unfold read_csv.
  rewrite tokenize_written by assumption. cbn [bind].
  rewrite He, Hd. cbn [negb orb]. cbv zeta.
  assert (E : match map (pad_row (length header)) rows with
              | [] => length header
              | l :: _ => length l
              end = length header).
  { destruct rows as [|r rows]; [reflexivity|]. cbn [map].
    inversion Hl; subst. now rewrite length_pad_row by assumption. }
  rewrite E, length_map, Hb, Nat.sub_diag. cbn [negb].
  rewrite map_skipn_0, Hk. cbn [bind]. now rewrite map_map.
Qed.

Lemma names_read_csv_written (header : list string) (ks : list kind)
  (rows : list (list cell)) :
  length ks = length header ->
  names {| columns := combine header (map dtype_of_kind ks); data := rows |} = header.
Proof.
  intros H. unfold names. cbn [columns].
  apply map_fst_combine_eq. now rewrite length_map.
Qed.






(** ** Integers as text *)

Lemma digits_string_of_uint (u : Decimal.uint) :
  all_chars isdigit_ascii (NilEmpty.string_of_uint u) = true.
Proof. induction u; simpl; auto. Qed.

Lemma string_of_uint_nonempty (u : Decimal.uint) :
  u <> Decimal.Nil -> NilEmpty.string_of_uint u <> "".
Proof. destruct u; simpl; congruence. Qed.

Lemma take_while_all (p : ascii -> bool) (s : string) :
  all_chars p s = true -> take_while p s = s /\ drop_while p s = "".
Proof.
  induction s as [|c s IH]; simpl; [auto|].
  intros H. apply andb_true_iff in H as [Hc Hs]. rewrite Hc.
  destruct (IH Hs) as [-> ->]. auto.
Qed.

Lemma digit_not_space (c : ascii) :
  isdigit_ascii c = true ->
  isspace_ascii c = false /\ Ascii.eqb c "-" = false /\ Ascii.eqb c "+" = false.
Proof.
  destruct c as [[] [] [] [] [] [] [] []]; vm_compute; intros H;
    try discriminate; auto.
Qed.

Lemma parse_digits (s : string) (u : Decimal.uint) (neg : bool) :
  s = NilEmpty.string_of_uint u -> u <> Decimal.Nil ->
  let z := if neg then - Z.of_uint u else Z.of_uint u in
  - 2 ^ 63 <= z < 2 ^ 63 ->
  parse_int64 (if neg then String "-" s else s) = Some z.
Proof.
  intros Hs Hu z Hz.
  pose proof (digits_string_of_uint u) as Hd. rewrite <- Hs in Hd.
  pose proof (string_of_uint_nonempty u Hu) as Hne. rewrite <- Hs in Hne.
  destruct s as [|c s]; [contradiction|].
  destruct (take_while_all _ _ Hd) as [Ht Hdr].
  assert (Hc : isdigit_ascii c = true)
    by (simpl in Hd; apply andb_true_iff in Hd; tauto).
  destruct (digit_not_space c Hc) as (H1 & H2 & H3).
  unfold parse_int64.
  assert (E : strip_sign (drop_while isspace_ascii
                (if neg then String "-" (String c s) else String c s))
              = (neg, String c s)).
  { destruct neg; simpl; [reflexivity|]. rewrite H1. simpl. now rewrite H2, H3. }
  rewrite E, Ht, Hdr. cbn [is_empty drop_while negb].
  rewrite Hs, NilEmpty.usu. fold z.
  replace ((- 2 ^ 63 <=? z) && (z <? 2 ^ 63)) with true; [reflexivity|].
  symmetry. apply andb_true_iff. split; [apply Z.leb_le | apply Z.ltb_lt]; lia.
Qed.

(** An integer that fits 64 bits is read back from its decimal text. *)
Lemma parse_int64_str_of_int (z : Z) :
  - 2 ^ 63 <= z < 2 ^ 63 -> parse_int64 (str_of_int z) = Some z.
Proof.
  intros Hz. destruct z as [|p|p].
  - reflexivity.
  - unfold str_of_int. cbn [Z.to_int NilEmpty.string_of_int].
    replace (Some (Z.pos p)) with (Some (Z.of_uint (Pos.to_uint p)))
      by (unfold Z.of_uint; now rewrite DecimalPos.Unsigned.of_to).
    apply (parse_digits _ (Pos.to_uint p) false eq_refl).
    + apply DecimalPos.Unsigned.to_uint_nonnil.
    + cbv zeta. unfold Z.of_uint. rewrite DecimalPos.Unsigned.of_to. exact Hz.
  - unfold str_of_int. cbn [Z.to_int NilEmpty.string_of_int].
    replace (Some (Z.neg p)) with (Some (- Z.of_uint (Pos.to_uint p)))
      by (unfold Z.of_uint; now rewrite DecimalPos.Unsigned.of_to).
    apply (parse_digits _ (Pos.to_uint p) true eq_refl).
    + apply DecimalPos.Unsigned.to_uint_nonnil.
    + cbv zeta. unfold Z.of_uint. rewrite DecimalPos.Unsigned.of_to. exact Hz.
Qed.

Lemma str_of_int_chars (z : Z) :
  all_chars digit_or_minus (str_of_int z) = true /\ str_of_int z <> "".
Proof.
  assert (Hd : forall u, all_chars digit_or_minus (NilEmpty.string_of_uint u) = true)
    by (induction u; simpl; auto).
  destruct z as [|p|p]; unfold str_of_int; cbn [Z.to_int NilEmpty.string_of_int].
  - split; [reflexivity | discriminate].
  - split; [apply Hd|]. apply string_of_uint_nonempty, DecimalPos.Unsigned.to_uint_nonnil.
  - split; [|discriminate]. cbn [all_chars]. rewrite Hd. reflexivity.
Qed.

(** No text of digits and minus signs is read as a missing value. *)
Lemma is_na_digits (t : string) :
  all_chars digit_or_minus t = true -> t <> "" -> is_na t = false.
Proof.
  intros Hall Hne. destruct (is_na t) eqn:E; [|reflexivity].
  unfold is_na, mem_string in E. apply existsb_exists in E as (x & Hin & Heq).
  apply String.eqb_eq in Heq; subst x. unfold STR_NA_VALUES in Hin.
  simpl in Hin.
  repeat (destruct Hin as [<-|Hin];
          [first [contradiction | vm_compute in Hall; discriminate]|]).
  contradiction.
Qed.

Lemma no_cr_digits (t : string) :
  all_chars digit_or_minus t = true -> safe_field t = true.
Proof.
  intros H. unfold safe_field. apply orb_true_iff. right. apply negb_true_iff.
  induction t as [|c t IH]; [reflexivity|].
  cbn [all_chars] in H. apply andb_true_iff in H as [Hc Ht].
  cbn [mem_char]. rewrite (IH Ht), orb_false_r.
  destruct (Ascii.eqb_spec CR c) as [<-|]; [discriminate | reflexivity].
Qed.

(** ** Type inference on a column *)

Lemma forallb_false_in {A} (f : A -> bool) (l : list A) (x : A) :
  In x l -> f x = false -> forallb f l = false.
Proof.
  intros Hin Hf. destruct (forallb f l) eqn:E; [|reflexivity].
  rewrite forallb_forall in E. rewrite (E x Hin) in Hf. discriminate.
Qed.

Lemma infer_kind_int (col : list string) :
  col <> [] -> forallb is_int64 col = true -> infer_kind col = Ok KInt.
Proof. intros Hne H. unfold infer_kind. destruct col; [contradiction|]. now rewrite H. Qed.

Lemma infer_kind_nan (col : list string) :
  col <> [] -> forallb is_na col = true -> infer_kind col = Ok KNaN.
Proof.
  intros Hne H. unfold infer_kind. destruct col as [|t col]; [contradiction|].
  assert (Hi : forallb is_int64 (t :: col) = false).
  { apply (forallb_false_in _ (t :: col) t); [now left|].
    unfold is_int64. cbn [forallb] in H. apply andb_true_iff in H as [-> _].
    reflexivity. }
  rewrite Hi.
  assert (Hf : filter (fun t => negb (is_na t)) (t :: col) = []).
  { clear Hi Hne. induction (t :: col) as [|x l IH]; [reflexivity|].
    cbn [forallb] in H. apply andb_true_iff in H as [Hx Hl].
    cbn [filter]. rewrite Hx. cbn [negb]. auto. }
  now rewrite Hf.
Qed.

(** A column with a text that is neither missing nor a number nor a
    boolean is a column of text. *)
Lemma infer_kind_str (col : list string) (t : string) :
  In t col -> is_na t = false -> numeric_like t = false -> bool_like t = false ->
  is_int64 t = false ->
  infer_kind col = Ok KStr.
Proof.
  intros Hin Hna Hnum Hbool Hint. unfold infer_kind.
  destruct col as [|t0 col]; [destruct Hin|].
  rewrite (forallb_false_in _ _ t Hin Hint).
  assert (Hv : In t (filter (fun t => negb (is_na t)) (t0 :: col)))
    by (apply filter_In; split; [exact Hin | now rewrite Hna]).
  destruct (filter _ (t0 :: col)) as [|v vals]; [destruct Hv|].
  rewrite (forallb_false_in _ _ t Hv Hnum), (forallb_false_in _ _ t Hv Hbool).
  reflexivity.
Qed.

Lemma tolower_ascii_cases (c : ascii) :
  c = tolower_ascii c \/ c = ascii_of_nat (code (tolower_ascii c) - 32).
Proof. destruct c as [[] [] [] [] [] [] [] []]; vm_compute; auto. Qed.

Ltac letter_cases c H :=
  destruct (tolower_ascii_cases c) as [?E|?E]; rewrite H in E; vm_compute in E;
  subst c; clear H.

(** A spelling of TRUE or FALSE is neither a missing value nor a number. *)
Lemma bool_like_facts (t : string) :
  bool_like t = true ->
  is_na t = false /\ numeric_like t = false /\ is_int64 t = false.
Proof.
  unfold bool_like, to_boolean.
  destruct (String.eqb_spec (lower_ascii t) "true") as [E|_].
  - intros _.
    destruct t as [|c1 [|c2 [|c3 [|c4 [|? ?]]]]]; try discriminate.
    cbn [lower_ascii] in E. injection E as H1 H2 H3 H4.
    letter_cases c1 H1; letter_cases c2 H2; letter_cases c3 H3;
      letter_cases c4 H4; repeat split; reflexivity.
  - destruct (String.eqb_spec (lower_ascii t) "false") as [E|_]; [|discriminate].
    intros _.
    destruct t as [|c1 [|c2 [|c3 [|c4 [|c5 [|? ?]]]]]]; try discriminate.
    cbn [lower_ascii] in E. injection E as H1 H2 H3 H4 H5.
    letter_cases c1 H1; letter_cases c2 H2; letter_cases c3 H3;
      letter_cases c4 H4; letter_cases c5 H5; repeat split; reflexivity.
Qed.

(** A column of booleans and missing values, not all missing. *)
Lemma infer_kind_bool (col : list string) (t : string) :
  In t col -> bool_like t = true ->
  Forall (fun t => is_na t = true \/ bool_like t = true) col ->
  exists k, infer_kind col = Ok k /\ (k = KBool \/ k = KBoolNA).
Proof.
  intros Hin Hb Hall.
  pose proof bool_like_facts as Hfacts.
  destruct (Hfacts t Hb) as (Hna & Hnum & Hint).
  unfold infer_kind. destruct col as [|t0 col]; [destruct Hin|].
  rewrite (forallb_false_in _ _ t Hin Hint).
  assert (Hv : In t (filter (fun t => negb (is_na t)) (t0 :: col)))
    by (apply filter_In; split; [exact Hin | now rewrite Hna]).
  assert (Hvb : forallb bool_like (filter (fun t => negb (is_na t)) (t0 :: col)) = true).
  { apply forallb_forall. intros x Hx. apply filter_In in Hx as [Hx Hnx].
    rewrite Forall_forall in Hall. destruct (Hall x Hx) as [E|E]; [|exact E].
    rewrite E in Hnx. discriminate. }
  destruct (filter _ (t0 :: col)) as [|v vals]; [destruct Hv|].
  rewrite (forallb_false_in _ _ t Hv Hnum), Hvb.
  eexists. split; [reflexivity|].
  destruct (existsb is_na (t0 :: col)); auto.
Qed.

Lemma space_not_point (c : ascii) :
  isspace_ascii c = true ->
  Ascii.eqb c "." = false /\ Ascii.eqb c "e" = false /\ Ascii.eqb c "E" = false.
Proof.
  destruct c as [[] [] [] [] [] [] [] []]; vm_compute; intros H;
    try discriminate; auto.
Qed.

Lemma is_empty_true (s : string) : is_empty s = true -> s = "".
Proof. destruct s; [reflexivity | discriminate]. Qed.

(** A text read as an integer has the syntax of a number. *)
Lemma parse_int64_numeric (t : string) (z : Z) :
  parse_int64 t = Some z -> numeric_like t = true.
Proof.
  unfold parse_int64, numeric_like, float_syntax. intros H.
  destruct (strip_sign (drop_while isspace_ascii t)) as [neg s].
  destruct (is_empty (take_while isdigit_ascii s)) eqn:Ed; [discriminate|].
  destruct (is_empty (drop_while isspace_ascii (drop_while isdigit_ascii s))) eqn:Es;
    [|discriminate].
  apply orb_true_iff. left.
  destruct (drop_while isdigit_ascii s) as [|c r] eqn:E1.
  - cbn [andb]. exact Es.
  - assert (Hc : isspace_ascii c = true).
    { cbn [drop_while] in Es. destruct (isspace_ascii c); [reflexivity | discriminate]. }
    destruct (space_not_point c Hc) as (H1 & H2 & H3).
    rewrite H1. cbn [andb]. rewrite H2, H3. cbn [orb]. exact Es.
Qed.

Lemma parse_int64_range (t : string) (z : Z) :
  parse_int64 t = Some z -> - 2 ^ 63 <= z < 2 ^ 63.
Proof.
  unfold parse_int64.
  destruct (strip_sign (drop_while isspace_ascii t)) as [neg s].
  destruct (is_empty _); [discriminate|].
  destruct (negb _); [discriminate|].
  destruct (NilEmpty.uint_of_string _) as [u|]; [|discriminate].
  destruct (_ && _) eqn:E; [|discriminate].
  intros H; injection H as <-.
  apply andb_true_iff in E as [E1 E2].
  apply Z.leb_le in E1. apply Z.ltb_lt in E2. lia.
Qed.

Lemma not_numeric_not_int (t : string) :
  numeric_like t = false -> is_int64 t = false.
Proof.
  intros H. unfold is_int64. destruct (parse_int64 t) as [z|] eqn:E.
  - rewrite (parse_int64_numeric t z E) in H. discriminate.
  - apply andb_false_r.
Qed.

Lemma render_bool_like (b : bool) :
  bool_like (render (VBool b)) = true
  /\ is_na (render (VBool b)) = false
  /\ to_boolean (render (VBool b)) = Some b.
Proof. destruct b; repeat split; reflexivity. Qed.

Lemma existsb_is_str (cells : list cell) :
  existsb is_str cells = false -> Forall (fun c => is_str c = false) cells.
Proof.
  induction cells as [|c cells IH]; simpl; [constructor|].
  intros H. apply orb_false_iff in H as [H1 H2]. constructor; auto.
Qed.

(** Writing the cells of a column and inferring its kind again: when the
    column stays text if it holds text, every cell is read back as it
    was. *)
Lemma column_reinferred (k : kind) (cells : list cell) :
  cells <> [] ->
  Forall (cell_of_kind k) cells ->
  text_stays_text cells = true ->
  exists k',
    infer_kind (map render cells) = Ok k'
    /\ Forall (fun c => convert k' (render c) = c) cells.
Proof.
  intros Hne Hk Hst.
  assert (Hne' : map render cells <> []) by (destruct cells; [contradiction | discriminate]).
  (* the column holds missing values only *)
  destruct (forallb (fun c => negb (notna c)) cells) eqn:Enan.
  { exists KNaN. rewrite forallb_forall in Enan. split.
    - apply infer_kind_nan; [exact Hne'|].
      apply forallb_forall. intros t Ht. apply in_map_iff in Ht as (c & <- & Hc).
      specialize (Enan c Hc). destruct c; try discriminate. reflexivity.
    - apply Forall_forall. intros c Hc. specialize (Enan c Hc).
      destruct c; try discriminate. reflexivity. }
  assert (Hsome : exists c, In c cells /\ notna c = true).
  { destruct (existsb notna cells) eqn:E.
    - apply existsb_exists in E. exact E.
    - exfalso. rewrite <- Enan in E. clear - E.
      induction cells as [|c cells IH]; simpl in *; [discriminate|].
      destruct (notna c); simpl in *; [discriminate|]. auto. }
  destruct Hsome as (c0 & Hc0 & Hn0).
  rewrite Forall_forall in Hk.
  destruct k.
  - (* integers *)
    exists KInt.
    assert (Hcell : forall c, In c cells ->
              exists z, c = VInt z /\ - 2 ^ 63 <= z < 2 ^ 63).
    { intros c Hc. specialize (Hk c Hc). destruct c; simpl in Hk; try contradiction.
      eauto. }
    split.
    + apply infer_kind_int; [exact Hne'|]. apply forallb_forall.
      intros t Ht. apply in_map_iff in Ht as (c & <- & Hc).
      destruct (Hcell c Hc) as (z & -> & Hz). unfold is_int64. cbn [render].
      destruct (str_of_int_chars z) as [H1 H2].
      rewrite (is_na_digits _ H1 H2), (parse_int64_str_of_int z Hz). reflexivity.
    + apply Forall_forall. intros c Hc.
      destruct (Hcell c Hc) as (z & -> & Hz). unfold convert. cbn [render].
      destruct (str_of_int_chars z) as [H1 H2].
      rewrite (is_na_digits _ H1 H2), (parse_int64_str_of_int z Hz). reflexivity.
  - (* missing values only: excluded above *)
    exfalso. specialize (Hk c0 Hc0). destruct c0; simpl in *; try contradiction.
    discriminate.
  - (* booleans *)
    assert (Hcell : forall c, In c cells -> exists b, c = VBool b).
    { intros c Hc. specialize (Hk c Hc). destruct c; simpl in Hk; try contradiction.
      eauto. }
    destruct (Hcell c0 Hc0) as (b0 & ->).
    destruct (infer_kind_bool (map render cells) (render (VBool b0)))
      as (k' & Hk' & Hkind).
    + apply in_map. exact Hc0.
    + apply render_bool_like.
    + apply Forall_forall. intros t Ht. apply in_map_iff in Ht as (c & <- & Hc).
      destruct (Hcell c Hc) as (b & ->). right. apply render_bool_like.
    + exists k'. split; [exact Hk'|]. apply Forall_forall. intros c Hc.
      destruct (Hcell c Hc) as (b & ->).
      destruct (render_bool_like b) as (_ & H2 & H3).
      unfold convert. rewrite H2, H3. destruct Hkind as [-> | ->]; reflexivity.
  - (* booleans and missing values *)
    assert (Hcell : forall c, In c cells -> c = NaN \/ exists b, c = VBool b).
    { intros c Hc. specialize (Hk c Hc). destruct c; simpl in Hk; try contradiction;
        eauto. }
    destruct (Hcell c0 Hc0) as [-> | (b0 & ->)]; [discriminate|].
    destruct (infer_kind_bool (map render cells) (render (VBool b0)))
      as (k' & Hk' & Hkind).
    + apply in_map. exact Hc0.
    + apply render_bool_like.
    + apply Forall_forall. intros t Ht. apply in_map_iff in Ht as (c & <- & Hc).
      destruct (Hcell c Hc) as [-> | (b & ->)]; [left; reflexivity|].
      right. apply render_bool_like.
    + exists k'. split; [exact Hk'|]. apply Forall_forall. intros c Hc.
      destruct (Hcell c Hc) as [-> | (b & ->)].
      * reflexivity.
      * destruct (render_bool_like b) as (_ & H2 & H3).
        unfold convert. rewrite H2, H3. destruct Hkind as [-> | ->]; reflexivity.
  - (* text *)
    assert (Hcell : forall c, In c cells ->
              c = NaN \/ exists s, c = VStr s /\ is_na s = false).
    { intros c Hc. specialize (Hk c Hc). destruct c; simpl in Hk; try contradiction;
        eauto. }
    destruct (Hcell c0 Hc0) as [-> | (s0 & -> & Hs0)]; [discriminate|].
    unfold text_stays_text in Hst. apply orb_true_iff in Hst as [Hst|Hst].
    { apply negb_true_iff, existsb_is_str in Hst. rewrite Forall_forall in Hst.
      specialize (Hst _ Hc0). discriminate. }
    apply existsb_exists in Hst as (c1 & Hc1 & Hp).
    destruct c1 as [| | |s1]; try discriminate. cbn [plain_text] in Hp.
    apply andb_true_iff in Hp as [Hnum Hbool].
    apply negb_true_iff in Hnum. apply negb_true_iff in Hbool.
    destruct (Hcell _ Hc1) as [E | (s & E & Hna)]; [discriminate|].
    injection E as <-.
    exists KStr. split.
    + apply (infer_kind_str _ s1); try assumption.
      * change s1 with (render (VStr s1)). apply in_map. exact Hc1.
      * apply not_numeric_not_int. exact Hnum.
    + apply Forall_forall. intros c Hc.
      destruct (Hcell c Hc) as [-> | (s & -> & Hs)]; [reflexivity|].
      unfold convert. cbn [render]. now rewrite Hs.
Qed.

(** ** Type inference on a table *)

Lemma token_column_shift (j : nat) (body : list (list string)) :
  token_column (S j) body = token_column j (map (@tl string) body).
Proof.
  unfold token_column. rewrite map_map. apply map_ext.
  intros [|t r]; [destruct j|]; reflexivity.
Qed.

Lemma infer_columns_shift (a n : nat) (body : list (list string)) :
  infer_columns (seq (S a) n) body = infer_columns (seq a n) (map (@tl string) body).
Proof.
  revert a; induction n as [|n IH]; intros a; [reflexivity|].
  cbn [seq infer_columns]. now rewrite token_column_shift, IH.
Qed.

Lemma column_shift (j : nat) (rows : list (list cell)) :
  column (S j) rows = column j (map (@tl cell) rows).
Proof.
  unfold column. rewrite map_map. apply map_ext.
  intros [|t r]; [destruct j|]; reflexivity.
Qed.

Lemma token_column_render (j : nat) (rows : list (list cell)) :
  token_column j (map (map render) rows) = map render (column j rows).
Proof.
  unfold token_column, column. rewrite !map_map. apply map_ext.
  intros r. change EmptyString with (render NaN). apply map_nth.
Qed.

Lemma map_tl_render (rows : list (list cell)) :
  map (@tl string) (map (map render) rows) = map (map render) (map (@tl cell) rows).
Proof. rewrite !map_map. apply map_ext. intros [|c r]; reflexivity. Qed.

(** Writing typed rows and inferring the kinds again gives back every
    row, when every column stays text if it holds text. *)
Lemma reinfer_rows (ks : list kind) (rows : list (list cell)) :
  rows <> [] ->
  typed_rows ks rows ->
  (forall j, text_stays_text (column j rows) = true) ->
  exists ks',
    infer_columns (seq 0 (length ks)) (map (map render) rows) = Ok ks'
    /\ Forall (fun r => convert_row ks' (map render r) = r) rows.
Proof.
  revert rows; induction ks as [|k ks IH]; intros rows Hne Ht Hst.
  - exists []. split; [reflexivity|].
    apply Forall_forall. intros r Hr. unfold typed_rows in Ht.
    rewrite Forall_forall in Ht. specialize (Ht r Hr). inversion Ht. reflexivity.
  - unfold typed_rows in Ht. rewrite Forall_forall in Ht.
    assert (Hrow : forall r, In r rows ->
              exists c r', r = c :: r' /\ cell_of_kind k c /\ Forall2 cell_of_kind ks r').
    { intros r Hr. specialize (Ht r Hr). inversion Ht; subst. eauto. }
    destruct (column_reinferred k (column 0 rows)) as (k0 & Hk0 & Hc0).
    + destruct rows; [contradiction | discriminate].
    + apply Forall_forall. intros c Hc. unfold column in Hc.
      apply in_map_iff in Hc as (r & <- & Hr).
      destruct (Hrow r Hr) as (c & r' & -> & Hc & _). exact Hc.
    + apply Hst.
    + destruct (IH (map (@tl cell) rows)) as (ks' & Hks' & Hconv).
      * destruct rows; [contradiction | discriminate].
      * apply Forall_forall. intros r' Hr'.
        apply in_map_iff in Hr' as (r & <- & Hr).
        destruct (Hrow r Hr) as (c & r' & -> & _ & H). exact H.
      * intros j. rewrite <- column_shift. apply Hst.
      * exists (k0 :: ks'). split.
        -- cbn [length seq infer_columns].
           rewrite token_column_render, Hk0. cbn [bind].
           rewrite infer_columns_shift, map_tl_render, Hks'. reflexivity.
        -- apply Forall_forall. intros r Hr.
           destruct (Hrow r Hr) as (c & r' & -> & _ & _).
           cbn [map convert_row]. f_equal.
           ++ rewrite Forall_forall in Hc0. apply Hc0.
              unfold column. apply in_map_iff. exists (c :: r'). auto.
           ++ rewrite Forall_forall in Hconv. apply (Hconv r').
              apply in_map_iff. exists (c :: r'). auto.
Qed.

(** What [read_csv] returns is typed, and its column names are neither
    empty nor repeated. *)
Lemma convert_typed (col : list string) (k : kind) (t : string) :
  infer_kind col = Ok k -> In t col -> cell_of_kind k (convert k t).
Proof.
  intros Hk Hin. unfold infer_kind in Hk.
  destruct col as [|t0 col]; [destruct Hin|].
  destruct (forallb is_int64 (t0 :: col)) eqn:Eint.
  - injection Hk as <-. rewrite forallb_forall in Eint. specialize (Eint t Hin).
    unfold is_int64 in Eint. apply andb_true_iff in Eint as [Hna Hp].
    apply negb_true_iff in Hna. unfold convert. rewrite Hna.
    destruct (parse_int64 t) as [z|] eqn:E; [|discriminate].
    simpl. apply (parse_int64_range t z E).
  - destruct (filter _ (t0 :: col)) as [|v vals] eqn:Ef.
    + injection Hk as <-. unfold convert. destruct (is_na t); exact I.
    + destruct (forallb numeric_like (v :: vals)); [discriminate|].
      destruct (forallb bool_like (v :: vals)) eqn:Eb.
      * destruct (existsb is_na (t0 :: col)) eqn:Ena; injection Hk as <-.
        -- unfold convert. destruct (is_na t); [exact I|].
           destruct (to_boolean t); exact I.
        -- assert (Hna : is_na t = false).
           { destruct (is_na t) eqn:E; [|reflexivity].
             assert (existsb is_na (t0 :: col) = true)
               by (apply existsb_exists; eauto). congruence. }
           assert (Hb : bool_like t = true).
           { rewrite forallb_forall in Eb. apply Eb. rewrite <- Ef.
             apply filter_In. split; [exact Hin | now rewrite Hna]. }
           unfold convert. rewrite Hna. unfold bool_like in Hb.
           destruct (to_boolean t); [exact I | discriminate].
      * injection Hk as <-. unfold convert. destruct (is_na t) eqn:E; [exact I|].
        simpl. exact E.
Qed.

Lemma convert_row_unfold (k : kind) (ks : list kind) (r : list string) :
  convert_row (k :: ks) r = convert k (nth 0 r "") :: convert_row ks (tl r).
Proof. destruct r; reflexivity. Qed.

Lemma convert_rows_typed (n : nat) (body : list (list string)) (ks : list kind) :
  infer_columns (seq 0 n) body = Ok ks ->
  typed_rows ks (map (convert_row ks) body).
Proof.
  revert body ks; induction n as [|n IH]; intros body ks H.
  - injection H as <-. unfold typed_rows. apply Forall_forall.
    intros r Hr. apply in_map_iff in Hr as (t & <- & _). constructor.
  - cbn [seq infer_columns] in H.
    destruct (infer_kind (token_column 0 body)) as [k| |] eqn:Ek;
      cbn [bind] in H; try discriminate.
    rewrite infer_columns_shift in H.
    destruct (infer_columns (seq 0 n) (map (@tl string) body)) as [ks'| |] eqn:Eks;
      cbn [bind] in H; try discriminate.
    injection H as <-. specialize (IH _ _ Eks).
    unfold typed_rows in *. rewrite Forall_forall in IH.
    apply Forall_forall. intros r Hr. apply in_map_iff in Hr as (t & <- & Ht).
    rewrite convert_row_unfold. constructor.
    + apply (convert_typed _ _ _ Ek). unfold token_column.
      apply in_map_iff. exists t. auto.
    + apply IH. apply in_map_iff. exists (tl t). split; [reflexivity|].
      apply in_map. exact Ht.
Qed.

(** The tokenizer fills the first data line up to the fields of the
    header. *)
Lemma end_line_filled (p p' : parser_t) :
  first_line_filled (lines p) -> end_line p = Ok p' -> first_line_filled (lines p').
Proof.
  unfold end_line. intros Hp.
  destruct (_ && _); [discriminate|].
  intros H; injection H as <-. cbn [lines].
  destruct (lines p) as [|header [|l rest]]; cbn [app first_line_filled].
  - exact I.
  - cbn [length Nat.leb last]. rewrite length_app, repeat_length. lia.
  - exact Hp.
Qed.

Lemma tokenize_char_filled (c : ascii) (p p' : parser_t) :
  first_line_filled (lines p) -> tokenize_char c p = Ok p' ->
  first_line_filled (lines p').
Proof.
  intros Hp. unfold tokenize_char, in_start_field, in_field.
  destruct (state p);
    repeat match goal with
           | |- context [if ?b then _ else _] => destruct b
           end;
    intros H; try discriminate;
    try (injection H as <-; exact Hp);
    match type of H with
    | end_line ?q = _ => exact (end_line_filled q _ Hp H)
    end.
Qed.

Lemma tokenize_bytes_filled (s : string) (p p' : parser_t) :
  first_line_filled (lines p) -> tokenize_bytes s p = Ok p' ->
  first_line_filled (lines p').
Proof.
  revert p; induction s as [|c s IH]; intros p Hp; cbn [tokenize_bytes].
  - intros H; injection H as <-. exact Hp.
  - destruct (tokenize_char c p) as [p1| |] eqn:E; cbn [bind]; try discriminate.
    apply IH. apply (tokenize_char_filled c p p1 Hp E).
Qed.

Lemma tokenize_all_rows_filled (text : string) (ls : list (list string)) :
  tokenize_all_rows text = Ok ls -> first_line_filled ls.
Proof.
  unfold tokenize_all_rows.
  destruct (tokenize_bytes text parser_new) as [p| |] eqn:E; cbn [bind];
    try discriminate.
  assert (Hp : first_line_filled (lines p))
    by (apply (tokenize_bytes_filled text parser_new p); [exact I | exact E]).
  unfold parser_handle_eof.
  destruct (state p); try discriminate;
    try (intros H; injection H as <-; exact Hp);
    match goal with
    | |- context [end_line ?q] =>
        destruct (end_line q) as [p1| |] eqn:E1; cbn [bind]; try discriminate;
        intros H; injection H as <-; apply (end_line_filled q p1); [exact Hp | exact E1]
    end.
Qed.

Lemma one_block_le (w w' rows rows' : nat) :
  (w' <= w)%nat -> (rows' <= rows)%nat ->
  one_block w rows = true -> one_block w' rows' = true.
Proof.
  unfold one_block. intros Hw Hr H. apply Z.leb_le in H. apply Z.leb_le. nia.
Qed.

Lemma read_csv_typed (text : string) (df : DataFrame) :
  read_csv text = Ok df ->
  mem_string "" (names df) = false
  /\ nodupb (names df) = true
  /\ one_block (length (columns df)) (nrows df) = true
  /\ exists ks, length ks = length (columns df) /\ typed_rows ks (data df).
Proof.
  unfold read_csv. destruct (tokenize_all_rows text) as [ls| |] eqn:Et; cbn [bind];
    try discriminate.
  destruct ls as [|header body]; [discriminate|].
  destruct (mem_string "" header) eqn:E1; [discriminate|].
  destruct (nodupb header) eqn:E2; [|discriminate]. cbn [negb orb]. cbv zeta.
  destruct (one_block _ _) eqn:Eb; [|discriminate]. cbn [negb].
  destruct (infer_columns _ _) as [ks| |] eqn:Ek; cbn [bind]; try discriminate.
  intros H; injection H as <-.
  pose proof (infer_columns_length _ _ _ Ek) as Hlen. rewrite length_seq in Hlen.
  rewrite (names_read_csv_written header ks _ Hlen).
  split; [exact E1|]. split; [exact E2|].
  assert (Hcols : length (combine header (map dtype_of_kind ks)) = length header)
    by (rewrite length_combine, length_map; lia).
  split.
  - unfold nrows. cbn [columns data]. rewrite Hcols, !length_map.
    pose proof (tokenize_all_rows_filled _ _ Et) as Hf.
    eapply one_block_le; [|apply Nat.le_refl | exact Eb].
    destruct body as [|l rest]; [apply Nat.le_refl | exact Hf].
  - exists ks. cbn [columns data]. split; [now rewrite Hcols|].
    apply (convert_rows_typed _ _ _ Ek).
Qed.

(** ** C9: the export read back *)

Lemma pad_row_full (n : nat) (r : list string) : length r = n -> pad_row n r = r.
Proof.
  intros H. unfold pad_row. rewrite H, Nat.sub_diag. apply app_nil_r.
Qed.

Lemma infer_columns_no_rows (js : list nat) :
  exists ks, infer_columns js [] = Ok ks.
Proof.
  induction js as [|j js [ks IH]]; [exists []; reflexivity|].
  exists (KStr :: ks). cbn [infer_columns token_column map infer_kind bind].
  rewrite IH. reflexivity.
Qed.

Lemma column_out_of_range (j : nat) (rows : list (list cell)) (n : nat) :
  Forall (fun r => length r = n) rows -> (n <= j)%nat ->
  text_stays_text (column j rows) = true.
Proof.
  intros Hl Hj. unfold text_stays_text. apply orb_true_iff. left.
  apply negb_true_iff. unfold column.
  induction Hl as [|r rows Hr _ IH]; [reflexivity|].
  cbn [map existsb]. rewrite IH, orb_false_r.
  rewrite nth_overflow by lia. reflexivity.
Qed.

(** The filter keeps the columns and selects rows. *)
Lemma length_select {A} (mask : list bool) (l : list A) :
  (length (select mask l) <= length l)%nat.
Proof.
  revert l; induction mask as [|b mask IH]; intros [|x l]; cbn [select length];
    try lia.
  specialize (IH l). destruct b; cbn [length]; lia.
Qed.

Lemma admin_filter_typed (df filtered : DataFrame) (selected_ratings : list Z)
  (q : string) (ks : list kind) :
  typed_rows ks (data df) ->
  admin_filter df selected_ratings q = Ok filtered ->
  columns filtered = columns df
  /\ typed_rows ks (data filtered)
  /\ (nrows filtered <= nrows df)%nat.
Proof.
  intros Ht. unfold admin_filter, nrows.
  destruct (getitem df "rating") as [rating| |]; cbn [bind]; try discriminate.
  destruct (negb _).
  - destruct (getitem _ "review") as [review| |]; cbn [bind]; try discriminate.
    destruct (str_contains review q) as [mask| |]; cbn [bind]; try discriminate.
    intros H; injection H as <-. split; [reflexivity|].
    cbn [df_select data]. split.
    + apply Forall_select, Forall_select. exact Ht.
    + etransitivity; apply length_select.
  - intros H; injection H as <-. split; [reflexivity|].
    cbn [df_select data]. split; [apply Forall_select; exact Ht | apply length_select].
Qed.

(** A typed table whose written rows are safe and whose columns stay text
    is read back from its CSV text with the same column names and the same
    rows. *)
Lemma to_csv_read_back (sub : DataFrame) (ks : list kind) :
  mem_string "" (names sub) = false ->
  nodupb (names sub) = true ->
  length ks = length (columns sub) ->
  typed_rows ks (data sub) ->
  one_block (length (columns sub)) (nrows sub) = true ->
  exportable sub = true ->
  columns_stay_text sub = true ->
  exists sub',
    read_csv (to_csv sub) = Ok sub'
    /\ names sub' = names sub
    /\ data sub' = data sub.
Proof.
  intros He Hd Hlen Ht Hb Hex Hst.
  assert (Hh : length (names sub) = length ks)
    by (unfold names; rewrite length_map; lia).
  assert (Hrows : Forall (fun r => length r = length (names sub)) (data sub)).
  { unfold typed_rows in Ht. eapply Forall_impl; [|exact Ht].
    intros r Hr. apply Forall2_length in Hr. lia. }
  assert (Hpad : map (pad_row (length (names sub))) (map (map render) (data sub))
                 = map (map render) (data sub)).
  { rewrite <- (map_id (map (map render) (data sub))) at 2.
    apply map_ext_in. intros r Hr. apply pad_row_full.
    apply in_map_iff in Hr as (r0 & <- & Hr0). rewrite length_map.
    rewrite Forall_forall in Hrows. auto. }
  assert (Hinfer : exists ks',
            infer_columns (seq 0 (length (names sub))) (map (map render) (data sub))
              = Ok ks'
            /\ Forall (fun r => convert_row ks' (map render r) = r) (data sub)).
  { destruct (data sub) as [|r0 rows0] eqn:Edata.
    - destruct (infer_columns_no_rows (seq 0 (length (names sub)))) as [ks' Hks'].
      exists ks'. split; [exact Hks' | constructor].
    - rewrite Hh. apply reinfer_rows; [discriminate | exact Ht |].
      intros j. destruct (Nat.lt_ge_cases j (length (columns sub))) as [Hj|Hj].
      + unfold columns_stay_text in Hst. rewrite forallb_forall in Hst.
        rewrite <- Edata. apply Hst. apply in_seq. lia.
      + apply (column_out_of_range j _ (length (names sub))); [exact Hrows|].
        unfold names. rewrite length_map. exact Hj. }
  destruct Hinfer as (ks' & Hks' & Hconv).
  unfold to_csv.
  rewrite (read_csv_written (names sub) (map (map render) (data sub)) ks').
  - eexists. split; [reflexivity|]. split.
    + apply names_read_csv_written.
      rewrite (infer_columns_length _ _ _ Hks'). apply length_seq.
    + cbn [data]. rewrite map_map.
      rewrite <- (map_id (data sub)) at 2. apply map_ext_in.
      intros r Hr. rewrite pad_row_full.
      * rewrite Forall_forall in Hconv. auto.
      * rewrite length_map. rewrite Forall_forall in Hrows. auto.
  - exact Hex.
  - exact He.
  - exact Hd.
  - apply Forall_forall. intros r Hr. apply in_map_iff in Hr as (r0 & <- & Hr0).
    rewrite length_map. rewrite Forall_forall in Hrows. rewrite (Hrows r0 Hr0). lia.
  - unfold names, nrows in *. now rewrite !length_map.
  - rewrite Hpad. exact Hks'.
Qed.

(** C9 (as amended). Take a filtered subset of a loaded table such that
    the rows of its export are safe to read back (no bare field holds a
    carriage return, no row is a single field of blanks) and every column
    that holds text holds a text that is read back as text, neither as a
    number nor as a boolean.  Writing the subset as CSV and loading that
    text gives the column names and the rows of the subset. *)
Theorem export_round_trip (text : string) (df filtered : DataFrame)
  (selected_ratings : list Z) (q : string) :
  read_csv text = Ok df ->
  admin_filter df selected_ratings q = Ok filtered ->
  exportable filtered = true ->
  columns_stay_text filtered = true ->
  exists reloaded,
    read_csv (to_csv filtered) = Ok reloaded
    /\ names reloaded = names filtered
    /\ data reloaded = data filtered.
Proof.
  intros Hload Hfilter Hex Hst.
  destruct (read_csv_typed text df Hload) as (He & Hd & Hb & ks & Hlen & Ht).
  destruct (admin_filter_typed df filtered selected_ratings q ks Ht Hfilter)
    as (Hcols & Ht' & Hrows).
  apply (to_csv_read_back filtered ks).
  - unfold names. rewrite Hcols. exact He.
  - unfold names. rewrite Hcols. exact Hd.
  - rewrite Hcols. exact Hlen.
  - exact Ht'.
  - rewrite Hcols. apply (one_block_le _ _ _ _ (Nat.le_refl _) Hrows Hb).
  - exact Hex.
  - exact Hst.
Qed.

Lemma export_round_trip_witness :
  exists filtered reloaded,
    read_csv (to_csv four_ratings) = Ok four_ratings
    /\ admin_filter four_ratings [3; 4; 5] "o" = Ok filtered
    /\ column 2 (data filtered)
       = [VStr "Great food"; VStr "Lovely staff"; VStr "Slow service"]
    /\ read_csv (to_csv filtered) = Ok reloaded
    /\ names reloaded = names filtered
    /\ data reloaded = data filtered.
Proof.
  assert (Hload : read_csv (to_csv four_ratings) = Ok four_ratings)
    by (vm_compute; reflexivity).
  assert (Hfilter : admin_filter four_ratings [3; 4; 5] "o"
                    = Ok (df_select four_ratings [true; true; true; false]))
    by (vm_compute; reflexivity).
  destruct (export_round_trip _ _ _ _ _ Hload Hfilter eq_refl eq_refl)
    as (reloaded & H1 & H2 & H3).
  exists (df_select four_ratings [true; true; true; false]), reloaded.
  repeat split; assumption.
Defined.

(** C9 (as stated) fails: of the reviews "good" and "123" the search
    string "2" keeps the second; in the export it is the text 123, which is
    read back as the integer 123. *)
Lemma numeric_text_read_back_as_number :
  exists df filtered reloaded,
    read_csv numeric_review_file = Ok df
    /\ admin_filter df [1; 2; 3; 4; 5] "2" = Ok filtered
    /\ read_csv (to_csv filtered) = Ok reloaded
    /\ column 2 (data filtered) = [VStr "123"]
    /\ column 2 (data reloaded) = [VInt 123]
    /\ data reloaded <> data filtered.
Proof.
  eexists. eexists. eexists.
  split; [vm_compute; reflexivity|].
  split; [vm_compute; reflexivity|].
  split; [vm_compute; reflexivity|].
  split; [reflexivity|]. split; [reflexivity|]. discriminate.
Qed.

(** ** Search strings without special characters *)

Lemma parse_literal_char (c : ascii) (f : frame) (st : list frame) :
  re_special c = false ->
  parse_char c (normal f st) = Ok (normal (add_item (LITERAL c) f) st).
Proof.
  unfold re_special. cbn [mem_char]. intros H.
  repeat (apply orb_false_iff in H as [? H]).
  unfold parse_char, normal. cbn [mode cur stack]. unfold parse_normal.
  repeat match goal with
         | E : Ascii.eqb c ?x = false |- context [Ascii.eqb c ?x] => rewrite E
         end.
  reflexivity.
Qed.

Lemma parse_literals (q : string) (f : frame) (st : list frame) :
  literal_pattern q = true ->
  parse_chars q (normal f st)
  = Ok (normal {| branches := branches f;
                  items := (items f ++ literals q)%list |} st).
Proof.
  revert f; induction q as [|c q IH]; intros f H.
  - cbn [parse_chars literals]. rewrite app_nil_r. destruct f; reflexivity.
  - unfold literal_pattern in H. cbn [all_chars] in H.
    apply andb_true_iff in H as [Hc Hq]. apply negb_true_iff in Hc.
    cbn [parse_chars]. rewrite (parse_literal_char c f st Hc). cbn [bind].
    rewrite (IH _ Hq). unfold add_item. cbn [branches items literals].
    rewrite <- app_assoc. reflexivity.
Qed.

(** A search string without special characters compiles to the sequence
    of its characters. *)
Lemma re_compile_literal (q : string) :
  literal_pattern q = true -> re_compile q = Ok (seq_of (literals q)).
Proof.
  intros H. unfold re_compile.
  change {| mode := NORMAL; cur := {| branches := []; items := [] |}; stack := [] |}
    with (normal {| branches := []; items := [] |} []).
  rewrite (parse_literals q _ _ H). reflexivity.
Qed.

Lemma get_slice_from (i : nat) (s : string) :
  String.get i s = match slice_from i s with
                   | String d _ => Some d
                   | EmptyString => None
                   end.
Proof.
  revert s; induction i as [|i IH]; intros [|c s]; try reflexivity.
  cbn [String.get slice_from]. apply IH.
Qed.

Lemma slice_from_S (i : nat) (s : string) :
  slice_from (S i) s = match slice_from i s with
                       | String _ r => r
                       | EmptyString => EmptyString
                       end.
Proof.
  revert s; induction i as [|i IH]; intros [|c s]; try reflexivity.
  apply (IH s).
Qed.

Lemma ends_seq_cons (x : regex) (l : list regex) (s : string) (i : nat) :
  ends (seq_of (x :: l)) s i = flat_map (ends (seq_of l) s) (ends x s i).
Proof.
  destruct l as [|y l]; [|reflexivity].
  cbn [seq_of]. induction (ends x s i) as [|j js IH]; [reflexivity|].
  change (flat_map (ends EMPTY s) (j :: js))
    with (j :: flat_map (ends EMPTY s) js).
  now rewrite <- IH.
Qed.

(** Where a match of the characters of [q] that starts at [i] ends. *)
Lemma ends_literals (q s : string) (i : nat) :
  ends (seq_of (literals q)) s i
  = if starts_with_ci q (slice_from i s) then [(i + String.length q)%nat] else [].
Proof.
  revert i; induction q as [|c q IH]; intros i.
  - cbn [literals seq_of ends starts_with_ci String.length].
    now rewrite Nat.add_0_r.
  - cbn [literals]. rewrite ends_seq_cons. cbn [ends].
    rewrite get_slice_from. pose proof (slice_from_S i s) as HS.
    destruct (slice_from i s) as [|d r]; [reflexivity|].
    cbn [starts_with_ci]. destruct (Ascii.eqb (lower d) (lower c)); [|reflexivity].
    cbn [flat_map andb]. rewrite app_nil_r, IH, HS.
    cbn [String.length]. now rewrite Nat.add_succ_r.
Qed.

Lemma existsb_starts (q s : string) :
  existsb (fun i => starts_with_ci q (slice_from i s)) (seq 0 (S (String.length s)))
  = contains_ci q s.
Proof.
  induction s as [|d s IH].
  - cbn. now rewrite orb_false_r.
  - cbn [String.length]. rewrite <- cons_seq, <- seq_shift.
    cbn [existsb contains_ci slice_from]. f_equal.
    rewrite <- IH. clear IH.
    induction (seq 0 (S (String.length s))) as [|j js IHj]; [reflexivity|].
    cbn [map existsb slice_from]. now rewrite IHj.
Qed.

(** Searching for the characters of [q] is the substring test that
    ignores letter case. *)
Lemma re_search_literal (q s : string) :
  re_search (seq_of (literals q)) s = contains_ci q s.
Proof.
  unfold re_search. rewrite <- existsb_starts.
  induction (seq 0 (S (String.length s))) as [|j js IH]; [reflexivity|].
  cbn [existsb]. rewrite IH, ends_literals.
  destruct (starts_with_ci q (slice_from j s)); reflexivity.
Qed.

Lemma select_none {A} (l : list A) (mask : list bool) :
  Forall (fun b => b = false) mask -> select mask l = [].
Proof.
  intros H. revert l; induction H as [|b mask Hb _ IH]; intros [|x l];
    try reflexivity.
  subst b. cbn [select]. apply IH.
Qed.

Lemma select_nil {A} (mask : list bool) : select mask (@nil A) = [].
Proof. destruct mask; reflexivity. Qed.

(** For a search string that is blank or holds no special character the
    filter is the one of the dashboard's label: a row is kept when its
    rating is selected and, unless the search string is blank, its review
    contains the search string, letter case ignored; with no rating
    selected no row is kept. *)
Theorem plain_search_is_substring_test (df : DataFrame) (selected_ratings : list Z)
  (q : string) (rating : dtype * list cell) (reviews : list cell) :
  getitem df "rating" = Ok rating ->
  getitem df "review" = Ok (object_, reviews) ->
  Forall text_or_missing reviews ->
  let by_rating := map (isin selected_ratings) (snd rating) in
  (strip q = "" ->
     admin_filter df selected_ratings q = Ok (df_select df by_rating))
  /\ (strip q <> "" -> literal_pattern q = true ->
        admin_filter df selected_ratings q =
          Ok (df_select (df_select df by_rating)
                (map (fun c => match c with
                               | VStr s => contains_ci q s
                               | _ => false
                               end) (select by_rating reviews))))
  /\ (strip q = "" \/ literal_pattern q = true ->
        exists filtered,
          admin_filter df [] q = Ok filtered /\ data filtered = []).
Proof.
  intros Hr Hv Ht by_rating.
  assert (Hblank : forall sel, strip q = "" ->
            admin_filter df sel q = Ok (df_select df (map (isin sel) (snd rating)))).
  { intros sel E. unfold admin_filter. rewrite Hr. cbn [bind]. rewrite E.
    reflexivity. }
  assert (Hlit : forall sel, strip q <> "" -> literal_pattern q = true ->
            admin_filter df sel q =
              Ok (df_select (df_select df (map (isin sel) (snd rating)))
                    (map (fun c => match c with
                                   | VStr s => contains_ci q s
                                   | _ => false
                                   end)
                         (select (map (isin sel) (snd rating)) reviews)))).
  { intros sel Hq Hl.
    rewrite (admin_filter_search df sel q rating reviews Hr Hv Ht Hq).
    rewrite (re_compile_literal q Hl). do 2 f_equal.
    apply map_ext. intros [| | |s]; try reflexivity. apply re_search_literal. }
  split; [apply Hblank|]. split; [apply Hlit|].
  assert (Hnone : select (map (isin []) (snd rating)) (data df) = []).
  { apply select_none. apply Forall_forall. intros b Hb.
    apply in_map_iff in Hb as (c & <- & _). destruct c; reflexivity. }
  intros [E|Hl].
  - eexists. split; [apply Hblank; exact E|]. exact Hnone.
  - destruct (String.eqb_spec (strip q) "") as [E|Hq].
    + eexists. split; [apply Hblank; exact E|]. exact Hnone.
    + eexists. split; [apply Hlit; assumption|].
      cbn [df_select data]. rewrite Hnone. apply select_nil.
Qed.

(** With the ratings 3, 4 and 5 selected, the search string "slow" keeps
    the review "Slow service". *)
Lemma plain_search_is_substring_test_witness :
  exists filtered,
    admin_filter four_ratings [3; 4; 5] "slow" = Ok filtered
    /\ column 2 (data filtered) = [VStr "Slow service"]
    /\ column 1 (data filtered) = [VInt 3].
Proof.
  assert (Hq : strip "slow" <> "") by (cbv; discriminate).
  destruct (plain_search_is_substring_test four_ratings [3; 4; 5] "slow" _ _
              eq_refl eq_refl Forall_text_four_ratings) as (_ & H & _).
  eexists. split; [exact (H Hq eq_refl)|]. split; reflexivity.
Defined.

(** ** Further properties of the enrichment client *)

(** Without a key in either environment variable [call_llm_text] returns
    [None] at once and sends nothing. *)
Theorem no_credential_no_request (prompt : string) (w : World) :
  truthy (OPENAI_API_KEY w) = false ->
  truthy (OPENROUTER_API_KEY w) = false ->
  call_llm_text prompt w = (None, w).
Proof.
  intros H1 H2. unfold call_llm_text, call_llm_text_with, py_or. rewrite H1.
  destruct (OPENROUTER_API_KEY w) as [[|c k]|]; try reflexivity. discriminate.
Qed.

Lemma no_credential_no_request_witness :
  call_llm_text "Summarize" (world_with_file "") = (None, world_with_file "").
Proof.
  apply (no_credential_no_request "Summarize" (world_with_file "")); reflexivity.
Defined.

(** One call sends at most two requests and repeats none: the first goes
    to the OpenAI address, a second one goes to the OpenRouter address, and
    only after the first gave no text and when the OpenRouter key is set.
    Every request carries the prompt as a single user message, the
    temperature 0, the default model and the time-out of 15 seconds. *)
Theorem call_llm_text_requests (prompt : string) (w : World) :
  exists l,
    snd (call_llm_text prompt w) = with_sent w (sent w ++ l)%list
    /\ (length l <= 2)%nat
    /\ Forall (fun rq => message_content rq = prompt /\ message_role rq = "user"
                         /\ temperature rq = 0 /\ timeout rq = 15
                         /\ model rq = "gpt-3.5-turbo") l
    /\ (l = [] <->
        truthy (py_or (OPENAI_API_KEY w) (OPENROUTER_API_KEY w)) = false)
    /\ (forall rq rest, l = rq :: rest -> url rq = openai_url)
    /\ (forall rq1 rq2, l = [rq1; rq2] ->
          url rq2 = or_url
          /\ read_completion (provider w rq1) = None
          /\ truthy (OPENROUTER_API_KEY w) = true).
Proof.
  unfold call_llm_text, call_llm_text_with, post.
  destruct (py_or (OPENAI_API_KEY w) (OPENROUTER_API_KEY w)) as [[|c k]|] eqn:Ek.
  - exists []. cbn [snd]. rewrite app_nil_r.
    split; [destruct w; reflexivity|]. split; [cbn; lia|].
    split; [constructor|]. split; [split; reflexivity|].
    split; intros; discriminate.
  - destruct (read_completion (provider w _)) as [t|] eqn:E1.
    + eexists [_]. cbn [snd]. split; [reflexivity|]. split; [cbn; lia|].
      split; [repeat constructor|]. split; [split; discriminate|].
      split; [|intros; discriminate].
      intros rq rest H; injection H as <- _. reflexivity.
    + cbn [sent with_sent OPENROUTER_API_KEY provider].
      destruct (truthy (OPENROUTER_API_KEY w)) eqn:E2.
      * eexists [_; _]. cbn [snd]. split.
        -- unfold with_sent; cbn. rewrite <- app_assoc. reflexivity.
        -- split; [cbn; lia|]. split; [repeat constructor|].
           split; [split; discriminate|]. split.
           ++ intros rq rest H; injection H as <- _. reflexivity.
           ++ intros rq1 rq2 H; injection H as <- <-. auto.
      * eexists [_]. cbn [snd]. split; [reflexivity|]. split; [cbn; lia|].
        split; [repeat constructor|]. split; [split; discriminate|].
        split; [|intros; discriminate].
        intros rq rest H; injection H as <- _. reflexivity.
  - exists []. cbn [snd]. rewrite app_nil_r.
    split; [destruct w; reflexivity|]. split; [cbn; lia|].
    split; [constructor|]. split; [split; reflexivity|].
    split; intros; discriminate.
Qed.

(** A text returned by [call_llm_text] is the trimmed content of the first
    choice of an answer, one whose status is neither 4xx nor 5xx, to a
    request that was sent with the prompt. *)
Theorem returned_text_is_trimmed_content (prompt : string) (w w' : World)
  (t : string) :
  call_llm_text prompt w = (Some t, w') ->
  exists rq status_code j content,
    In rq (sent w') /\ message_content rq = prompt
    /\ provider w rq = Response status_code (Some j)
    /\ ~ (400 <= status_code < 600)
    /\ content_path j content
    /\ t = strip content.
Proof.
  intros H. apply call_llm_text_some in H as (rq & Hin & Hp & Hr).
  exists rq. unfold read_completion in Hr.
  destruct (provider w rq) as [|status_code body]; [discriminate|].
  destruct (raise_for_status status_code) eqn:Es; [discriminate|].
  destruct body as [j|]; [|discriminate]. cbn [obind] in Hr.
  apply completion_text_path in Hr as (content & Hc & ->).
  exists status_code, j, content. repeat split; try assumption.
  intros [H1 H2]. unfold raise_for_status in Es.
  apply andb_false_iff in Es as [Es|Es];
    [apply Z.leb_gt in Es | apply Z.ltb_ge in Es]; lia.
Qed.

Lemma returned_text_is_trimmed_content_witness :
  let w := world_answering (Response 200 (Some (completion "  Thank you!  "))) in
  fst (call_llm_text "Summarize" w) = Some "Thank you!"
  /\ exists content,
       content_path (completion "  Thank you!  ") content
       /\ "Thank you!" = strip content.
Proof.
  intros w. split; [reflexivity|].
  destruct (call_llm_text "Summarize" w) as [r w'] eqn:E.
  assert (Hr : r = Some "Thank you!")
    by (apply (f_equal fst) in E; cbn [fst] in E; rewrite <- E; reflexivity).
  subst r.
  destruct (returned_text_is_trimmed_content "Summarize" w w' "Thank you!" E)
    as (rq & s & j & content & _ & _ & Hp & _ & Hc & Ht).
  injection Hp as _ <-. exists content. split; assumption.
Defined.

(** ** Further properties of the store *)

Lemma concat_columns_names (a b : DataFrame) (ns : list string)
  (cols : list (string * dtype)) :
  concat_columns a b ns = Ok cols -> map fst cols = ns.
Proof.
  revert cols; induction ns as [|n ns IH]; intros cols; cbn [concat_columns].
  - intros H; injection H as <-. reflexivity.
  - destruct (common_dtype _ _) as [d| |]; cbn [bind]; try discriminate.
    destruct (concat_columns a b ns) as [cols'| |]; cbn [bind]; try discriminate.
    intros H; injection H as <-. cbn [map fst]. now rewrite (IH cols' eq_refl).
Qed.




(** Every request of one call carries the same credential: the OpenAI key
    when it is set, the OpenRouter key otherwise, whichever of the two
    addresses the request goes to. *)
Theorem requests_share_one_credential (prompt : string) (w w' : World)
  (r : option string) (rq : request) :
  call_llm_text prompt w = (r, w') ->
  In rq (sent w') ->
  ~ In rq (sent w) ->
  exists k,
    py_or (OPENAI_API_KEY w) (OPENROUTER_API_KEY w) = Some k
    /\ authorization rq = "Bearer " ++ k
    /\ content_type rq = "application/json"
    /\ (truthy (OPENAI_API_KEY w) = true -> OPENAI_API_KEY w = Some k)
    /\ (truthy (OPENAI_API_KEY w) = false -> OPENROUTER_API_KEY w = Some k).
Proof.
  unfold call_llm_text, call_llm_text_with, post. intros H Hin Hnew.
  destruct (py_or (OPENAI_API_KEY w) (OPENROUTER_API_KEY w)) as [[|c k]|] eqn:Ek;
    try (injection H as _ <-; contradiction).
  assert (Hkey : (truthy (OPENAI_API_KEY w) = true ->
                  OPENAI_API_KEY w = Some (String c k))
                 /\ (truthy (OPENAI_API_KEY w) = false ->
                     OPENROUTER_API_KEY w = Some (String c k))).
  { unfold py_or in Ek. destruct (truthy (OPENAI_API_KEY w)); split; intros E;
      try discriminate; exact Ek. }
  exists (String c k). split; [reflexivity|].
  assert (Hrq : rq = chat_request openai_url (String c k) prompt "gpt-3.5-turbo" 15
                \/ rq = chat_request or_url (String c k) prompt "gpt-3.5-turbo" 15).
  { destruct (read_completion (provider w _)).
    - injection H as _ <-. cbn [sent with_sent] in Hin.
      apply in_app_or in Hin as [Hin|[<-|[]]]; [contradiction | now left].
    - cbn [sent with_sent OPENROUTER_API_KEY provider] in H.
      destruct (truthy (OPENROUTER_API_KEY w)); injection H as _ <-;
        cbn [sent with_sent] in Hin.
      + apply in_app_or in Hin as [Hin|[<-|[]]]; [|now right].
        apply in_app_or in Hin as [Hin|[<-|[]]]; [contradiction | now left].
      + apply in_app_or in Hin as [Hin|[<-|[]]]; [contradiction | now left]. }
  destruct Hrq as [-> | ->]; (split; [reflexivity|]); (split; [reflexivity|]);
    exact Hkey.
Qed.

(** With both keys set and a first provider that fails, the request to
    OpenRouter carries the OpenAI key. *)
Lemma requests_share_one_credential_witness :
  let w := {| OPENAI_API_KEY := Some "sk-openai"; OPENROUTER_API_KEY := Some "sk-or";
              provider := fun _ => Response 500 None; sent := []; DATA_PATH := None;
              utcnow := a_moment; screen := [] |} in
  let rq := chat_request or_url "sk-openai" "Summarize" "gpt-3.5-turbo" 15 in
  In rq (sent (snd (call_llm_text "Summarize" w)))
  /\ url rq = or_url
  /\ authorization rq = "Bearer sk-openai".
Proof.
  intros w rq.
  destruct (call_llm_text "Summarize" w) as [r w'] eqn:E.
  assert (Hin : In rq (sent w'))
    by (apply (f_equal snd) in E; cbn [snd] in E; rewrite <- E; right; left;
        reflexivity).
  destruct (requests_share_one_credential "Summarize" w w' r rq E Hin (fun H => H))
    as (k & Hk & Ha & _).
  cbn [snd]. split; [exact Hin|]. split; [reflexivity|].
  injection Hk as <-. exact Ha.
Defined.

Lemma app_cons_neq {A} (l l' : list A) (x : A) : (l ++ x :: l')%list <> l.
Proof.
  intros H. apply (f_equal (@length A)) in H. rewrite length_app in H.
  cbn [length] in H. lia.
Qed.

(** The sidebar warns exactly when no call can reach a provider: the
    warning is shown if and only if every call of [call_llm_text] returns
    [None] at once and sends nothing. *)
Theorem warning_iff_no_request (w : World) :
  missing_key_warning w = true <->
  (forall prompt, call_llm_text prompt w = (None, w)).
Proof.
  unfold missing_key_warning. split.
  - intros H prompt. apply negb_true_iff in H.
    unfold call_llm_text, call_llm_text_with.
    destruct (py_or (OPENAI_API_KEY w) (OPENROUTER_API_KEY w)) as [[|c k]|];
      try reflexivity. discriminate.
  - intros H. specialize (H ""). apply negb_true_iff.
    destruct (truthy (py_or (OPENAI_API_KEY w) (OPENROUTER_API_KEY w))) eqn:E;
      [|reflexivity].
    exfalso. apply (f_equal (fun p => sent (snd p))) in H. cbn [snd] in H.
    unfold call_llm_text, call_llm_text_with, post in H.
    destruct (py_or (OPENAI_API_KEY w) (OPENROUTER_API_KEY w)) as [[|c k]|];
      try discriminate.
    destruct (read_completion (provider w _)).
    + cbn [snd sent with_sent] in H. exact (app_cons_neq _ _ _ H).
    + cbn [sent with_sent OPENROUTER_API_KEY provider] in H.
      destruct (truthy (OPENROUTER_API_KEY w)); cbn [snd sent with_sent] in H.
      * rewrite <- app_assoc in H. exact (app_cons_neq _ _ _ H).
      * exact (app_cons_neq _ _ _ H).
Qed.

(** ** Further properties of the submit handler *)

Lemma no_key_call (prompt : string) (w : World) :
  missing_key_warning w = true -> call_llm_text prompt w = (None, w).
Proof.
  unfold missing_key_warning, call_llm_text, call_llm_text_with. intros H.
  apply negb_true_iff in H.
  destruct (py_or (OPENAI_API_KEY w) (OPENROUTER_API_KEY w)) as [[|c k]|];
    try reflexivity. discriminate.
Qed.

(** Without a key a submission sends nothing and is saved with the three
    local texts: when the store can append the row, [submit] saves the row
    made of the time, the rating, the review and the three fallbacks. *)
Theorem fallback_only_submission (rating : Z) (review : string) (w w4 : World) :
  let row := {| Row.timestamp := isoformat (utcnow w);
                Row.rating := rating; Row.review := review;
                Row.ai_response := fallback_user_response rating review;
                Row.summary := fallback_summary review;
                Row.actions := fallback_actions review rating |} in
  missing_key_warning w = true ->
  strip review <> "" ->
  save_submission row w = Ok w4 ->
  fst (submit rating review w) = Ok (Some row)
  /\ sent (snd (submit rating review w)) = sent w
  /\ DATA_PATH (snd (submit rating review w)) = DATA_PATH w4.
Proof.
  intros row Hk Hne Hs. unfold submit.
  destruct (String.eqb_spec (strip review) "") as [E|_]; [contradiction|].
  set (w0 := show w (st_info "Saving your review...")).
  assert (Hk0 : missing_key_warning w0 = true) by exact Hk.
  rewrite !(no_key_call _ w0 Hk0). cbn [or_fallback].
  destruct (save_submission_frame row w w0 w4 Hs eq_refl)
    as (df & df' & Hl & Hc & Hs0).
  change (utcnow w0) with (utcnow w). fold row. rewrite Hs0. cbn [fst snd].
  split; [reflexivity|]. split; [reflexivity|].
  apply save_submission_inv in Hs as (df1 & df1' & Hl1 & Hc1 & ->).
  rewrite Hl in Hl1. injection Hl1 as <-. rewrite Hc in Hc1. injection Hc1 as <-.
  reflexivity.
Qed.

Lemma fallback_only_submission_witness :
  exists w',
    submit 2 "Too salty" (world_with_file
                            (LINE "timestamp,rating,review,ai_response,summary,actions"))
      = (Ok (Some {| Row.timestamp := "2024-01-02T03:04:05"; Row.rating := 2;
                     Row.review := "Too salty";
                     Row.ai_response :=
                       "Thanks for your review! We appreciate your feedback.";
                     Row.summary := "Too salty";
                     Row.actions := fallback_actions "Too salty" 2 |}), w')
    /\ sent w' = [].
Proof.
  set (w := world_with_file
              (LINE "timestamp,rating,review,ai_response,summary,actions")).
  destruct (save_submission
              {| Row.timestamp := isoformat (utcnow w);
                 Row.rating := 2; Row.review := "Too salty";
                 Row.ai_response := fallback_user_response 2 "Too salty";
                 Row.summary := fallback_summary "Too salty";
                 Row.actions := fallback_actions "Too salty" 2 |} w)
    as [w4| |] eqn:E; try (vm_compute in E; discriminate).
  assert (Hne : strip "Too salty" <> "") by (cbv; discriminate).
  destruct (fallback_only_submission 2 "Too salty" w w4 eq_refl Hne E)
    as (H1 & H2 & _).
  destruct (submit 2 "Too salty" w) as [r w'] eqn:Es. cbn [fst snd] in *.
  exists w'. subst r. split; [reflexivity | exact H2].
Defined.

(** A submission whose stored file cannot be read fails with the error of
    the reader: nothing is written, no success is announced, and the
    providers have been called all the same when a key is set. *)
Theorem storage_failure_surfaces (rating : Z) (review : string) (w : World)
  (e : exn) :
  strip review <> "" ->
  load_data w = Raise e ->
  fst (submit rating review w) = Raise e
  /\ DATA_PATH (snd (submit rating review w)) = DATA_PATH w
  /\ screen (snd (submit rating review w))
     = (screen w ++ [st_info "Saving your review..."])%list
  /\ (missing_key_warning w = false ->
      exists rq l, sent (snd (submit rating review w)) = (sent w ++ rq :: l)%list
                   /\ message_content rq = user_reply_prompt rating review).
Proof.
  intros Hne Hl.
  destruct (submit_steps rating review w Hne)
    as (r1 & r2 & r3 & l1 & l2 & l3 & E1 & E2 & E3 & Hs).
  cbv zeta in *.
  match type of Hs with
  | match save_submission ?row ?w3 with _ => _ end =>
      assert (Es : save_submission row w3 = Raise e)
        by (unfold save_submission, load_data in *; cbn [DATA_PATH with_sent show];
            cbn [DATA_PATH with_sent show] in Hl; rewrite Hl; reflexivity)
  end.
  rewrite Es in Hs. rewrite Hs. cbn [fst snd].
  split; [reflexivity|]. split; [reflexivity|]. split; [reflexivity|].
  intros Hk. cbn [sent with_sent show].
  unfold call_llm_text, call_llm_text_with, post in E1.
  unfold missing_key_warning in Hk. apply negb_false_iff in Hk.
  cbn [OPENAI_API_KEY OPENROUTER_API_KEY show] in E1.
  destruct (py_or (OPENAI_API_KEY w) (OPENROUTER_API_KEY w)) as [[|c k]|];
    try discriminate.
  assert (Hl1 : exists rq l, l1 = rq :: l
                             /\ message_content rq = user_reply_prompt rating review).
  { destruct (read_completion _) in E1.
    - injection E1 as _ E1. apply app_inv_head in E1.
      eexists _, _. split; [symmetry; exact E1 | reflexivity].
    - cbn [sent with_sent OPENROUTER_API_KEY provider show] in E1.
      destruct (truthy (OPENROUTER_API_KEY w)); injection E1 as _ E1;
        rewrite <- ?app_assoc in E1; apply app_inv_head in E1;
        eexists _, _; (split; [symmetry; exact E1 | reflexivity]). }
  destruct Hl1 as (rq & l & -> & Hp). exists rq, (l ++ l2 ++ l3)%list.
  split; [|exact Hp]. rewrite <- !app_assoc. reflexivity.
Qed.

(** An empty stored file makes every submission fail with
    EmptyDataError. *)
Lemma storage_failure_surfaces_witness :
  fst (submit 5 "Great food" (world_with_file "")) = Raise EmptyDataError
  /\ DATA_PATH (snd (submit 5 "Great food" (world_with_file ""))) = Some "".
Proof.
  assert (Hne : strip "Great food" <> "") by (cbv; discriminate).
  destruct (storage_failure_surfaces 5 "Great food" (world_with_file "")
              EmptyDataError Hne eq_refl) as (H1 & H2 & _).
  split; assumption.
Defined.

Lemma prompts_differ (rating rating' : Z) (review review' : string) :
  user_reply_prompt rating review <> summary_prompt review'
  /\ user_reply_prompt rating review <> actions_prompt review' rating'
  /\ summary_prompt review <> actions_prompt review' rating'.
Proof.
  unfold user_reply_prompt, summary_prompt, actions_prompt.
  repeat split; cbn [append]; discriminate.
Qed.

(** The requests of one call: none, one to OpenAI, or one to OpenAI and
    one to OpenRouter. *)
Lemma call_llm_text_sent (prompt : string) (w w' : World) (r : option string) :
  call_llm_text prompt w = (r, w') ->
  exists l,
    sent w' = (sent w ++ l)%list
    /\ (length l <= 2)%nat
    /\ NoDup l
    /\ Forall (fun rq => message_content rq = prompt) l.
Proof.
  unfold call_llm_text, call_llm_text_with, post. intros H.
  destruct (py_or (OPENAI_API_KEY w) (OPENROUTER_API_KEY w)) as [[|c k]|];
    try (injection H as _ <-; exists []; rewrite app_nil_r;
         repeat split; [cbn; lia | constructor | constructor]).
  assert (H1 : forall rq : request, NoDup [rq])
    by (intros rq; constructor; [intros [] | constructor]).
  destruct (read_completion (provider w _)).
  - injection H as _ <-. eexists [_]. cbn [sent with_sent].
    repeat split; [cbn; lia | apply H1 | repeat constructor].
  - cbn [sent with_sent OPENROUTER_API_KEY provider] in H.
    destruct (truthy (OPENROUTER_API_KEY w)); injection H as _ <-.
    + eexists [_; _]. split; [cbn [sent with_sent]; rewrite <- app_assoc; reflexivity|].
      repeat split; [cbn; lia | | repeat constructor].
      constructor; [|apply H1]. intros [E|[]]. discriminate.
    + eexists [_]. cbn [sent with_sent].
      repeat split; [cbn; lia | apply H1 | repeat constructor].
Qed.

(** A submission that is not refused sends at most six requests, at most
    two for each of the reply, the summary and the actions, in this order,
    and no request twice. *)
Theorem submission_requests (rating : Z) (review : string) (w : World) :
  strip review <> "" ->
  exists l1 l2 l3,
    sent (snd (submit rating review w)) = (sent w ++ l1 ++ l2 ++ l3)%list
    /\ (length l1 <= 2)%nat /\ (length l2 <= 2)%nat /\ (length l3 <= 2)%nat
    /\ Forall (fun rq => message_content rq = user_reply_prompt rating review) l1
    /\ Forall (fun rq => message_content rq = summary_prompt review) l2
    /\ Forall (fun rq => message_content rq = actions_prompt review rating) l3
    /\ NoDup (l1 ++ l2 ++ l3)%list.
Proof.
  intros Hne.
  destruct (submit_steps rating review w Hne)
    as (r1 & r2 & r3 & l1 & l2 & l3 & E1 & E2 & E3 & Hs).
  cbv zeta in *.
  destruct (call_llm_text_sent _ _ _ _ E1) as (m1 & S1 & L1 & N1 & F1).
  destruct (call_llm_text_sent _ _ _ _ E2) as (m2 & S2 & L2 & N2 & F2).
  destruct (call_llm_text_sent _ _ _ _ E3) as (m3 & S3 & L3 & N3 & F3).
  cbn [sent with_sent show] in S1, S2, S3.
  apply app_inv_head in S1, S2, S3. subst m1 m2 m3.
  exists l1, l2, l3.
  assert (Hsent : sent (snd (submit rating review w))
                  = (sent w ++ l1 ++ l2 ++ l3)%list).
  { destruct (save_submission _ _) as [w4| |] eqn:Es; rewrite Hs;
      [apply save_submission_inv in Es as (df & df' & _ & _ & ->)| |];
      cbn [snd sent with_sent with_file show]; rewrite <- !app_assoc; reflexivity. }
  split; [exact Hsent|]. repeat (split; [assumption|]).
  destruct (prompts_differ rating rating review review) as (D12 & D13 & D23).
  rewrite Forall_forall in F1, F2, F3.
  apply NoDup_app; [exact N1 | apply NoDup_app; [exact N2 | exact N3 |] |].
  - intros rq H2 H3. apply D23. rewrite <- (F2 rq H2). exact (F3 rq H3).
  - intros rq H1 H23. apply in_app_or in H23 as [H2|H3].
    + apply D12. rewrite <- (F1 rq H1). exact (F2 rq H2).
    + apply D13. rewrite <- (F1 rq H1). exact (F3 rq H3).
Qed.

(** With both keys set and providers that always fail, six requests are
    sent. *)
Lemma submission_requests_witness :
  let w := {| OPENAI_API_KEY := Some "sk-openai"; OPENROUTER_API_KEY := Some "sk-or";
              provider := fun _ => PostRaises; sent := []; DATA_PATH := None;
              utcnow := a_moment; screen := [] |} in
  length (sent (snd (submit 5 "Great food" w))) = 6%nat
  /\ NoDup (sent (snd (submit 5 "Great food" w))).
Proof.
  intros w.
  assert (Hne : strip "Great food" <> "") by (cbv; discriminate).
  destruct (submission_requests 5 "Great food" w Hne)
    as (l1 & l2 & l3 & Hs & _ & _ & _ & _ & _ & _ & Hnd).
  split; [vm_compute; reflexivity|]. rewrite Hs. exact Hnd.
Defined.

(** ** Further properties of the admin dashboard *)

Lemma select_select {A} (m1 m2 : list bool) (l : list A) :
  exists m, select m2 (select m1 l) = select m l.
Proof.
  revert m2 l; induction m1 as [|b m1 IH]; intros m2 l.
  - exists []. cbn [select]. apply select_nil.
  - destruct l as [|x l]; [exists []; cbn [select]; apply select_nil|].
    cbn [select]. destruct b.
    + destruct m2 as [|b2 m2]; [exists []; reflexivity|].
      destruct (IH m2 l) as [m Hm]. exists (b2 :: m). cbn [select].
      destruct b2; now rewrite Hm.
    + destruct (IH m2 l) as [m Hm]. exists (false :: m). exact Hm.
Qed.

Lemma select_by_test {A} (f : A -> bool) (l : list A) :
  Forall (fun x => f x = true) (select (map f l) l).
Proof.
  induction l as [|x l IH]; cbn [map select]; [constructor|].
  destruct (f x) eqn:E; [constructor|]; assumption.
Qed.

Lemma select_rows_by_column (f : cell -> bool) (i : nat) (rows : list (list cell)) :
  select (map f (map (fun r => nth i r NaN) rows)) rows
  = select (map (fun r => f (nth i r NaN)) rows) rows.
Proof. now rewrite map_map. Qed.

(** What the filter shows is taken from the table: the columns are those
    of the table, the rows are rows of the table in their order, and every
    one of them has a rating that is selected. *)
Theorem filter_selects_rows (df filtered : DataFrame) (selected_ratings : list Z)
  (q : string) :
  admin_filter df selected_ratings q = Ok filtered ->
  columns filtered = columns df
  /\ (exists mask, data filtered = select mask (data df))
  /\ (forall i, index_of "rating" (names df) = Some i ->
        Forall (fun r => isin selected_ratings (nth i r NaN) = true)
               (data filtered)).
Proof.
  unfold admin_filter.
  destruct (getitem df "rating") as [rating| |] eqn:Er; cbn [bind]; try discriminate.
  assert (Hkept : forall i, index_of "rating" (names df) = Some i ->
            Forall (fun r => isin selected_ratings (nth i r NaN) = true)
                   (select (map (isin selected_ratings) (snd rating)) (data df))).
  { intros i Hi. unfold getitem in Er. rewrite Hi in Er.
    destruct (lookup_dtype "rating" (columns df)); [|discriminate].
    injection Er as <-. cbn [snd]. rewrite select_rows_by_column.
    apply (select_by_test (fun r => isin selected_ratings (nth i r NaN))). }
  destruct (negb _).
  - destruct (getitem _ "review") as [review| |]; cbn [bind]; try discriminate.
    destruct (str_contains review q) as [mask| |]; cbn [bind]; try discriminate.
    intros H; injection H as <-. cbn [df_select columns data].
    split; [reflexivity|]. split; [apply select_select|].
    intros i Hi. apply Forall_select. exact (Hkept i Hi).
  - intros H; injection H as <-. cbn [df_select columns data].
    split; [reflexivity|]. split; [eexists; reflexivity|]. exact Hkept.
Qed.

(** Of the four reviews, the ratings 4 and 5 with the search string "o"
    keep the first two. *)
Lemma filter_selects_rows_witness :
  exists filtered,
    admin_filter four_ratings [4; 5] "o" = Ok filtered
    /\ data filtered = select [true; true; false; false] (data four_ratings)
    /\ Forall (fun r => isin [4; 5] (nth 1 r NaN) = true) (data filtered).
Proof.
  destruct (admin_filter four_ratings [4; 5] "o") as [filtered| |] eqn:E;
    try (vm_compute in E; discriminate).
  destruct (filter_selects_rows four_ratings filtered [4; 5] "o" E)
    as (_ & _ & H).
  exists filtered. split; [reflexivity|]. split; [|exact (H 1%nat eq_refl)].
  vm_compute in E. injection E as <-. reflexivity.
Defined.

Lemma getitem_missing_df_select (df : DataFrame) (name : string) (mask : list bool) :
  getitem df name = Raise KeyError ->
  getitem (df_select df mask) name = Raise KeyError.
Proof.
  unfold getitem, df_select, names. cbn [columns data].
  destruct (index_of name (map fst (columns df)));
    destruct (lookup_dtype name (columns df)); try discriminate; reflexivity.
Qed.

(** The columns the admin page needs.  On a stored table that is not
    empty: without a rating column the page fails with KeyError; with a
    blank search string the review column is never read; with a search
    string that is not blank the page fails with KeyError when the review
    column is missing and with AttributeError when it holds no text (all
    its values are missing, or numbers, or booleans), whatever the search
    string is. *)
Theorem admin_page_needs_columns (w : World) (df : DataFrame)
  (selected_ratings : list Z) (q : string) :
  load_data w = Ok df ->
  df_empty df = false ->
  (getitem df "rating" = Raise KeyError ->
   admin_dashboard selected_ratings q w = Raise KeyError)
  /\ (forall rating, getitem df "rating" = Ok rating -> strip q = "" ->
        admin_filter df selected_ratings q
        = Ok (df_select df (map (isin selected_ratings) (snd rating))))
  /\ (forall rating, getitem df "rating" = Ok rating -> strip q <> "" ->
        getitem df "review" = Raise KeyError ->
        admin_filter df selected_ratings q = Raise KeyError)
  /\ (forall rating d cells, getitem df "rating" = Ok rating -> strip q <> "" ->
        getitem df "review" = Ok (d, cells) -> d <> object_ ->
        admin_filter df selected_ratings q = Raise AttributeError).
Proof.
  intros Hl He. split; [|split; [|split]].
  - intros Hr. unfold admin_dashboard. rewrite Hl. cbn [bind]. rewrite He.
    unfold analytics. rewrite Hr. reflexivity.
  - intros rating Hr Hq. unfold admin_filter. rewrite Hr, Hq. reflexivity.
  - intros rating Hr Hq Hv. unfold admin_filter. rewrite Hr. cbn [bind].
    destruct (String.eqb_spec (strip q) "") as [E|_]; [contradiction|].
    cbn [negb]. rewrite (getitem_missing_df_select _ _ _ Hv). reflexivity.
  - intros rating d cells Hr Hq Hv Hd. unfold admin_filter. rewrite Hr. cbn [bind].
    destruct (String.eqb_spec (strip q) "") as [E|_]; [contradiction|].
    cbn [negb]. rewrite (getitem_df_select _ _ _ _ _ Hv). cbn [bind].
    unfold str_contains, str_accessor. cbn [fst].
    destruct d; try reflexivity. contradiction.
Qed.

(** A stored file with the columns timestamp and review only: the admin
    page fails with KeyError. *)
Lemma admin_page_needs_columns_witness :
  admin_dashboard [1; 2; 3; 4; 5] "" (world_with_file missing_column_file)
  = Raise KeyError.
Proof.
  destruct (load_data (world_with_file missing_column_file)) as [df| |] eqn:E;
    try (vm_compute in E; discriminate).
  assert (He : df_empty df = false)
    by (vm_compute in E; injection E as <-; reflexivity).
  destruct (admin_page_needs_columns _ df [1; 2; 3; 4; 5] "" E He) as (H & _).
  apply H. vm_compute in E. injection E as <-. reflexivity.
Defined.

(** The file is deleted only from a page that was drawn in full, with the
    box ticked and the button pressed; then the store is empty and the
    deletion is announced.  In every other case the admin page leaves the
    file as it is, and it never sends a request. *)
Theorem delete_needs_confirmation (selected_ratings : list Z) (q : string)
  (confirm delete_all : bool) (w : World) :
  let w' := snd (admin_page selected_ratings q confirm delete_all w) in
  sent w' = sent w
  /\ (DATA_PATH w' <> DATA_PATH w ->
      confirm = true /\ delete_all = true
      /\ exists view, admin_dashboard selected_ratings q w = Ok (Some view))
  /\ (forall view, admin_dashboard selected_ratings q w = Ok (Some view) ->
        confirm = true -> delete_all = true ->
        DATA_PATH w' = None
        /\ load_data w' = Ok empty_table
        /\ In (st_success "All submissions deleted. Refresh the app to see changes.")
              (screen w')).
Proof.
  unfold admin_page. cbv zeta.
  destruct (admin_dashboard selected_ratings q w) as [[view|]| |] eqn:E.
  - destruct confirm, delete_all; cbn [andb snd];
      try (split; [reflexivity|];
           split; [intros H; contradiction H; reflexivity
                  | intros v _ Hc Hb; discriminate]).
    assert (Hn : DATA_PATH (delete_all_submissions (show w (st_markdown "---")))
                 = None).
    { unfold delete_all_submissions. cbn [DATA_PATH show].
      destruct (DATA_PATH w) eqn:Ed; cbn [DATA_PATH with_file show]; auto. }
    assert (Hs : sent (delete_all_submissions (show w (st_markdown "---")))
                 = sent w).
    { unfold delete_all_submissions. cbn [DATA_PATH show].
      destruct (DATA_PATH w); reflexivity. }
    split; [exact Hs|]. split; [intros _; eauto|].
    intros v _ _ _. split; [exact Hn|]. split.
    + unfold load_data. cbn [DATA_PATH show]. rewrite Hn. reflexivity.
    + cbn [screen show]. apply in_or_app. right. left. reflexivity.
  - cbn [snd]. split; [reflexivity|]. split; [|intros v Hv; discriminate].
    intros H. contradiction H. reflexivity.
  - cbn [snd]. split; [reflexivity|]. split; [|intros v Hv; discriminate].
    intros H. contradiction H. reflexivity.
  - cbn [snd]. split; [reflexivity|]. split; [|intros v Hv; discriminate].
    intros H. contradiction H. reflexivity.
Qed.

Lemma count_1_5 (l : list Z) :
  (count_occ Z.eq_dec l 1%Z + (count_occ Z.eq_dec l 2%Z
   + (count_occ Z.eq_dec l 3%Z + (count_occ Z.eq_dec l 4%Z
   + (count_occ Z.eq_dec l 5%Z + 0)))))%nat
  = length (filter in_1_5 l).
Proof.
  induction l as [|x l IH]; [reflexivity|].
  cbn [count_occ filter]. unfold in_1_5 at 1.
  destruct (Z.eq_dec x 1), (Z.eq_dec x 2), (Z.eq_dec x 3), (Z.eq_dec x 4),
    (Z.eq_dec x 5); try lia;
    destruct (1 <=? x) eqn:E1; destruct (x <=? 5) eqn:E2; cbn [andb length];
    try apply Z.leb_le in E1; try apply Z.leb_le in E2;
    try apply Z.leb_gt in E1; try apply Z.leb_gt in E2; lia.
Qed.

Lemma filter_all_length {A} (f : A -> bool) (l : list A) :
  length (filter f l) = length l <-> Forall (fun x => f x = true) l.
Proof.
  induction l as [|x l IH]; cbn [filter length].
  - split; [constructor | reflexivity].
  - pose proof (filter_length_le f l) as Hle. destruct (f x) eqn:E; cbn [length].
    + split.
      * intros H. constructor; [exact E | apply IH; lia].
      * intros H. inversion H; subst. f_equal. now apply IH.
    + split; [lia|]. intros H. inversion H; subst. congruence.
Qed.

(** The five counts of the analytics row add up to the number of rows
    whose rating lies between 1 and 5: a row with another rating is counted
    in the total and in the mean but under no rating, so the counts add up
    to the total exactly when every rating lies between 1 and 5. *)
Theorem per_rating_counts_total (df : DataFrame) (ratings : list Z) (a : Analytics) :
  getitem df "rating" = Ok (int64, map VInt ratings) ->
  analytics df = Ok a ->
  list_sum (map snd (per_rating a)) = length (filter in_1_5 ratings)
  /\ (list_sum (map snd (per_rating a)) <= total a)%nat
  /\ (list_sum (map snd (per_rating a)) = total a
      <-> Forall (fun r => 1 <= r <= 5) ratings).
Proof.
  intros Hr Ha.
  assert (Hlen : length ratings = nrows df).
  { unfold getitem in Hr.
    destruct (index_of "rating" (names df)) as [i|]; [|discriminate].
    destruct (lookup_dtype "rating" (columns df)) as [d|]; [|discriminate].
    injection Hr as _ Hr.
    apply (f_equal (@length cell)) in Hr. rewrite !length_map in Hr.
    unfold nrows. congruence. }
  unfold analytics in Ha. rewrite Hr in Ha. cbn [bind fst snd] in Ha.
  rewrite ints_of_map_VInt in Ha.
  destruct (sums_exactly ratings); [|discriminate]. injection Ha as <-.
  cbn [per_rating total map snd list_sum fold_right].
  rewrite !counts_get_value_counts, count_1_5.
  split; [reflexivity|]. rewrite <- Hlen. split; [apply filter_length_le|].
  rewrite filter_all_length. split; intros H; eapply Forall_impl; try exact H;
    intros r Hx; unfold in_1_5 in *.
  - apply andb_true_iff in Hx as [H1 H2]. apply Z.leb_le in H1, H2. lia.
  - apply andb_true_iff. split; apply Z.leb_le; lia.
Qed.

(** With the ratings 5, 0 and 7 the total is three and one row is
    counted. *)
Lemma per_rating_counts_total_witness :
  let df := {| columns := submission_columns;
               data := [ [VStr "t1"; VInt 5; VStr "a"; VStr "b"; VStr "c"; VStr "d"];
                         [VStr "t2"; VInt 0; VStr "a"; VStr "b"; VStr "c"; VStr "d"];
                         [VStr "t3"; VInt 7; VStr "a"; VStr "b"; VStr "c"; VStr "d"] ] |} in
  exists a, analytics df = Ok a
            /\ total a = 3%nat
            /\ list_sum (map snd (per_rating a)) = 1%nat.
Proof.
  intros df.
  destruct (analytics df) as [a| |] eqn:E; try (vm_compute in E; discriminate).
  destruct (per_rating_counts_total df [5; 0; 7] a eq_refl E) as (H & _).
  exists a. split; [reflexivity|]. split; [|exact H].
  vm_compute in E. injection E as <-. reflexivity.
Defined.

(** ** The whole script *)

Lemma submit_unchanged (rating : Z) (review : string) (w : World) :
  strip review = "" ->
  snd (submit rating review w) = show w (st_error "Review cannot be empty").
Proof. intros H. unfold submit. rewrite H. reflexivity. Qed.

Lemma no_key_no_new_requests (prompt : string) (w : World) (r : option string)
  (l : list request) :
  missing_key_warning w = true ->
  call_llm_text prompt w = (r, with_sent w (sent w ++ l)%list) ->
  l = [].
Proof.
  intros Hk H. rewrite (no_key_call prompt w Hk) in H. injection H as _ H.
  apply (f_equal sent) in H. cbn [sent with_sent] in H.
  rewrite <- (app_nil_r (sent w)) in H at 1. apply app_inv_head in H.
  symmetry. exact H.
Qed.

(** One run of the script changes the stored file in two ways only: by a
    submission on the user page (the button pressed, the review not blank)
    or by a confirmed deletion on the admin page, after which no file is
    left.  It sends requests only for such a submission and only when a
    key is set.  The warning of the sidebar is shown on every run that
    ends without an exception when no key is set. *)
Theorem script_effects (ws : Widgets) (w : World) :
  let w' := snd (app_py ws w) in
  (DATA_PATH w' <> DATA_PATH w ->
     (page ws = User_Dashboard /\ submit_button ws = true
      /\ strip (review_area ws) <> "")
     \/ (page ws = Admin_Dashboard /\ confirm_box ws = true
         /\ delete_button ws = true /\ DATA_PATH w' = None))
  /\ (sent w' <> sent w ->
        page ws = User_Dashboard /\ submit_button ws = true
        /\ strip (review_area ws) <> "" /\ missing_key_warning w = false)
  /\ (forall shown, fst (app_py ws w) = Ok shown -> shown = missing_key_warning w).
Proof.
  unfold app_py. cbv zeta. destruct (page ws) eqn:Ep.
  - destruct (submit_button ws) eqn:Eb.
    + destruct (String.eqb_spec (strip (review_area ws)) "") as [E|Hne].
      * pose proof (submit_unchanged (rating_box ws) (review_area ws) w E) as Hs.
        destruct (submit (rating_box ws) (review_area ws) w) as [[r| |] w1];
          cbn [fst snd] in *; subst w1;
          (split; [intros H; contradiction H; reflexivity|]);
          (split; [intros H; contradiction H; reflexivity|]);
          intros shown H; try discriminate; injection H as <-; reflexivity.
      * assert (Hkeys : missing_key_warning
                          (snd (submit (rating_box ws) (review_area ws) w))
                        = missing_key_warning w).
        { destruct (submit_steps (rating_box ws) (review_area ws) w Hne)
            as (r1 & r2 & r3 & l1 & l2 & l3 & _ & _ & _ & Hs).
          cbv zeta in Hs.
          destruct (save_submission _ _) as [w4| |] eqn:Es; rewrite Hs;
            [apply save_submission_inv in Es as (df & df' & _ & _ & ->)| |];
            reflexivity. }
        assert (Hsent : missing_key_warning w = true ->
                  sent (snd (submit (rating_box ws) (review_area ws) w)) = sent w).
        { intros Hk.
          destruct (submit_steps (rating_box ws) (review_area ws) w Hne)
            as (r1 & r2 & r3 & l1 & l2 & l3 & E1 & E2 & E3 & Hs).
          cbv zeta in *.
          match type of E1 with call_llm_text _ ?W = _ =>
            apply (no_key_no_new_requests _ W _ _ Hk) in E1 end. subst l1.
          match type of E2 with call_llm_text _ ?W = _ =>
            apply (no_key_no_new_requests _ W _ _ Hk) in E2 end. subst l2.
          match type of E3 with call_llm_text _ ?W = _ =>
            apply (no_key_no_new_requests _ W _ _ Hk) in E3 end. subst l3.
          destruct (save_submission _ _) as [w4| |] eqn:Es; rewrite Hs;
            [apply save_submission_inv in Es as (df & df' & _ & _ & ->)| |];
            cbn [snd sent with_sent with_file show]; rewrite ?app_nil_r;
            reflexivity. }
        destruct (submit (rating_box ws) (review_area ws) w) as [[r| |] w1];
          cbn [fst snd] in *;
          (split; [intros _; left; auto|]);
          (split; [intros H; repeat (split; [solve [auto]|]);
                   destruct (missing_key_warning w); [|reflexivity];
                   contradiction H; auto|]);
          intros shown H; try discriminate; injection H as <-; exact Hkeys.
    + cbn [fst snd].
      split; [intros H; contradiction H; reflexivity|].
      split; [intros H; contradiction H; reflexivity|].
      intros shown H; injection H as <-. reflexivity.
  - unfold admin_page.
    destruct (admin_dashboard (rating_filter ws) (search_box ws) w)
      as [[view|]| |];
      try (cbn [fst snd];
           split; [intros H; contradiction H; reflexivity|];
           split; [intros H; contradiction H; reflexivity|];
           intros shown H; try discriminate; injection H as <-; reflexivity).
    destruct (confirm_box ws) eqn:Ec, (delete_button ws) eqn:Eb; cbn [andb fst snd];
      try (split; [intros H; contradiction H; reflexivity|];
           split; [intros H; contradiction H; reflexivity|];
           intros shown H; injection H as <-; reflexivity).
    unfold delete_all_submissions. cbn [DATA_PATH show].
    destruct (DATA_PATH w) eqn:Ed; cbn [DATA_PATH sent with_file show].
    + split; [intros _; right; auto|].
      split; [intros H; contradiction H; reflexivity|].
      intros shown H; injection H as <-; reflexivity.
    + rewrite Ed. split; [intros H; contradiction H; reflexivity|].
      split; [intros H; contradiction H; reflexivity|].
      intros shown H; injection H as <-; reflexivity.
Qed.

(** ** Saving and loading *)

Lemma concat_submission (row : Row.t) (df df' : DataFrame) :
  names df = map fst submission_columns ->
  Forall (fun r => length r = 6%nat) (data df) ->
  concat df (DataFrame_of_row row) = Ok df' ->
  names df' = map fst submission_columns
  /\ data df' = (data df ++ [cells_of_row row])%list.
Proof.
  intros Hn Hlen Hc. unfold concat in Hc. rewrite Hn in Hc.
  change (names (DataFrame_of_row row)) with (map fst submission_columns) in Hc.
  cbn [submission_columns map fst filter mem_string existsb String.eqb Ascii.eqb
       Bool.eqb negb orb app] in Hc.
  destruct (concat_columns df (DataFrame_of_row row) _) as [cols| |] eqn:Ec;
    cbn [bind] in Hc; try discriminate.
  injection Hc as <-. split.
  - unfold names at 1. cbn [columns]. exact (concat_columns_names _ _ _ _ Ec).
  - cbn [data]. f_equal.
    rewrite <- (map_id (data df)) at 2. apply map_ext_in. intros r Hr.
    rewrite Forall_forall in Hlen. specialize (Hlen r Hr).
    destruct r as [|c1 [|c2 [|c3 [|c4 [|c5 [|c6 [|? ?]]]]]]]; try discriminate.
    reflexivity.
Qed.

Lemma typed_submission_rows (rows : list (list cell)) :
  typed_rows submission_kinds rows ->
  Forall (fun r => exists c0 z c2 c3 c4 c5, r = [c0; VInt z; c2; c3; c4; c5]) rows.
Proof.
  unfold typed_rows, submission_kinds. intros H. eapply Forall_impl; [|exact H].
  intros r Hr.
  inversion Hr as [|k0 c0 ? ? _ H1]; subst.
  inversion H1 as [|k1 c1 ? ? Hk1 H2]; subst.
  inversion H2 as [|k2 c2 ? ? _ H3]; subst.
  inversion H3 as [|k3 c3 ? ? _ H4]; subst.
  inversion H4 as [|k4 c4 ? ? _ H5]; subst.
  inversion H5 as [|k5 c5 ? ? _ H6]; subst.
  inversion H6; subst.
  destruct c1; try contradiction. eauto 10.
Qed.

Lemma column_app (j : nat) (a b : list (list cell)) :
  column j (a ++ b) = (column j a ++ column j b)%list.
Proof. apply map_app. Qed.

(** Saving a submission and loading the store gives back the rows it
    held, followed by the new row as it was submitted: for a store whose
    rows are submissions (text, an integer rating, four texts), a new row
    that is storable, and rows that are safe to write. *)
Theorem saved_submission_loads_back (row : Row.t) (w w' : World) (df : DataFrame) :
  load_data w = Ok df ->
  names df = map fst submission_columns ->
  typed_rows submission_kinds (data df) ->
  storable row = true ->
  forallb safe_row (map (map render) (data df ++ [cells_of_row row])) = true ->
  one_block 6 (S (nrows df)) = true ->
  save_submission row w = Ok w' ->
  exists reloaded,
    load_data w' = Ok reloaded
    /\ names reloaded = names df
    /\ data reloaded = (data df ++ [cells_of_row row])%list.
Proof.
  intros Hl Hn Ht Hrow Hsafe Hb Hs.
  apply save_submission_inv in Hs as (df0 & df' & Hl0 & Hc & ->).
  rewrite Hl in Hl0. injection Hl0 as <-.
  assert (Hlen : Forall (fun r => length r = 6%nat) (data df)).
  { eapply Forall_impl; [|exact Ht]. intros r Hr.
    apply Forall2_length in Hr. symmetry. exact Hr. }
  destruct (concat_submission row df df' Hn Hlen Hc) as [Hn' Hd'].
  unfold storable in Hrow. apply andb_true_iff in Hrow as [Hrange Htexts].
  apply andb_true_iff in Hrange as [Hlo Hhi].
  apply Z.leb_le in Hlo. apply Z.ltb_lt in Hhi.
  cbn [forallb] in Htexts.
  repeat (apply andb_true_iff in Htexts as [? Htexts]).
  repeat match goal with
         | H : kept_text _ = true |- _ =>
             unfold kept_text in H;
             apply andb_true_iff in H as [H ?];
             apply andb_true_iff in H as [H ?]
         end.
  repeat match goal with
         | H : negb _ = true |- _ => apply negb_true_iff in H
         end.
  assert (Hcols : length (columns df') = 6%nat).
  { apply (f_equal (@length string)) in Hn'. unfold names in Hn'.
    rewrite length_map in Hn'. exact Hn'. }
  unfold load_data. cbn [DATA_PATH with_file].
  destruct (to_csv_read_back df' submission_kinds) as (reloaded & Hr & Hrn & Hrd).
  - rewrite Hn'. reflexivity.
  - rewrite Hn'. reflexivity.
  - rewrite Hcols. reflexivity.
  - rewrite Hd'. unfold typed_rows in *. apply Forall_app. split; [exact Ht|].
    constructor; [|constructor]. unfold submission_kinds, cells_of_row.
    repeat (constructor; [cbn [cell_of_kind]; first [assumption | lia]|]).
    constructor.
  - rewrite Hcols. unfold nrows. rewrite Hd', length_app. cbn [length].
    rewrite Nat.add_1_r. exact Hb.
  - unfold exportable. rewrite Hn', Hd'. cbn [forallb]. rewrite Hsafe.
    reflexivity.
  - unfold columns_stay_text. rewrite Hcols, Hd'.
    pose proof (typed_submission_rows _ Ht) as Hshape.
    assert (Hint : existsb is_str (column 1 (data df)) = false).
    { clear - Hshape. induction Hshape as [|r rows Hr _ IH]; [reflexivity|].
      destruct Hr as (c0 & z & c2 & c3 & c4 & c5 & ->).
      unfold column in *. cbn [map existsb nth is_str orb]. exact IH. }
    assert (Hplain : forall t, numeric_like t = false -> bool_like t = false ->
              forall cells, text_stays_text (cells ++ [VStr t]) = true).
    { intros t Hnum Hbool cells. unfold text_stays_text.
      rewrite !existsb_app. cbn [existsb plain_text]. rewrite Hnum, Hbool.
      cbn [negb andb orb]. now rewrite !orb_true_r. }
    cbn [seq forallb]. rewrite !column_app.
    change (column 0 [cells_of_row row]) with [VStr (Row.timestamp row)].
    change (column 1 [cells_of_row row]) with [VInt (Row.rating row)].
    change (column 2 [cells_of_row row]) with [VStr (Row.review row)].
    change (column 3 [cells_of_row row]) with [VStr (Row.ai_response row)].
    change (column 4 [cells_of_row row]) with [VStr (Row.summary row)].
    change (column 5 [cells_of_row row]) with [VStr (Row.actions row)].
    rewrite !Hplain by assumption.
    unfold text_stays_text. rewrite existsb_app, Hint. reflexivity.
  - exists reloaded. rewrite Hrn, Hrd, Hn', Hd'. auto.
Qed.

(** The first submission, saved without a file, is loaded back as the
    only row. *)
Lemma saved_submission_loads_back_witness :
  let row := {| Row.timestamp := "2024-01-02T03:04:05"; Row.rating := 4;
                Row.review := "Nice, thanks"; Row.ai_response := "Thanks!";
                Row.summary := "Nice, thanks"; Row.actions := "- Keep going" |} in
  exists w' reloaded,
    save_submission row (world_answering PostRaises) = Ok w'
    /\ load_data w' = Ok reloaded
    /\ data reloaded = [cells_of_row row].
Proof.
  intros row.
  destruct (save_submission row (world_answering PostRaises)) as [w'| |] eqn:E;
    try (vm_compute in E; discriminate).
  destruct (saved_submission_loads_back row (world_answering PostRaises) w'
              empty_table eq_refl eq_refl (Forall_nil _) eq_refl eq_refl eq_refl E)
    as (reloaded & H1 & _ & H2).
  exists w', reloaded. split; [reflexivity|]. split; assumption.
Defined.






(** ** Answers of the providers *)

Lemma good_answer_read (status_code : Z) (j : json) (content : string) :
  ~ (400 <= status_code < 600) ->
  content_path j content ->
  read_completion (Response status_code (Some j)) = Some (strip content).
Proof.
  intros Hs Hc. unfold read_completion.
  assert (E : raise_for_status status_code = false).
  { unfold raise_for_status. apply andb_false_iff.
    destruct (Z.leb_spec 400 status_code) as [H1|H1]; [|now left].
    right. apply Z.ltb_ge. lia. }
  rewrite E. cbn [obind]. apply completion_text_path. eauto.
Qed.

(** The answer of a provider is returned trimmed.  When the OpenAI
    address answers with a status that is neither 4xx nor 5xx and a body
    that holds a completion, its trimmed text is returned and OpenRouter is
    not contacted; when it fails and the OpenRouter key is set, the trimmed
    text of a good answer of OpenRouter is returned. *)
Theorem provider_answer_is_returned (prompt k : string) (w : World)
  (status_code : Z) (j : json) (content : string) :
  let rq1 := chat_request openai_url k prompt "gpt-3.5-turbo" 15 in
  let rq2 := chat_request or_url k prompt "gpt-3.5-turbo" 15 in
  py_or (OPENAI_API_KEY w) (OPENROUTER_API_KEY w) = Some k ->
  k <> "" ->
  ~ (400 <= status_code < 600) ->
  content_path j content ->
  (provider w rq1 = Response status_code (Some j) ->
   call_llm_text prompt w
   = (Some (strip content), with_sent w (sent w ++ [rq1])%list))
  /\ (failed (provider w rq1) ->
      truthy (OPENROUTER_API_KEY w) = true ->
      provider w rq2 = Response status_code (Some j) ->
      call_llm_text prompt w
      = (Some (strip content), with_sent w (sent w ++ [rq1; rq2])%list)).
Proof.
  intros rq1 rq2 Hk Hne Hs Hc.
  unfold call_llm_text, call_llm_text_with, post. rewrite Hk.
  destruct k as [|c k]; [contradiction|]. fold rq1. split.
  - intros H1. rewrite H1, (good_answer_read _ _ _ Hs Hc). reflexivity.
  - intros H1 Hor H2. rewrite (failed_read_completion _ H1).
    cbn [OPENROUTER_API_KEY with_sent provider sent]. rewrite Hor. fold rq2.
    rewrite H2, (good_answer_read _ _ _ Hs Hc).
    unfold with_sent. cbn. rewrite <- app_assoc. reflexivity.
Qed.

(** OpenAI answers 500 and OpenRouter answers with a completion: the
    text of OpenRouter is returned after two requests. *)
Lemma provider_answer_is_returned_witness :
  let w := {| OPENAI_API_KEY := Some "sk-openai"; OPENROUTER_API_KEY := Some "sk-or";
              provider := fun rq => if String.eqb (url rq) or_url
                                    then Response 200 (Some (completion " Fine. "))
                                    else Response 500 None;
              sent := []; DATA_PATH := None; utcnow := a_moment; screen := [] |} in
  fst (call_llm_text "Summarize" w) = Some "Fine."
  /\ length (sent (snd (call_llm_text "Summarize" w))) = 2%nat.
Proof.
  intros w.
  assert (Hs : ~ (400 <= 200 < 600)) by lia.
  assert (Hc : content_path (completion " Fine. ") " Fine. ").
  { unfold content_path, completion. eexists _, _, _, _.
    split; [reflexivity|]. repeat split; reflexivity. }
  assert (Hne : "sk-openai" <> "") by discriminate.
  destruct (provider_answer_is_returned "Summarize" "sk-openai" w 200
              (completion " Fine. ") " Fine. " eq_refl Hne Hs Hc) as [_ H].
  rewrite H.
  - split; reflexivity.
  - apply failed_status. lia.
  - reflexivity.
  - reflexivity.
Defined.

(** ** A store that cannot be read *)

Lemma submit_load_fails (rating : Z) (review : string) (w : World) (e : exn) :
  strip review <> "" ->
  load_data w = Raise e ->
  fst (submit rating review w) = Raise e
  /\ DATA_PATH (snd (submit rating review w)) = DATA_PATH w.
Proof.
  intros Hne Hl.
  destruct (submit_steps rating review w Hne)
    as (r1 & r2 & r3 & l1 & l2 & l3 & _ & _ & _ & Hs).
  cbv zeta in Hs.
  match type of Hs with
  | match save_submission ?row ?w3 with _ => _ end =>
      assert (Es : save_submission row w3 = Raise e)
        by (unfold save_submission, load_data in *; cbn [DATA_PATH with_sent show];
            cbn [DATA_PATH with_sent show] in Hl; rewrite Hl; reflexivity)
  end.
  rewrite Es in Hs. rewrite Hs. split; reflexivity.
Qed.

(** A stored file that cannot be read stays as it is: whatever the
    widgets hold, a run of the script leaves the file unchanged; every
    submission that is not refused and every visit of the admin page ends
    with the error of the reader, so that the delete button is never
    reached. *)
Theorem unreadable_store_stays (ws : Widgets) (w : World) (e : exn) :
  load_data w = Raise e ->
  DATA_PATH (snd (app_py ws w)) = DATA_PATH w
  /\ (page ws = Admin_Dashboard -> fst (app_py ws w) = Raise e)
  /\ (page ws = User_Dashboard -> submit_button ws = true ->
      strip (review_area ws) <> "" -> fst (app_py ws w) = Raise e).
Proof.
  intros Hl. unfold app_py. destruct (page ws).
  - destruct (submit_button ws).
    + destruct (String.eqb_spec (strip (review_area ws)) "") as [E|Hne].
      * pose proof (submit_unchanged (rating_box ws) (review_area ws) w E) as Hs.
        destruct (submit (rating_box ws) (review_area ws) w) as [[r| |] w1];
          cbn [fst snd] in *; subst w1;
          (split; [reflexivity|]); (split; [discriminate|]);
          intros _ _ H; contradiction.
      * destruct (submit_load_fails (rating_box ws) (review_area ws) w e Hne Hl)
          as [H1 H2].
        destruct (submit (rating_box ws) (review_area ws) w) as [[r| |] w1];
          cbn [fst snd] in *; try discriminate.
        injection H1 as ->.
        split; [exact H2|]. split; [discriminate|]. intros _ _ _. reflexivity.
    + cbn [fst snd]. split; [reflexivity|]. split; discriminate.
  - unfold admin_page, admin_dashboard. rewrite Hl. cbn [bind fst snd].
    split; [reflexivity|]. split; [reflexivity | discriminate].
Qed.

(** An empty file: the admin page with the box ticked and the button
    pressed fails with EmptyDataError and the file is still there. *)
Lemma unreadable_store_stays_witness :
  let ws := {| page := Admin_Dashboard; rating_box := 5; review_area := "";
               submit_button := false; rating_filter := [1; 2; 3; 4; 5];
               search_box := ""; confirm_box := true; delete_button := true |} in
  fst (app_py ws (world_with_file "")) = Raise EmptyDataError
  /\ DATA_PATH (snd (app_py ws (world_with_file ""))) = Some "".
Proof.
  intros ws.
  destruct (unreadable_store_stays ws (world_with_file "") EmptyDataError eq_refl)
    as (H1 & H2 & _).
  split; [exact (H2 eq_refl) | exact H1].
Defined.

(** ** A review that reads as a number *)


